(** * meteora_dbc_py: swap orchestration (buy / sell) and the swap estimate

    A shallow embedding of [meteora_dbc.py] and [constants.py].  The two
    entry points [buy] and [sell] are Python functions that talk to an RPC
    node and to helper modules; they are embedded in a small monad [Py]
    that records the visible effects (printed lines and collaborator
    calls) in order and threads Python exceptions.  The byte-level
    payload of the swap instruction is modelled on [list byte]. *)

From Stdlib Require Import ZArith List String Ascii Bool Lia QArith Qround.
From Stdlib Require Import Init.Byte Strings.Byte.
From ExtLib Require Import Structures.Monad.
Import ListNotations.
Import MonadNotation.

Local Open Scope string_scope.
Local Open Scope monad_scope.
Local Open Scope Z_scope.

(* ===================================================================== *)
(** * Python exceptions                                                    *)
(* ===================================================================== *)

(** A raised Python exception: the name of its class, whether the class
    derives from [Exception] (otherwise it derives from [BaseException]
    only, as [KeyboardInterrupt] and [SystemExit] do), and the text
    [str(e)] yields. *)
Record exn : Type := mk_exn {
  exn_type : string;
  exn_is_Exception : bool;
  exn_str : string
}.

(** Result of a Python expression: a value, or a raised exception. *)
Definition result (A : Type) : Type := (exn + A)%type.

(* ===================================================================== *)
(** * Bytes: [bytearray.fromhex] and [struct.pack("<Q", _)]                *)
(* ===================================================================== *)

Module Codec.

Definition byte_of_Z (z : Z) : byte :=
  match Byte.of_N (Z.to_N (z mod 256)) with
  | Some b => b
  | None => x00
  end.

Definition Z_of_byte (b : byte) : Z := Z.of_N (Byte.to_N b).

(** [n] bytes of [x], least significant first. *)
Fixpoint le_bytes (n : nat) (x : Z) : list byte :=
  match n with
  | O => []
  | S n' => byte_of_Z (x mod 256) :: le_bytes n' (x / 256)
  end.

(** The integer a little-endian byte string denotes ([struct.unpack]). *)
Fixpoint le_int (bs : list byte) : Z :=
  match bs with
  | [] => 0
  | b :: rest => Z_of_byte b + 256 * le_int rest
  end.

Definition struct_error : exn :=
  mk_exn "struct.error" true "argument out of range".

(** [struct.pack("<Q", x)]: an unsigned 64-bit little-endian integer;
    raises [struct.error] when [x] does not fit. *)
Definition struct_pack_Q (x : Z) : result (list byte) :=
  if (0 <=? x) && (x <? 2 ^ 64) then inr (le_bytes 8 x) else inl struct_error.

Definition hex_digit (c : ascii) : option Z :=
  let n := Z.of_N (N_of_ascii c) in
  if (48 <=? n) && (n <=? 57) then Some (n - 48)
  else if (97 <=? n) && (n <=? 102) then Some (n - 87)
  else if (65 <=? n) && (n <=? 70) then Some (n - 55)
  else None.

(** ASCII whitespace: space, tab, line feed, vertical tab, form feed,
    carriage return. *)
Definition is_space (c : ascii) : bool :=
  let n := Z.of_N (N_of_ascii c) in
  (n =? 32) || ((9 <=? n) && (n <=? 13)).

(** [bytearray.fromhex(s)]: pairs of hexadecimal digits, ASCII
    whitespace between the pairs being skipped; [None] stands for the
    [ValueError] Python raises otherwise. *)
Fixpoint fromhex (s : string) : option (list byte) :=
  match s with
  | EmptyString => Some []
  | String a rest =>
      if is_space a then fromhex rest
      else
        match rest with
        | String b rest' =>
            match hex_digit a, hex_digit b, fromhex rest' with
            | Some h, Some l, Some bs => Some (byte_of_Z (16 * h + l) :: bs)
            | _, _, _ => None
            end
        | EmptyString => None
        end
  end.

End Codec.

(* ===================================================================== *)
(** * Addresses, constants.py                                              *)
(* ===================================================================== *)

(** A [solders.pubkey.Pubkey], kept as its base-58 text. *)
Inductive Pubkey : Type := Pubkey_from_string (b58 : string).

Definition METEORA_DBC_PROGRAM : Pubkey :=
  Pubkey_from_string "dbcij3LWUppWqq96dh6gJWwBifmcGfLSB5D4DuSMaqN".
Definition SYSTEM_PROGRAM : Pubkey :=
  Pubkey_from_string "11111111111111111111111111111111".
Definition TOKEN_PROGRAM_ID : Pubkey :=
  Pubkey_from_string "TokenkegQfeZyiNwAJbNbGKPFXCWuBvf9Ss623VQ5DA".
Definition POOL_AUTHORITY : Pubkey :=
  Pubkey_from_string "FhVo3mqL8PW5pH5U2CN4XE33DokiyZnUwuGpH2hmHLuM".
Definition CONFIG : Pubkey :=
  Pubkey_from_string "A5LRRhbspMvLGp8P4a7H9VLKaL5VuHKg8usLsNnA9k7E".
Definition REFERRAL_TOKEN_ACC : Pubkey :=
  Pubkey_from_string "dbcij3LWUppWqq96dh6gJWwBifmcGfLSB5D4DuSMaqN".
Definition EVENT_AUTH : Pubkey :=
  Pubkey_from_string "8Ks12pbrD6PXxfty1hVQiE9sc289zgU1zHkvXhrSdriF".
Definition ACCOUNT_SPACE : Z := 165.

(* ===================================================================== *)
(** * Account records read by the orchestration                            *)
(* ===================================================================== *)

Module CurvePoint.
(** Modelled from the spec: the curve point class of [pool_config.py]
    (not in src); the fields are the two the comprehension in [buy] and
    [sell] reads. *)
Record t : Type := mk { sqrt_price : Z; liquidity : Z }.
End CurvePoint.

Module PoolState.
(** Modelled from the spec: the [PoolState] class of [pool_state.py]
    (not in src); the fields are those [buy] and [sell] read. *)
Record t : Type := mk {
  config : Pubkey;
  pool : Pubkey;
  base_mint : Pubkey;
  base_vault : Pubkey;
  quote_vault : Pubkey;
  sqrt_price : Z
}.
End PoolState.

Module PoolConfig.
(** Modelled from the spec: the fee records of [pool_config.py] (not in
    src), reached as [pool_fees.base_fee.cliff_fee_numerator],
    [pool_fees.protocol_fee_percent] and [pool_fees.referral_fee_percent]. *)
Record BaseFee : Type := mk_base_fee { cliff_fee_numerator : Z }.
Record PoolFees : Type := mk_pool_fees {
  base_fee : BaseFee;
  protocol_fee_percent : Z;
  referral_fee_percent : Z
}.
(** Modelled from the spec: the [PoolConfig] class of [pool_config.py]
    (not in src); the fields are those [buy] and [sell] read. *)
Record t : Type := mk {
  quote_mint : Pubkey;
  token_decimal : Z;
  curve : list CurvePoint.t;
  pool_fees : PoolFees
}.
End PoolConfig.

(* ===================================================================== *)
(** * Instructions                                                         *)
(* ===================================================================== *)

(** [solders.keypair.Keypair]: only [pubkey()] is read; signing is the
    transaction collaborator's concern. *)
Record Keypair : Type := mk_keypair { pubkey : Pubkey }.

(** [AccountMeta(pubkey, is_signer, is_writable)]. *)
Record AccountMeta : Type := mk_meta {
  meta_pubkey : Pubkey;
  is_signer : bool;
  is_writable : bool
}.

Record CreateAccountWithSeedParams : Type := mk_create_params {
  from_pubkey : Pubkey;
  to_pubkey : Pubkey;
  base : Pubkey;
  seed : string;
  lamports : Z;
  space : Z;
  owner : Pubkey
}.

Record InitializeAccountParams : Type := mk_init_params {
  init_program_id : Pubkey;
  init_account : Pubkey;
  init_mint : Pubkey;
  init_owner : Pubkey
}.

Record CloseAccountParams : Type := mk_close_params {
  close_program_id : Pubkey;
  close_account_key : Pubkey;
  close_dest : Pubkey;
  close_owner : Pubkey
}.

(** The instruction objects the two functions put into a transaction:
    which builder of [solders] or [spl.token] returned it, and for which
    arguments.  [Instruction] is the raw constructor used for the swap
    itself.  The calls of the three builders that take integers are
    [build_set_compute_unit_limit], [build_set_compute_unit_price] and
    [build_create_account_with_seed] below: they raise when an integer
    does not fit. *)
Inductive Ix : Type :=
| set_compute_unit_limit (units : Z)
| set_compute_unit_price (micro_lamports : Z)
| create_account_with_seed (p : CreateAccountWithSeedParams)
| initialize_account (p : InitializeAccountParams)
| create_associated_token_account (payer owner mint : Pubkey)
| close_account (p : CloseAccountParams)
| Instruction (program_id : Pubkey) (data : list byte) (accounts : list AccountMeta).

(** The unsigned integers of 32 and of 64 bits. *)
Definition in_u32 (x : Z) : bool := (0 <=? x) && (x <? 2 ^ 32).
Definition in_u64 (x : Z) : bool := (0 <=? x) && (x <? 2 ^ 64).

(* ===================================================================== *)
(** * The effect monad                                                     *)
(* ===================================================================== *)

Section Orchestration.

(** Python values the two functions only pass around: the [float]
    arguments, the token balance [get_token_balance] returns, the
    estimate of [swap_estimate], a block hash, a compiled message and a
    transaction signature. *)
Variables float Balance Estimate Blockhash Message Signature : Type.

(** One argument of a [print] call.  [PF prefix v] is an f-string with
    one hole. *)
Inductive Printed : Type :=
| PStr (s : string)
| PPubkey (k : Pubkey)
| PEstimate (e : Estimate)
| PSignature (s : Signature)
| PBool (b : bool)
| PF (prefix : string) (v : Printed).

(** The visible effects, in program order: printed lines and calls to
    collaborators (RPC client, helper modules, the random source). *)
Inductive Event : Type :=
| EPrint (items : list Printed)
| EFetchPoolState (pool_str : string)
| EFetchPoolConfig (config : Pubkey)
| ESwapQuoteToBase (amount_in cliff_fee_num protocol_fee_pct referral_fee_pct cur_sqrt : Z)
                   (curve : list (Z * Z))
| ESwapBaseToQuote (amount_in cliff_fee_num protocol_fee_pct referral_fee_pct cur_sqrt : Z)
                   (curve : list (Z * Z))
| EGetTokenAccountsByOwner (owner mint : Pubkey)
| EGetTokenBalance (owner mint : Pubkey)
| EUrandom (n : Z)
| EGetMinBalanceRent
| EGetLatestBlockhash
| ETryCompile (payer : Pubkey) (instructions : list Ix) (blockhash : Blockhash)
| ESendTransaction (msg : Message) (signer : Keypair)
| EConfirmTxn (sig : Signature).

(** A computation: the effects it performed, then its value or the
    exception that stopped it. *)
Definition Py (A : Type) : Type := (list Event * result A)%type.

Definition Py_ret {A : Type} (a : A) : Py A := ([], inr a).

Definition Py_bind {A B : Type} (m : Py A) (k : A -> Py B) : Py B :=
  match m with
  | (t1, inl e) => (t1, inl e)
  | (t1, inr a) => let (t2, r) := k a in ((t1 ++ t2)%list, r)
  end.

#[local] Instance Monad_Py : Monad Py :=
  {| ret := @Py_ret; bind := @Py_bind |}.

(** [print(items...)]. *)
Definition print (items : list Printed) : Py unit := ([EPrint items], inr tt).

(** A collaborator call: the call is an effect, its outcome comes from
    the environment. *)
Definition call {A : Type} (ev : Event) (r : result A) : Py A := ([ev], r).

(** A local expression that may raise. *)
Definition eval {A : Type} (r : result A) : Py A := ([], r).

(** [try: m  except Exception as e: h e].  The clause matches instances
    of [Exception] only; any other exception leaves the statement. *)
Definition try_except {A : Type} (m : Py A) (h : exn -> Py A) : Py A :=
  match m with
  | (t1, inl e) =>
      if exn_is_Exception e
      then let (t2, r) := h e in ((t1 ++ t2)%list, r)
      else (t1, inl e)
  | (t1, inr a) => (t1, inr a)
  end.

Definition trace {A : Type} (m : Py A) : list Event := fst m.
Definition outcome {A : Type} (m : Py A) : result A := snd m.

(* =================================================================== *)
(** * Collaborators                                                     *)
(* =================================================================== *)

(** What the world answers.  [client] is part of it: every RPC method
    and every helper taking [client] is a field here.  The float
    arithmetic of the two functions is kept as primitive operations. *)
Record Env : Type := mk_env {
  (* pool_utils *)
  env_fetch_pool_state : string -> result PoolState.t;
  env_fetch_pool_config : Pubkey -> result PoolConfig.t;
  (* swap_estimate *)
  env_swap_quote_to_base : Z -> Z -> Z -> Z -> Z -> list (Z * Z) -> result Estimate;
  env_swap_base_to_quote : Z -> Z -> Z -> Z -> Z -> list (Z * Z) -> result Estimate;
  (* common_utils; [confirm_txn] answers the boolean [buy] and [sell]
     return, as their annotation [-> bool] has it *)
  env_get_token_balance : Pubkey -> Pubkey -> result Balance;
  env_confirm_txn : Signature -> result bool;
  (* client.get_token_accounts_by_owner(owner, TokenAccountOpts(mint), Processed):
     the pubkeys of the entries of [.value] *)
  env_get_token_accounts_by_owner : Pubkey -> Pubkey -> result (list Pubkey);
  env_get_associated_token_address : Pubkey -> Pubkey -> result Pubkey;
  (* base64.urlsafe_b64encode(os.urandom(n)).decode("utf-8") *)
  env_urandom_b64 : Z -> result string;
  env_create_with_seed : Pubkey -> string -> Pubkey -> result Pubkey;
  env_get_min_balance_rent : result Z;
  (* client.get_latest_blockhash().value.blockhash *)
  env_get_latest_blockhash : result Blockhash;
  env_try_compile : Pubkey -> list Ix -> Blockhash -> result Message;
  (* client.send_transaction(VersionedTransaction(msg, [signer]), opts).value *)
  env_send_transaction : Message -> Keypair -> result Signature;
  (* int(quote_in * 10 ** decimals) *)
  env_int_scaled : float -> Z -> result Z;
  (* truth value of a balance: [None] and zero are false *)
  env_truthy : Balance -> bool;
  (* int(base_balance * (percentage / 100)) *)
  env_int_share : Balance -> Z -> result Z;
  (* str(e) of the error a solders builder raises for an integer that
     does not fit: the argument or field refused, and the integer *)
  env_range_error_text : string -> Z -> string;
  (* the print of the except clause, print("Error occurred during
     transaction:", e): it evaluates str(e) and writes to sys.stdout,
     and completes or raises *)
  env_print_error : exn -> result unit
}.

Variable env : Env.

Definition fetch_pool_state (pool_str : string) : Py PoolState.t :=
  call (EFetchPoolState pool_str) (env_fetch_pool_state env pool_str).

Definition fetch_pool_config (config : Pubkey) : Py PoolConfig.t :=
  call (EFetchPoolConfig config) (env_fetch_pool_config env config).

Definition swap_quote_to_base (amount_in cliff_fee_num protocol_fee_pct referral_fee_pct
                               cur_sqrt : Z) (curve : list (Z * Z)) : Py Estimate :=
  call (ESwapQuoteToBase amount_in cliff_fee_num protocol_fee_pct referral_fee_pct cur_sqrt curve)
       (env_swap_quote_to_base env amount_in cliff_fee_num protocol_fee_pct referral_fee_pct
                               cur_sqrt curve).

Definition swap_base_to_quote (amount_in cliff_fee_num protocol_fee_pct referral_fee_pct
                               cur_sqrt : Z) (curve : list (Z * Z)) : Py Estimate :=
  call (ESwapBaseToQuote amount_in cliff_fee_num protocol_fee_pct referral_fee_pct cur_sqrt curve)
       (env_swap_base_to_quote env amount_in cliff_fee_num protocol_fee_pct referral_fee_pct
                               cur_sqrt curve).

Definition get_token_balance (owner mint : Pubkey) : Py Balance :=
  call (EGetTokenBalance owner mint) (env_get_token_balance env owner mint).

Definition confirm_txn (sig : Signature) : Py bool :=
  call (EConfirmTxn sig) (env_confirm_txn env sig).

Definition get_token_accounts_by_owner (owner mint : Pubkey) : Py (list Pubkey) :=
  call (EGetTokenAccountsByOwner owner mint) (env_get_token_accounts_by_owner env owner mint).

Definition get_associated_token_address (owner mint : Pubkey) : Py Pubkey :=
  eval (env_get_associated_token_address env owner mint).

Definition urandom_b64 (n : Z) : Py string :=
  call (EUrandom n) (env_urandom_b64 env n).

Definition create_with_seed (base : Pubkey) (seed : string) (program : Pubkey) : Py Pubkey :=
  eval (env_create_with_seed env base seed program).

Definition get_min_balance_rent_for_exempt_for_account : Py Z :=
  call EGetMinBalanceRent (env_get_min_balance_rent env).

Definition get_latest_blockhash : Py Blockhash :=
  call EGetLatestBlockhash (env_get_latest_blockhash env).

Definition try_compile (payer : Pubkey) (instructions : list Ix) (bh : Blockhash) : Py Message :=
  call (ETryCompile payer instructions bh) (env_try_compile env payer instructions bh).

Definition send_transaction (msg : Message) (signer : Keypair) : Py Signature :=
  call (ESendTransaction msg signer) (env_send_transaction env msg signer).

(** [bytearray.fromhex(s)] as an expression that may raise. *)
Definition bytearray_fromhex (s : string) : Py (list byte) :=
  match Codec.fromhex s with
  | Some bs => Py_ret bs
  | None => eval (inl (mk_exn "ValueError" true "non-hexadecimal number found in fromhex() arg"))
  end.

Definition struct_pack_Q (x : Z) : Py (list byte) := eval (Codec.struct_pack_Q x).

(** [set_compute_unit_limit(units)]: [units] becomes a [u32]; an integer
    outside raises [OverflowError]. *)
Definition build_set_compute_unit_limit (units : Z) : Py Ix :=
  if in_u32 units then Py_ret (set_compute_unit_limit units)
  else eval (inl (mk_exn "OverflowError" true (env_range_error_text env "units" units))).

(** [set_compute_unit_price(micro_lamports)]: [micro_lamports] becomes a
    [u64]; an integer outside raises [OverflowError]. *)
Definition build_set_compute_unit_price (micro_lamports : Z) : Py Ix :=
  if in_u64 micro_lamports then Py_ret (set_compute_unit_price micro_lamports)
  else eval (inl (mk_exn "OverflowError" true
                         (env_range_error_text env "micro_lamports" micro_lamports))).

(** [create_account_with_seed(CreateAccountWithSeedParams(...))]: the
    fields [lamports] and [space] become [u64]s, in this order; for an
    integer outside, the extraction of the field raises [TypeError]. *)
Definition build_create_account_with_seed (p : CreateAccountWithSeedParams) : Py Ix :=
  if in_u64 (lamports p) then
    if in_u64 (space p) then Py_ret (create_account_with_seed p)
    else eval (inl (mk_exn "TypeError" true (env_range_error_text env "space" (space p))))
  else eval (inl (mk_exn "TypeError" true (env_range_error_text env "lamports" (lamports p)))).

(* =================================================================== *)
(** * meteora_dbc.py: buy                                               *)
(* =================================================================== *)

(** The [try:] block of [buy] (lines 45-188). *)
Definition buy_body (payer_keypair : Keypair) (pool_str : string) (quote_in : float)
           (slippage unit_budget unit_price : Z) : Py bool :=
  print [PF "Starting buy transaction for pool: " (PStr pool_str)] ;;
  print [PStr "Fetching pool state..."] ;;
  pool_state <- fetch_pool_state pool_str ;;
  print [PStr "Fetching pool config..."] ;;
  pool_config <- fetch_pool_config (PoolState.config pool_state) ;;
  let quote_token_decimals := PoolConfig.token_decimal pool_config in
  quote_amount_in <- eval (env_int_scaled env quote_in quote_token_decimals) ;;
  let min_base_amount_out := 0 in
  let curve :=
    map (fun pt => (CurvePoint.sqrt_price pt, CurvePoint.liquidity pt))
        (filter (fun pt => negb (CurvePoint.sqrt_price pt =? 0))
                (PoolConfig.curve pool_config)) in
  let cliff_fee_num :=
    PoolConfig.cliff_fee_numerator (PoolConfig.base_fee (PoolConfig.pool_fees pool_config)) in
  let protocol_fee_pct := PoolConfig.protocol_fee_percent (PoolConfig.pool_fees pool_config) in
  let referral_fee_pct := PoolConfig.referral_fee_percent (PoolConfig.pool_fees pool_config) in
  estimate <- swap_quote_to_base quote_amount_in cliff_fee_num protocol_fee_pct
                                 referral_fee_pct (PoolState.sqrt_price pool_state) curve ;;
  print [PF "Quote→Base estimate: " (PEstimate estimate)] ;;
  print [PStr "Checking for existing base token account..."] ;;
  base_account_check <- get_token_accounts_by_owner (pubkey payer_keypair)
                                                    (PoolState.base_mint pool_state) ;;
  base <-
    match base_account_check with
    | first :: _ =>
        let base_token_account := first in
        print [PStr "Existing base token account found:"; PPubkey base_token_account] ;;
        ret (base_token_account, None)
    | [] =>
        base_token_account <- get_associated_token_address
                                (pubkey payer_keypair) (PoolState.base_mint pool_state) ;;
        let base_account_ix :=
          create_associated_token_account
            (pubkey payer_keypair) (pubkey payer_keypair) (PoolState.base_mint pool_state) in
        print [PStr "Will create base token ATA:"; PPubkey base_token_account] ;;
        ret (base_token_account, Some base_account_ix)
    end ;;
  let base_token_account := fst base in
  let base_account_ix : option Ix := snd base in
  print [PStr "Generating seed for quote token account..."] ;;
  seed <- urandom_b64 24 ;;
  quote_token_account <- create_with_seed (pubkey payer_keypair) seed TOKEN_PROGRAM_ID ;;
  quote_rent <- get_min_balance_rent_for_exempt_for_account ;;
  print [PStr "Creating and initializing quote token account..."] ;;
  create_quote_token_account_ix <-
    build_create_account_with_seed
      {| from_pubkey := pubkey payer_keypair;
         to_pubkey := quote_token_account;
         base := pubkey payer_keypair;
         seed := seed;
         lamports := quote_rent + quote_amount_in;
         space := ACCOUNT_SPACE;
         owner := TOKEN_PROGRAM_ID |} ;;
  let init_quote_token_account_ix :=
    initialize_account
      {| init_program_id := TOKEN_PROGRAM_ID;
         init_account := quote_token_account;
         init_mint := PoolConfig.quote_mint pool_config;
         init_owner := pubkey payer_keypair |} in
  print [PStr "Creating swap instruction..."] ;;
  let accounts :=
    [ mk_meta POOL_AUTHORITY false false;
      mk_meta (PoolState.config pool_state) false false;
      mk_meta (PoolState.pool pool_state) false true;
      mk_meta quote_token_account false true;
      mk_meta base_token_account false true;
      mk_meta (PoolState.base_vault pool_state) false true;
      mk_meta (PoolState.quote_vault pool_state) false true;
      mk_meta (PoolState.base_mint pool_state) false false;
      mk_meta (PoolConfig.quote_mint pool_config) false false;
      mk_meta (pubkey payer_keypair) true true;
      mk_meta TOKEN_PROGRAM_ID false false;
      mk_meta TOKEN_PROGRAM_ID false false;
      mk_meta REFERRAL_TOKEN_ACC false false;
      mk_meta EVENT_AUTH false false;
      mk_meta METEORA_DBC_PROGRAM false false ] in
  data0 <- bytearray_fromhex "f8c69e91e17587c8" ;;
  packed_in <- struct_pack_Q quote_amount_in ;;
  packed_min <- struct_pack_Q min_base_amount_out ;;
  let data := (data0 ++ packed_in ++ packed_min)%list in
  let swap_instr := Instruction METEORA_DBC_PROGRAM data accounts in
  print [PStr "Preparing to close quote token account after swap..."] ;;
  let close_quote_token_account_ix :=
    close_account
      {| close_program_id := TOKEN_PROGRAM_ID;
         close_account_key := quote_token_account;
         close_dest := pubkey payer_keypair;
         close_owner := pubkey payer_keypair |} in
  compute_unit_limit_ix <- build_set_compute_unit_limit unit_budget ;;
  compute_unit_price_ix <- build_set_compute_unit_price unit_price ;;
  let instructions :=
    [ compute_unit_limit_ix;
      compute_unit_price_ix;
      create_quote_token_account_ix;
      init_quote_token_account_ix ] in
  let instructions :=
    match base_account_ix with
    | Some ix => (instructions ++ [ix])%list
    | None => instructions
    end in
  let instructions := (instructions ++ [swap_instr; close_quote_token_account_ix])%list in
  print [PStr "Compiling transaction message..."] ;;
  blockhash <- get_latest_blockhash ;;
  compiled_message <- try_compile (pubkey payer_keypair) instructions blockhash ;;
  print [PStr "Sending transaction..."] ;;
  txn_sig <- send_transaction compiled_message payer_keypair ;;
  print [PStr "Transaction Signature:"; PSignature txn_sig] ;;
  print [PStr "Confirming transaction..."] ;;
  confirmed <- confirm_txn txn_sig ;;
  print [PStr "Transaction confirmed:"; PBool confirmed] ;;
  ret confirmed.

(** The [except Exception as e:] clause shared by [buy] and [sell]
    (lines 190-192 and 354-356), when its [print] completes: the line is
    written and [False] returned.  [on_exception_io] below is the clause
    with a [print] that may raise. *)
Definition on_exception (e : exn) : Py bool :=
  print [PStr "Error occurred during transaction:"; PStr (exn_str e)] ;;
  ret false.

(** The same clause on any standard output.  The [print] of the clause
    evaluates [str(e)] and writes the line; when either raises, nothing
    is returned: the new exception leaves the clause, and with it the
    function, whatever its class.  What had reached the output before
    the failure is not recorded in the trace. *)
Definition on_exception_io (e : exn) : Py bool :=
  match env_print_error env e with
  | inr _ =>
      print [PStr "Error occurred during transaction:"; PStr (exn_str e)] ;;
      ret false
  | inl raised => eval (inl raised)
  end.

Definition buy (payer_keypair : Keypair) (pool_str : string) (quote_in : float)
           (slippage unit_budget unit_price : Z) : Py bool :=
  try_except (buy_body payer_keypair pool_str quote_in slippage unit_budget unit_price)
             on_exception.

(* =================================================================== *)
(** * meteora_dbc.py: sell                                              *)
(* =================================================================== *)

(** The [try:] block of [sell] (lines 204-352). *)
Definition sell_body (payer_keypair : Keypair) (pool_str : string)
           (percentage slippage unit_budget unit_price : Z) : Py bool :=
  print [PF "Starting sell transaction for pool: " (PStr pool_str)] ;;
  if negb ((1 <=? percentage) && (percentage <=? 100)) then
    print [PStr "Percentage must be between 1 and 100."] ;;
    ret false
  else
  print [PStr "Fetching pool state..."] ;;
  pool_state <- fetch_pool_state pool_str ;;
  print [PStr "Fetching pool config..."] ;;
  pool_config <- fetch_pool_config (PoolState.config pool_state) ;;
  let curve :=
    map (fun pt => (CurvePoint.sqrt_price pt, CurvePoint.liquidity pt))
        (filter (fun pt => negb (CurvePoint.sqrt_price pt =? 0))
                (PoolConfig.curve pool_config)) in
  let cliff_fee_num :=
    PoolConfig.cliff_fee_numerator (PoolConfig.base_fee (PoolConfig.pool_fees pool_config)) in
  let protocol_fee_pct := PoolConfig.protocol_fee_percent (PoolConfig.pool_fees pool_config) in
  let referral_fee_pct := PoolConfig.referral_fee_percent (PoolConfig.pool_fees pool_config) in
  print [PStr "Retrieving base token balance..."] ;;
  base_balance <- get_token_balance (pubkey payer_keypair) (PoolState.base_mint pool_state) ;;
  if negb (env_truthy env base_balance) then
    print [PStr "Base token balance is zero. Nothing to sell."] ;;
    ret false
  else
  base_amount_in <- eval (env_int_share env base_balance percentage) ;;
  let min_quote_amount_out := 0 in
  estimate <- swap_base_to_quote base_amount_in cliff_fee_num protocol_fee_pct
                                 referral_fee_pct (PoolState.sqrt_price pool_state) curve ;;
  print [PF "Base→Quote estimate: " (PEstimate estimate)] ;;
  print [PStr "Getting associated base token account address..."] ;;
  base_token_account <- get_associated_token_address
                          (pubkey payer_keypair) (PoolState.base_mint pool_state) ;;
  print [PStr "Generating seed for quote token account..."] ;;
  seed <- urandom_b64 24 ;;
  quote_token_account <- create_with_seed (pubkey payer_keypair) seed TOKEN_PROGRAM_ID ;;
  quote_rent <- get_min_balance_rent_for_exempt_for_account ;;
  print [PStr "Creating and initializing quote token account..."] ;;
  create_quote_token_account_ix <-
    build_create_account_with_seed
      {| from_pubkey := pubkey payer_keypair;
         to_pubkey := quote_token_account;
         base := pubkey payer_keypair;
         seed := seed;
         lamports := quote_rent;
         space := ACCOUNT_SPACE;
         owner := TOKEN_PROGRAM_ID |} ;;
  let init_quote_token_account_ix :=
    initialize_account
      {| init_program_id := TOKEN_PROGRAM_ID;
         init_account := quote_token_account;
         init_mint := PoolConfig.quote_mint pool_config;
         init_owner := pubkey payer_keypair |} in
  print [PStr "Creating swap instruction..."] ;;
  let accounts :=
    [ mk_meta POOL_AUTHORITY false false;
      mk_meta (PoolState.config pool_state) false false;
      mk_meta (PoolState.pool pool_state) false true;
      mk_meta base_token_account false true;
      mk_meta quote_token_account false true;
      mk_meta (PoolState.base_vault pool_state) false true;
      mk_meta (PoolState.quote_vault pool_state) false true;
      mk_meta (PoolState.base_mint pool_state) false false;
      mk_meta (PoolConfig.quote_mint pool_config) false false;
      mk_meta (pubkey payer_keypair) true true;
      mk_meta TOKEN_PROGRAM_ID false false;
      mk_meta TOKEN_PROGRAM_ID false false;
      mk_meta REFERRAL_TOKEN_ACC false false;
      mk_meta EVENT_AUTH false false;
      mk_meta METEORA_DBC_PROGRAM false false ] in
  data0 <- bytearray_fromhex "f8c69e91e17587c8" ;;
  packed_in <- struct_pack_Q base_amount_in ;;
  packed_min <- struct_pack_Q min_quote_amount_out ;;
  let data := (data0 ++ packed_in ++ packed_min)%list in
  let swap_ix := Instruction METEORA_DBC_PROGRAM data accounts in
  print [PStr "Preparing to close quote token account after swap..."] ;;
  let close_quote_token_account_ix :=
    close_account
      {| close_program_id := TOKEN_PROGRAM_ID;
         close_account_key := quote_token_account;
         close_dest := pubkey payer_keypair;
         close_owner := pubkey payer_keypair |} in
  compute_unit_limit_ix <- build_set_compute_unit_limit unit_budget ;;
  compute_unit_price_ix <- build_set_compute_unit_price unit_price ;;
  let instructions :=
    [ compute_unit_limit_ix;
      compute_unit_price_ix;
      create_quote_token_account_ix;
      init_quote_token_account_ix;
      swap_ix;
      close_quote_token_account_ix ] in
  instructions <-
    (if percentage =? 100 then
       print [PStr "Preparing to close base token account (100% sell)..."] ;;
       let close_base_token_account_ix :=
         close_account
           {| close_program_id := TOKEN_PROGRAM_ID;
              close_account_key := base_token_account;
              close_dest := pubkey payer_keypair;
              close_owner := pubkey payer_keypair |} in
       ret (instructions ++ [close_base_token_account_ix])%list
     else ret instructions) ;;
  print [PStr "Compiling transaction message..."] ;;
  blockhash <- get_latest_blockhash ;;
  compiled_msg <- try_compile (pubkey payer_keypair) instructions blockhash ;;
  print [PStr "Sending transaction..."] ;;
  sig <- send_transaction compiled_msg payer_keypair ;;
  print [PStr "Transaction Signature:"; PSignature sig] ;;
  print [PStr "Confirming transaction..."] ;;
  confirmed <- confirm_txn sig ;;
  print [PStr "Transaction confirmed:"; PBool confirmed] ;;
  ret confirmed.

Definition sell (payer_keypair : Keypair) (pool_str : string)
           (percentage slippage unit_budget unit_price : Z) : Py bool :=
  try_except (sell_body payer_keypair pool_str percentage slippage unit_budget unit_price)
             on_exception.

(** [buy] and [sell] on any standard output: the same [try:] blocks
    under the clause [on_exception_io]. *)
Definition buy_io (payer_keypair : Keypair) (pool_str : string) (quote_in : float)
           (slippage unit_budget unit_price : Z) : Py bool :=
  try_except (buy_body payer_keypair pool_str quote_in slippage unit_budget unit_price)
             on_exception_io.

Definition sell_io (payer_keypair : Keypair) (pool_str : string)
           (percentage slippage unit_budget unit_price : Z) : Py bool :=
  try_except (sell_body payer_keypair pool_str percentage slippage unit_budget unit_price)
             on_exception_io.

End Orchestration.

Arguments PStr {Estimate Signature} s.
Arguments PPubkey {Estimate Signature} k.
Arguments PEstimate {Estimate Signature} e.
Arguments PSignature {Estimate Signature} s.
Arguments PBool {Estimate Signature} b.
Arguments PF {Estimate Signature} prefix v.
Arguments EPrint {Estimate Blockhash Message Signature} items.
Arguments EFetchPoolState {Estimate Blockhash Message Signature} pool_str.
Arguments EFetchPoolConfig {Estimate Blockhash Message Signature} config.
Arguments ESwapQuoteToBase {Estimate Blockhash Message Signature}.
Arguments ESwapBaseToQuote {Estimate Blockhash Message Signature}.
Arguments EGetTokenAccountsByOwner {Estimate Blockhash Message Signature} owner mint.
Arguments EGetTokenBalance {Estimate Blockhash Message Signature} owner mint.
Arguments EUrandom {Estimate Blockhash Message Signature} n.
Arguments EGetMinBalanceRent {Estimate Blockhash Message Signature}.
Arguments EGetLatestBlockhash {Estimate Blockhash Message Signature}.
Arguments ETryCompile {Estimate Blockhash Message Signature} payer instructions blockhash.
Arguments ESendTransaction {Estimate Blockhash Message Signature} msg signer.
Arguments EConfirmTxn {Estimate Blockhash Message Signature} sig.
Arguments trace {Estimate Blockhash Message Signature A} m.
Arguments outcome {Estimate Blockhash Message Signature A} m.
Arguments try_except {Estimate Blockhash Message Signature A} m h.
Arguments on_exception {Estimate Blockhash Message Signature} e.
Arguments env_fetch_pool_state {float Balance Estimate Blockhash Message Signature} e.
Arguments env_fetch_pool_config {float Balance Estimate Blockhash Message Signature} e.
Arguments env_swap_quote_to_base {float Balance Estimate Blockhash Message Signature} e.
Arguments env_swap_base_to_quote {float Balance Estimate Blockhash Message Signature} e.
Arguments env_get_token_balance {float Balance Estimate Blockhash Message Signature} e.
Arguments env_confirm_txn {float Balance Estimate Blockhash Message Signature} e.
Arguments env_get_token_accounts_by_owner {float Balance Estimate Blockhash Message Signature} e.
Arguments env_get_associated_token_address {float Balance Estimate Blockhash Message Signature} e.
Arguments env_urandom_b64 {float Balance Estimate Blockhash Message Signature} e.
Arguments env_create_with_seed {float Balance Estimate Blockhash Message Signature} e.
Arguments env_get_min_balance_rent {float Balance Estimate Blockhash Message Signature} e.
Arguments env_get_latest_blockhash {float Balance Estimate Blockhash Message Signature} e.
Arguments env_try_compile {float Balance Estimate Blockhash Message Signature} e.
Arguments env_send_transaction {float Balance Estimate Blockhash Message Signature} e.
Arguments env_int_scaled {float Balance Estimate Blockhash Message Signature} e.
Arguments env_truthy {float Balance Estimate Blockhash Message Signature} e.
Arguments env_int_share {float Balance Estimate Blockhash Message Signature} e.
Arguments env_range_error_text {float Balance Estimate Blockhash Message Signature} e.
Arguments env_print_error {float Balance Estimate Blockhash Message Signature} e.
Arguments buy_body {float Balance Estimate Blockhash Message Signature} env.
Arguments buy {float Balance Estimate Blockhash Message Signature} env.
Arguments sell_body {float Balance Estimate Blockhash Message Signature} env.
Arguments sell {float Balance Estimate Blockhash Message Signature} env.
Arguments on_exception_io {float Balance Estimate Blockhash Message Signature} env.
Arguments buy_io {float Balance Estimate Blockhash Message Signature} env.
Arguments sell_io {float Balance Estimate Blockhash Message Signature} env.

(* ===================================================================== *)
(** * swap_estimate: the quotation engine                                  *)
(* ===================================================================== *)

(** Modelled from the spec: [swap_estimate.py], which [meteora_dbc.py]
    imports and which is not among the sources.  The engine below follows
    sections 4.2 and 4.3 of the specification.  Amounts inside the curve
    walk are exact rationals: the specification leaves the rounding of
    the walk open. *)
Module SwapEstimate.

(** Modelled from the spec: the trade direction, quote->base (price
    rises) or base->quote (price falls). *)
Inductive Direction : Type := QuoteToBase | BaseToQuote.

(** Modelled from the spec: [CurveError::Empty] and
    [CurveError::NonMonotonic] of section 4.2. *)
Inductive CurveError : Type := Empty | NonMonotonic.

(** Modelled from the spec: the failures of a quote, [AmountTooSmall] of
    section 4.3 and an invalid curve, which aborts the quote (section 7). *)
Inductive QuoteError : Type :=
| AmountTooSmall
| InvalidCurve (e : CurveError).

(** Modelled from the spec: a curve segment
    [(lower_sqrt_price, upper_sqrt_price, liquidity)] of section 4.2. *)
Record Segment : Type := mk_segment {
  lower_sqrt_price : Z;
  upper_sqrt_price : Z;
  seg_liquidity : Z
}.

Module SwapQuote.
(** Modelled from the spec: the [SwapQuote] record of section 3. *)
Record t : Type := mk {
  amount_out : Z;
  fee_total : Z;
  protocol_fee : Z;
  referral_fee : Z;
  ending_sqrt_price : Q
}.
End SwapQuote.

Section Engine.

(** Modelled from the spec: the fixed denominator of the fee rate; the
    specification names it without giving its value. *)
Variable FEE_DENOMINATOR : Z.

(** Modelled from the spec: the liquidity of the segment between two
    consecutive curve points, from the liquidities of the lower and of
    the upper point; the specification does not say which of the two a
    segment takes. *)
Variable segment_liquidity : Z -> Z -> Z.

(** Modelled from the spec: the rounding of an exact output amount to
    integer token units, which the specification leaves open. *)
Variable to_units : Q -> Z.

(** Modelled from the spec: fee extraction of section 4.3 step 1,
    [fee_total = floor(amount_in * cliff_fee_numerator / FEE_DENOMINATOR)]. *)
Definition fee_total (amount_in cliff_fee_numerator : Z) : Z :=
  amount_in * cliff_fee_numerator / FEE_DENOMINATOR.

(** Modelled from the spec:
    [protocol_fee = floor(fee_total * protocol_fee_percent / 100)]. *)
Definition protocol_fee (fee_total protocol_fee_percent : Z) : Z :=
  fee_total * protocol_fee_percent / 100.

(** Modelled from the spec:
    [referral_fee = floor(fee_total * referral_fee_percent / 100)]. *)
Definition referral_fee (fee_total referral_fee_percent : Z) : Z :=
  fee_total * referral_fee_percent / 100.

(** Modelled from the spec: [net_input = amount_in - fee_total]. *)
Definition net_input (amount_in cliff_fee_numerator : Z) : Z :=
  amount_in - fee_total amount_in cliff_fee_numerator.

(** Modelled from the spec: points with [sqrt_price == 0] are unused
    slots, excluded before use.  A point is the pair
    [(sqrt_price, liquidity)] the callers pass. *)
Definition valid_points (curve : list (Z * Z)) : list (Z * Z) :=
  filter (fun pt => negb (fst pt =? 0)) curve.

(** Modelled from the spec: [sqrt_price] strictly increasing along the
    valid points. *)
Fixpoint strictly_increasing (pts : list (Z * Z)) : bool :=
  match pts with
  | a :: (b :: _) as rest => (fst a <? fst b) && strictly_increasing rest
  | _ => true
  end.

(** Modelled from the spec: [segments()], the ranges between
    consecutive valid points, in ascending order. *)
Fixpoint segments (pts : list (Z * Z)) : list Segment :=
  match pts with
  | a :: (b :: _) as rest =>
      mk_segment (fst a) (fst b) (segment_liquidity (snd a) (snd b)) :: segments rest
  | _ => []
  end.

(** Modelled from the spec: construction of the Curve Model, failing
    with [Empty] on fewer than two valid points and with
    [NonMonotonic] when the prices are not strictly increasing. *)
Definition build_curve (curve : list (Z * Z)) : CurveError + list Segment :=
  let pts := valid_points curve in
  if (Z.of_nat (List.length pts) <? 2) then inl Empty
  else if strictly_increasing pts then inr (segments pts)
  else inl NonMonotonic.

(** Modelled from the spec: [locate(sqrt_price)], the index of the
    segment containing the price, or of the nearest boundary segment
    when the price is outside every range. *)
Fixpoint locate (p : Z) (segs : list Segment) : nat :=
  match segs with
  | [] => O
  | s :: rest =>
      match rest with
      | [] => O
      | _ :: _ => if p <=? upper_sqrt_price s then O else S (locate p rest)
      end
  end.

(** Modelled from the spec: the segments a trade starting at [p] can
    still cross, nearest first: upwards from the located one for
    quote->base, downwards for base->quote. *)
Definition remaining (d : Direction) (p : Z) (segs : list Segment) : list Segment :=
  match d with
  | QuoteToBase => skipn (locate p segs) segs
  | BaseToQuote => rev (firstn (S (locate p segs)) segs)
  end.

(** Modelled from the spec: the boundary of a segment in the direction
    of the trade, [p_hi] going up and [p_lo] going down. *)
Definition far_boundary (d : Direction) (s : Segment) : Q :=
  match d with
  | QuoteToBase => inject_Z (upper_sqrt_price s)
  | BaseToQuote => inject_Z (lower_sqrt_price s)
  end.

(** Modelled from the spec: the input needed to move the price from
    [p_cur] to the far boundary of the segment: [L * (p_hi - p_cur)]
    of quote, or [L * (1/p_lo - 1/p_cur)] of base. *)
Definition cross_cost (d : Direction) (s : Segment) (p_cur : Q) : Q :=
  let L := inject_Z (seg_liquidity s) in
  match d with
  | QuoteToBase => L * (inject_Z (upper_sqrt_price s) - p_cur)
  | BaseToQuote => L * (/ inject_Z (lower_sqrt_price s) - / p_cur)
  end%Q.

(** Modelled from the spec: the output obtained for that same move:
    [L * (1/p_cur - 1/p_hi)] of base, or symmetrically
    [L * (p_cur - p_lo)] of quote. *)
Definition cross_gain (d : Direction) (s : Segment) (p_cur : Q) : Q :=
  let L := inject_Z (seg_liquidity s) in
  match d with
  | QuoteToBase => L * (/ p_cur - / inject_Z (upper_sqrt_price s))
  | BaseToQuote => L * (p_cur - inject_Z (lower_sqrt_price s))
  end%Q.

(** Modelled from the spec: a partial crossing.  The target price
    solves [L * (p_target - p_cur) = net] (quote->base) or
    [L * (1/p_target - 1/p_cur) = net] (base->quote); the result is
    the output of the move and the target price. *)
Definition partial_cross (d : Direction) (s : Segment) (net p_cur : Q) : Q * Q :=
  let L := inject_Z (seg_liquidity s) in
  match d with
  | QuoteToBase =>
      let p_target := p_cur + net / L in
      (L * (/ p_cur - / p_target), p_target)
  | BaseToQuote =>
      let p_target := / (net / L + / p_cur) in
      (L * (p_cur - p_target), p_target)
  end%Q.

(** Modelled from the spec: the curve walk of section 4.3 steps 2
    and 3.  [net] is consumed segment by segment; a segment that
    costs more than what is left is crossed partially and the walk
    stops; when no segment is left the walk stops at the boundary it
    reached (saturation).  The result is the accumulated output and
    the ending price. *)
Fixpoint walk (d : Direction) (net p_cur : Q) (rem : list Segment) : Q * Q :=
  match rem with
  | [] => (0%Q, p_cur)
  | s :: rest =>
      if Qlt_le_dec net (cross_cost d s p_cur)
      then partial_cross d s net p_cur
      else
        let (out, p_end) := walk d (net - cross_cost d s p_cur)%Q (far_boundary d s) rest in
        ((cross_gain d s p_cur + out)%Q, p_end)
  end.

(** Modelled from the spec:
    [quote(direction, amount_in, pool_state, pool_config)] of section
    4.3, on the arguments the callers of [swap_estimate] pass. *)
Definition quote (d : Direction)
           (amount_in cliff_fee_num protocol_fee_pct referral_fee_pct cur_sqrt : Z)
           (curve : list (Z * Z)) : QuoteError + SwapQuote.t :=
  match build_curve curve with
  | inl e => inl (InvalidCurve e)
  | inr segs =>
      let ft := fee_total amount_in cliff_fee_num in
      if amount_in <? ft then inl AmountTooSmall
      else
        let (out, p_end) :=
          walk d (inject_Z (net_input amount_in cliff_fee_num)) (inject_Z cur_sqrt)
               (remaining d cur_sqrt segs) in
        inr {| SwapQuote.amount_out := to_units out;
               SwapQuote.fee_total := ft;
               SwapQuote.protocol_fee := protocol_fee ft protocol_fee_pct;
               SwapQuote.referral_fee := referral_fee ft referral_fee_pct;
               SwapQuote.ending_sqrt_price := p_end |}
  end.

(** Modelled from the spec: the two entry points [meteora_dbc.py]
    imports from [swap_estimate]. *)
Definition swap_quote_to_base := quote QuoteToBase.
Definition swap_base_to_quote := quote BaseToQuote.

(** The input needed to cross every remaining segment fully: the
    total depth of the remaining curve. *)
Fixpoint total_depth (d : Direction) (p_cur : Q) (rem : list Segment) : Q :=
  match rem with
  | [] => 0%Q
  | s :: rest => (cross_cost d s p_cur + total_depth d (far_boundary d s) rest)%Q
  end.

(** The output of crossing every remaining segment fully. *)
Fixpoint max_output (d : Direction) (p_cur : Q) (rem : list Segment) : Q :=
  match rem with
  | [] => 0%Q
  | s :: rest => (cross_gain d s p_cur + max_output d (far_boundary d s) rest)%Q
  end.

(** The price at which a walk that crosses every remaining segment
    fully ends. *)
Fixpoint end_price (d : Direction) (p_cur : Q) (rem : list Segment) : Q :=
  match rem with
  | [] => p_cur
  | s :: rest => end_price d (far_boundary d s) rest
  end.

(** Every remaining segment lies ahead of the price the walk reaches it
    at: crossing it costs a non-negative amount. *)
Fixpoint crossable (d : Direction) (p_cur : Q) (rem : list Segment) : Prop :=
  match rem with
  | [] => True
  | s :: rest => (0 <= cross_cost d s p_cur)%Q /\ crossable d (far_boundary d s) rest
  end.

(** Segments in ascending order, each starting where the previous one
    ends, the first at [lo], with non-negative liquidity. *)
Fixpoint chained (lo : Z) (segs : list Segment) : Prop :=
  match segs with
  | [] => True
  | s :: rest =>
      lower_sqrt_price s = lo /\ lo <= upper_sqrt_price s /\ 0 <= seg_liquidity s /\
      chained (upper_sqrt_price s) rest
  end.

(** The outermost boundary price of the curve in the direction of
    the trade: the last valid point going up, the first going down. *)
Definition outer_boundary (d : Direction) (curve : list (Z * Z)) : Z :=
  match d with
  | QuoteToBase => fst (last (valid_points curve) (0, 0))
  | BaseToQuote => fst (hd (0, 0) (valid_points curve))
  end.

End Engine.

End SwapEstimate.

(* ===================================================================== *)
(** * The swap instruction contract, in the specification's words          *)
(* ===================================================================== *)

Module Contract.

(** The method discriminator of the swap operation. *)
Definition SWAP_DISCRIMINATOR : Z := 0xf8c69e91e17587c8.

(** [n] bytes of [x], most significant first. *)
Definition be_bytes (n : nat) (x : Z) : list byte := rev (Codec.le_bytes n x).

(** The payload:
    [[8-byte discriminator][8-byte little-endian amount_in]
     [8-byte little-endian minimum_amount_out]]. *)
Definition encode (amount_in minimum_amount_out : Z) : list byte :=
  (be_bytes 8 SWAP_DISCRIMINATOR
     ++ Codec.le_bytes 8 amount_in ++ Codec.le_bytes 8 minimum_amount_out)%list.

(** The fields of a payload, read back at their fixed offsets. *)
Definition decode_amount_in (payload : list byte) : Z :=
  Codec.le_int (firstn 8 (skipn 8 payload)).
Definition decode_minimum_amount_out (payload : list byte) : Z :=
  Codec.le_int (firstn 8 (skipn 16 payload)).

(** The fifteen account roles of the swap instruction. *)
Inductive Role : Type :=
| PoolAuthority | PoolConfiguration | Pool
| InputTokenAccount | OutputTokenAccount
| BaseVault | QuoteVault | BaseMint | QuoteMint
| FeePayer | InputTokenProgram | OutputTokenProgram
| ReferralTokenAccount | EventAuthority | ProgramId.

(** The fixed account order. *)
Definition account_order : list Role :=
  [ PoolAuthority; PoolConfiguration; Pool; InputTokenAccount; OutputTokenAccount;
    BaseVault; QuoteVault; BaseMint; QuoteMint; FeePayer;
    InputTokenProgram; OutputTokenProgram; ReferralTokenAccount; EventAuthority;
    ProgramId ].

Definition role_is_signer (r : Role) : bool :=
  match r with FeePayer => true | _ => false end.

Definition role_is_writable (r : Role) : bool :=
  match r with
  | Pool | InputTokenAccount | OutputTokenAccount | BaseVault | QuoteVault | FeePayer => true
  | _ => false
  end.

Inductive Direction : Type := Buy | Sell.

(** The resolved participants of one swap.  [quote_account] holds the
    quote token and [base_account] the base token; the direction
    decides which of them is the input and which the output. *)
Record Participants : Type := mk_participants {
  direction : Direction;
  pool_state : PoolState.t;
  pool_config : PoolConfig.t;
  fee_payer : Pubkey;
  quote_account : Pubkey;
  base_account : Pubkey
}.

Definition resolve (x : Participants) (r : Role) : Pubkey :=
  match r with
  | PoolAuthority => POOL_AUTHORITY
  | PoolConfiguration => PoolState.config (pool_state x)
  | Pool => PoolState.pool (pool_state x)
  | InputTokenAccount =>
      match direction x with Buy => quote_account x | Sell => base_account x end
  | OutputTokenAccount =>
      match direction x with Buy => base_account x | Sell => quote_account x end
  | BaseVault => PoolState.base_vault (pool_state x)
  | QuoteVault => PoolState.quote_vault (pool_state x)
  | BaseMint => PoolState.base_mint (pool_state x)
  | QuoteMint => PoolConfig.quote_mint (pool_config x)
  | FeePayer => fee_payer x
  | InputTokenProgram => TOKEN_PROGRAM_ID
  | OutputTokenProgram => TOKEN_PROGRAM_ID
  | ReferralTokenAccount => REFERRAL_TOKEN_ACC
  | EventAuthority => EVENT_AUTH
  | ProgramId => METEORA_DBC_PROGRAM
  end.

Definition account_metas (x : Participants) : list AccountMeta :=
  map (fun r => mk_meta (resolve x r) (role_is_signer r) (role_is_writable r))
      account_order.

End Contract.

(* ===================================================================== *)
(** * Observations on a trace                                              *)
(* ===================================================================== *)

Section Observations.

Context {Estimate Blockhash Message Signature : Type}.

Local Abbreviation Event := (Event Estimate Blockhash Message Signature).

(** The instruction lists handed to [MessageV0.try_compile]. *)
Definition compiled (t : list Event) : list (list Ix) :=
  flat_map (fun ev => match ev with ETryCompile _ ixs _ => [ixs] | _ => [] end) t.

(** The raw [Instruction] objects among a list of instructions: their
    program, payload and account list. *)
Definition raw_instructions (ixs : list Ix) : list (Pubkey * list byte * list AccountMeta) :=
  flat_map (fun ix => match ix with Instruction p d a => [(p, d, a)] | _ => [] end) ixs.

(** The swap instructions of a run: every raw instruction of every
    compiled transaction. *)
Definition swap_instructions (t : list Event) : list (Pubkey * list byte * list AccountMeta) :=
  flat_map raw_instructions (compiled t).

(** The curves handed to the quotation engine. *)
Definition quoted_curves (t : list Event) : list (list (Z * Z)) :=
  flat_map (fun ev => match ev with
                      | ESwapQuoteToBase _ _ _ _ _ c => [c]
                      | ESwapBaseToQuote _ _ _ _ _ c => [c]
                      | _ => []
                      end) t.

Definition is_print (ev : Event) : bool :=
  match ev with EPrint _ => true | _ => false end.

End Observations.

(* ===================================================================== *)
(** * The shape of a transaction                                           *)
(* ===================================================================== *)

(** Names for the instructions of a transaction, used to state what
    [buy] and [sell] hand to the compiler. *)

(** The swap instruction for resolved participants and amounts. *)
Definition swap_ix (x : Contract.Participants) (amount_in minimum_amount_out : Z) : Ix :=
  Instruction METEORA_DBC_PROGRAM
              (Contract.encode amount_in minimum_amount_out)
              (Contract.account_metas x).

(** Creation of the transient quote token account, funded with
    [lamports]. *)
Definition create_quote_account_ix (payer quote_acc : Pubkey) (seed : string)
           (lamports : Z) : Ix :=
  create_account_with_seed
    {| from_pubkey := payer; to_pubkey := quote_acc; base := payer; seed := seed;
       lamports := lamports; space := ACCOUNT_SPACE; owner := TOKEN_PROGRAM_ID |}.

Definition init_quote_account_ix (payer quote_acc quote_mint : Pubkey) : Ix :=
  initialize_account
    {| init_program_id := TOKEN_PROGRAM_ID; init_account := quote_acc;
       init_mint := quote_mint; init_owner := payer |}.

(** Closing a token account of [payer], the rent going back to [payer]. *)
Definition close_token_account_ix (payer account : Pubkey) : Ix :=
  close_account
    {| close_program_id := TOKEN_PROGRAM_ID; close_account_key := account;
       close_dest := payer; close_owner := payer |}.

Section Accounts.

Context {float Balance Estimate Blockhash Message Signature : Type}.
Variable env : Env float Balance Estimate Blockhash Message Signature.

(** [k] is the transient account that holds the quote token: the address
    derived from the payer and the random [seed]. *)
Definition quote_holding_account (payer : Keypair) (seed : string) (k : Pubkey) : Prop :=
  env_urandom_b64 env 24 = inr seed /\
  env_create_with_seed env (pubkey payer) seed TOKEN_PROGRAM_ID = inr k.

(** [k] is the account [buy] uses for the base token: the first token
    account the payer already owns for the base mint, else the
    associated token address; [ix] is the instruction creating it in
    the latter case. *)
Definition buy_base_holding_account (payer : Keypair) (ps : PoolState.t)
           (k : Pubkey) (ix : list Ix) : Prop :=
  exists found,
    env_get_token_accounts_by_owner env (pubkey payer) (PoolState.base_mint ps) = inr found /\
    match found with
    | first :: _ => k = first /\ ix = []
    | [] =>
        env_get_associated_token_address env (pubkey payer) (PoolState.base_mint ps) = inr k /\
        ix = [create_associated_token_account
                (pubkey payer) (pubkey payer) (PoolState.base_mint ps)]
    end.

(** [k] is the account [sell] uses for the base token: the associated
    token address of the payer for the base mint. *)
Definition sell_base_holding_account (payer : Keypair) (ps : PoolState.t)
           (k : Pubkey) : Prop :=
  env_get_associated_token_address env (pubkey payer) (PoolState.base_mint ps) = inr k.

(** The pool the run reads: state, then the configuration it names. *)
Definition reads_pool (pool_str : string) (ps : PoolState.t) (pc : PoolConfig.t) : Prop :=
  env_fetch_pool_state env pool_str = inr ps /\
  env_fetch_pool_config env (PoolState.config ps) = inr pc.

End Accounts.

(* ===================================================================== *)
(** * Statements about the payload and the curve                           *)
(* ===================================================================== *)

(** [data] is the swap payload for [amount_in] and [minimum_amount_out]:
    24 bytes, the discriminator first, then the two amounts, each
    readable back at its offset. *)
Definition is_swap_payload (data : list byte) (amount_in minimum_amount_out : Z) : Prop :=
  data = (Contract.be_bytes 8 Contract.SWAP_DISCRIMINATOR
            ++ Codec.le_bytes 8 amount_in ++ Codec.le_bytes 8 minimum_amount_out)%list /\
  List.length data = 24%nat /\
  firstn 8 data = [xf8; xc6; x9e; x91; xe1; x75; x87; xc8] /\
  Contract.decode_amount_in data = amount_in /\
  Contract.decode_minimum_amount_out data = minimum_amount_out.

(** [kept_nonzero pts c]: [c] lists, in the order of [pts] and as
    [(sqrt_price, liquidity)] pairs, exactly the points of [pts] whose
    [sqrt_price] is not zero. *)
Inductive kept_nonzero : list CurvePoint.t -> list (Z * Z) -> Prop :=
| kept_nil : kept_nonzero [] []
| kept_skip pt pts c :
    CurvePoint.sqrt_price pt = 0 ->
    kept_nonzero pts c ->
    kept_nonzero (pt :: pts) c
| kept_take pt pts c :
    CurvePoint.sqrt_price pt <> 0 ->
    kept_nonzero pts c ->
    kept_nonzero (pt :: pts) ((CurvePoint.sqrt_price pt, CurvePoint.liquidity pt) :: c).

(** [filtered_curve pts c]: [c] is [pts] without its zero-price points:
    kept in order and unaltered, no zero price left, and a point of
    [pts] is in [c] exactly when its price is not zero. *)
Definition filtered_curve (pts : list CurvePoint.t) (c : list (Z * Z)) : Prop :=
  kept_nonzero pts c /\
  Forall (fun x => fst x <> 0) c /\
  (forall pt, In pt pts ->
              (CurvePoint.sqrt_price pt <> 0 <->
               In (CurvePoint.sqrt_price pt, CurvePoint.liquidity pt) c)).

(* ===================================================================== *)
(** * A concrete world                                                     *)
(* ===================================================================== *)

(** A small ledger on which [buy] and [sell] run to completion: floats
    are rationals, a balance is an optional integer, the estimate is the
    quote of [SwapEstimate], a message is the compiled instruction list.
    The two amounts are computed exactly and truncated towards zero as
    [int] does; Python computes them on binary floats, which gives the
    same integers for the arguments used below. *)
Module Demo.

Definition float : Type := Q.
Definition Balance : Type := option Z.
Definition Estimate : Type := SwapEstimate.SwapQuote.t.
Definition Blockhash : Type := string.
Definition Message : Type := list Ix.
Definition Signature : Type := string.

Definition key (s : string) : Pubkey := Pubkey_from_string s.

Definition payer : Keypair := mk_keypair (key "payer").

Definition the_pool_state : PoolState.t :=
  {| PoolState.config := key "config";
     PoolState.pool := key "pool";
     PoolState.base_mint := key "base-mint";
     PoolState.base_vault := key "base-vault";
     PoolState.quote_vault := key "quote-vault";
     PoolState.sqrt_price := 100 |}.

Definition the_pool_config : PoolConfig.t :=
  {| PoolConfig.quote_mint := key "quote-mint";
     PoolConfig.token_decimal := 9;
     PoolConfig.curve :=
       [ CurvePoint.mk 100 1000000; CurvePoint.mk 0 0;
         CurvePoint.mk 200 500000; CurvePoint.mk 0 7 ];
     PoolConfig.pool_fees :=
       {| PoolConfig.base_fee := {| PoolConfig.cliff_fee_numerator := 10000000 |};
          PoolConfig.protocol_fee_percent := 20;
          PoolConfig.referral_fee_percent := 20 |} |}.

Definition FEE_DENOMINATOR : Z := 1000000000.

(** [int(q)]: the integer part, towards zero. *)
Definition int_of (q : Q) : Z := if Qle_bool 0 q then Qfloor q else Qceiling q.

Definition estimate (d : SwapEstimate.Direction)
           (amount_in cliff pp rp cur : Z) (curve : list (Z * Z)) : result Estimate :=
  match SwapEstimate.quote FEE_DENOMINATOR (fun _ hi => hi) Qfloor d amount_in cliff pp rp cur curve with
  | inr q => inr q
  | inl SwapEstimate.AmountTooSmall => inl (mk_exn "QuoteError" true "amount too small")
  | inl (SwapEstimate.InvalidCurve _) => inl (mk_exn "CurveError" true "invalid curve")
  end.

(** The world, given what the ledger read of the pool state answers. *)
Definition make_world (fetch : string -> result PoolState.t)
  : Env float Balance Estimate Blockhash Message Signature :=
  {| env_fetch_pool_state := fetch;
     env_fetch_pool_config := fun _ => inr the_pool_config;
     env_swap_quote_to_base := estimate SwapEstimate.QuoteToBase;
     env_swap_base_to_quote := estimate SwapEstimate.BaseToQuote;
     env_get_token_balance := fun _ _ => inr (Some 5000);
     env_confirm_txn := fun _ => inr true;
     env_get_token_accounts_by_owner := fun _ _ => inr [];
     env_get_associated_token_address := fun _ _ => inr (key "base-ata");
     env_urandom_b64 := fun _ => inr "c2VlZA";
     env_create_with_seed := fun _ _ _ => inr (key "quote-seeded");
     env_get_min_balance_rent := inr 2039280;
     env_get_latest_blockhash := inr "blockhash";
     env_try_compile := fun _ ixs _ => inr ixs;
     env_send_transaction := fun _ _ => inr "signature";
     env_int_scaled := fun q d => inr (int_of (q * inject_Z (10 ^ d)));
     env_truthy := fun b => match b with Some n => negb (n =? 0) | None => false end;
     env_int_share := fun b pct =>
       match b with
       | Some n => inr (int_of (inject_Z n * (inject_Z pct / 100)))
       | None => inl (mk_exn "TypeError" true "unsupported operand type(s)")
       end;
     env_range_error_text := fun _ _ => "out of range";
     env_print_error := fun _ => inr tt |}.

Definition world : Env float Balance Estimate Blockhash Message Signature :=
  make_world (fun _ => inr the_pool_state).

(** The same world with a ledger read that raises [e]. *)
Definition world_failing_fetch (e : exn)
  : Env float Balance Estimate Blockhash Message Signature :=
  make_world (fun _ => inl e).

Definition run_buy (slippage : Z) : Py Estimate Blockhash Message Signature bool :=
  buy world payer "pool" (1 # 10) slippage 100000 1000000.

Definition run_sell (percentage slippage : Z) : Py Estimate Blockhash Message Signature bool :=
  sell world payer "pool" percentage slippage 100000 1000000.

(** What the runs in this world produce. *)
Definition no_swap : Pubkey * list byte * list AccountMeta := (METEORA_DBC_PROGRAM, [], []).

Definition bought_swap : Pubkey * list byte * list AccountMeta :=
  Eval vm_compute in hd no_swap (swap_instructions (trace (run_buy 5))).

Definition sold_swap : Pubkey * list byte * list AccountMeta :=
  Eval vm_compute in hd no_swap (swap_instructions (trace (run_sell 50 5))).

Definition sold_half : list Ix :=
  Eval vm_compute in hd [] (compiled (trace (run_sell 50 5))).

Definition sold_all : list Ix :=
  Eval vm_compute in hd [] (compiled (trace (run_sell 100 5))).

Definition quoted_curve : list (Z * Z) :=
  Eval vm_compute in hd [] (quoted_curves (trace (run_buy 5))).

Definition sold_curve : list (Z * Z) :=
  Eval vm_compute in hd [] (quoted_curves (trace (run_sell 50 5))).

Definition empty_curve : exn := mk_exn "CurveError" true "curve is empty".
Definition keyboard_interrupt : exn := mk_exn "KeyboardInterrupt" false "".

Definition buy_on (w : Env float Balance Estimate Blockhash Message Signature)
  : Py Estimate Blockhash Message Signature bool :=
  buy w payer "pool" (1 # 10) 5 100000 1000000.

Definition sell_on (w : Env float Balance Estimate Blockhash Message Signature)
  : Py Estimate Blockhash Message Signature bool :=
  sell w payer "pool" 50 5 100000 1000000.

(** The quote of this world's engine. *)
Definition quote_of (d : SwapEstimate.Direction)
           (amount_in cliff pp rp cur : Z) (curve : list (Z * Z))
  : SwapEstimate.QuoteError + SwapEstimate.SwapQuote.t :=
  SwapEstimate.quote FEE_DENOMINATOR (fun _ hi => hi) Qfloor d amount_in cliff pp rp cur curve.

End Demo.

(* ===================================================================== *)
(** * Further observations on a run                                        *)
(* ===================================================================== *)

Section Submission.

Context {Estimate Blockhash Message Signature : Type}.

Local Abbreviation Event := (Event Estimate Blockhash Message Signature).

(** The collaborator calls of a run, the printed lines left out. *)
Definition calls (t : list Event) : list Event :=
  filter (fun ev => negb (is_print ev)) t.

(** The transactions handed to [client.send_transaction], each with its
    signer. *)
Definition sent (t : list Event) : list (Message * Keypair) :=
  flat_map (fun ev => match ev with ESendTransaction m k => [(m, k)] | _ => [] end) t.

(** The fee payers named to [MessageV0.try_compile]. *)
Definition compile_payers (t : list Event) : list Pubkey :=
  flat_map (fun ev => match ev with ETryCompile p _ _ => [p] | _ => [] end) t.

(** The signatures [confirm_txn] was asked about. *)
Definition confirmations (t : list Event) : list Signature :=
  flat_map (fun ev => match ev with EConfirmTxn sg => [sg] | _ => [] end) t.

(** The scalar arguments of the calls to [swap_quote_to_base]:
    [(amount_in, cliff_fee_num, protocol_fee_pct, referral_fee_pct, cur_sqrt)]. *)
Definition quote_to_base_calls (t : list Event) : list (Z * Z * Z * Z * Z) :=
  flat_map (fun ev => match ev with
                      | ESwapQuoteToBase a c pp rp cur _ => [(a, c, pp, rp, cur)]
                      | _ => []
                      end) t.

(** The scalar arguments of the calls to [swap_base_to_quote]. *)
Definition base_to_quote_calls (t : list Event) : list (Z * Z * Z * Z * Z) :=
  flat_map (fun ev => match ev with
                      | ESwapBaseToQuote a c pp rp cur _ => [(a, c, pp, rp, cur)]
                      | _ => []
                      end) t.

End Submission.

(** The accounts a list of instructions creates with a seed. *)
Definition created_with_seed (ixs : list Ix) : list CreateAccountWithSeedParams :=
  flat_map (fun ix => match ix with create_account_with_seed p => [p] | _ => [] end) ixs.

(** The accounts a list of instructions closes. *)
Definition closed_accounts (ixs : list Ix) : list CloseAccountParams :=
  flat_map (fun ix => match ix with close_account p => [p] | _ => [] end) ixs.

(** [used_then_closed k funder rest]: somewhere in [rest] a raw
    instruction lists [k] as a writable non-signer account, and after it
    [k] is closed with its lamports going to [funder], who owns it. *)
Definition used_then_closed (k funder : Pubkey) (rest : list Ix) : Prop :=
  exists before prog data accounts after,
    rest = (before ++ Instruction prog data accounts :: after)%list /\
    In (mk_meta k false true) accounts /\
    In (close_token_account_ix funder k) after.

(** Every account the list creates with a seed is later used by a raw
    instruction and closed after it, refunding the address that paid for
    its creation. *)
Fixpoint creations_closed (ixs : list Ix) : Prop :=
  match ixs with
  | [] => True
  | create_account_with_seed p :: rest =>
      used_then_closed (to_pubkey p) (from_pubkey p) rest /\ creations_closed rest
  | _ :: rest => creations_closed rest
  end.

Section Worlds.

Context {float Balance Estimate Blockhash Message Signature : Type}.

Local Abbreviation Env := (Env float Balance Estimate Blockhash Message Signature).

(** [env] with other answers of the two estimators. *)
Definition with_estimates (env : Env)
           (q2b b2q : Z -> Z -> Z -> Z -> Z -> list (Z * Z) -> result Estimate) : Env :=
  {| env_fetch_pool_state := env_fetch_pool_state env;
     env_fetch_pool_config := env_fetch_pool_config env;
     env_swap_quote_to_base := q2b;
     env_swap_base_to_quote := b2q;
     env_get_token_balance := env_get_token_balance env;
     env_confirm_txn := env_confirm_txn env;
     env_get_token_accounts_by_owner := env_get_token_accounts_by_owner env;
     env_get_associated_token_address := env_get_associated_token_address env;
     env_urandom_b64 := env_urandom_b64 env;
     env_create_with_seed := env_create_with_seed env;
     env_get_min_balance_rent := env_get_min_balance_rent env;
     env_get_latest_blockhash := env_get_latest_blockhash env;
     env_try_compile := env_try_compile env;
     env_send_transaction := env_send_transaction env;
     env_int_scaled := env_int_scaled env;
     env_truthy := env_truthy env;
     env_int_share := env_int_share env;
     env_range_error_text := env_range_error_text env;
     env_print_error := env_print_error env |}.

(** [env] with other answers of [get_token_balance], of the token
    account search and of [confirm_txn]. *)
Definition with_ledger (env : Env)
           (balance : Pubkey -> Pubkey -> result Balance)
           (token_accounts : Pubkey -> Pubkey -> result (list Pubkey))
           (confirm : Signature -> result bool) : Env :=
  {| env_fetch_pool_state := env_fetch_pool_state env;
     env_fetch_pool_config := env_fetch_pool_config env;
     env_swap_quote_to_base := env_swap_quote_to_base env;
     env_swap_base_to_quote := env_swap_base_to_quote env;
     env_get_token_balance := balance;
     env_confirm_txn := confirm;
     env_get_token_accounts_by_owner := token_accounts;
     env_get_associated_token_address := env_get_associated_token_address env;
     env_urandom_b64 := env_urandom_b64 env;
     env_create_with_seed := env_create_with_seed env;
     env_get_min_balance_rent := env_get_min_balance_rent env;
     env_get_latest_blockhash := env_get_latest_blockhash env;
     env_try_compile := env_try_compile env;
     env_send_transaction := env_send_transaction env;
     env_int_scaled := env_int_scaled env;
     env_truthy := env_truthy env;
     env_int_share := env_int_share env;
     env_range_error_text := env_range_error_text env;
     env_print_error := env_print_error env |}.

(** [env] with another answer of the rent query. *)
Definition with_rent (env : Env) (rent : result Z) : Env :=
  {| env_fetch_pool_state := env_fetch_pool_state env;
     env_fetch_pool_config := env_fetch_pool_config env;
     env_swap_quote_to_base := env_swap_quote_to_base env;
     env_swap_base_to_quote := env_swap_base_to_quote env;
     env_get_token_balance := env_get_token_balance env;
     env_confirm_txn := env_confirm_txn env;
     env_get_token_accounts_by_owner := env_get_token_accounts_by_owner env;
     env_get_associated_token_address := env_get_associated_token_address env;
     env_urandom_b64 := env_urandom_b64 env;
     env_create_with_seed := env_create_with_seed env;
     env_get_min_balance_rent := rent;
     env_get_latest_blockhash := env_get_latest_blockhash env;
     env_try_compile := env_try_compile env;
     env_send_transaction := env_send_transaction env;
     env_int_scaled := env_int_scaled env;
     env_truthy := env_truthy env;
     env_int_share := env_int_share env;
     env_range_error_text := env_range_error_text env;
     env_print_error := env_print_error env |}.

(** [env] with another standard output for the line of the except
    clause. *)
Definition with_stdout (env : Env) (print_error : exn -> result unit) : Env :=
  {| env_fetch_pool_state := env_fetch_pool_state env;
     env_fetch_pool_config := env_fetch_pool_config env;
     env_swap_quote_to_base := env_swap_quote_to_base env;
     env_swap_base_to_quote := env_swap_base_to_quote env;
     env_get_token_balance := env_get_token_balance env;
     env_confirm_txn := env_confirm_txn env;
     env_get_token_accounts_by_owner := env_get_token_accounts_by_owner env;
     env_get_associated_token_address := env_get_associated_token_address env;
     env_urandom_b64 := env_urandom_b64 env;
     env_create_with_seed := env_create_with_seed env;
     env_get_min_balance_rent := env_get_min_balance_rent env;
     env_get_latest_blockhash := env_get_latest_blockhash env;
     env_try_compile := env_try_compile env;
     env_send_transaction := env_send_transaction env;
     env_int_scaled := env_int_scaled env;
     env_truthy := env_truthy env;
     env_int_share := env_int_share env;
     env_range_error_text := env_range_error_text env;
     env_print_error := print_error |}.

End Worlds.

Section Submissions.

Context {float Balance Estimate Blockhash Message Signature : Type}.
Variable env : Env float Balance Estimate Blockhash Message Signature.

(** The run [t] compiled one transaction with [payer] as fee payer on
    the block hash it read, sent the compiled message [msg] signed by
    [payer], and got the signature [sg] back. *)
Definition submitted (payer : Keypair)
           (t : list (Event Estimate Blockhash Message Signature))
           (msg : Message) (sg : Signature) : Prop :=
  exists ixs bh,
    compiled t = [ixs] /\
    compile_payers t = [pubkey payer] /\
    env_get_latest_blockhash env = inr bh /\
    env_try_compile env (pubkey payer) ixs bh = inr msg /\
    sent t = [(msg, payer)] /\
    env_send_transaction env msg payer = inr sg.

(** The run [t] compiled, sent and asked about at most one transaction;
    whatever it sent is the message the compiler returned for [payer],
    signed by [payer]; whatever it asked [confirm_txn] about is the
    signature of what it sent. *)
Definition at_most_one_transaction (payer : Keypair)
           (t : list (Event Estimate Blockhash Message Signature)) : Prop :=
  (List.length (compiled t) <= 1)%nat /\
  (List.length (sent t) <= 1)%nat /\
  (List.length (confirmations t) <= 1)%nat /\
  (forall msg signer,
      In (msg, signer) (sent t) ->
      signer = payer /\
      exists ixs bh,
        compiled t = [ixs] /\
        compile_payers t = [pubkey payer] /\
        env_get_latest_blockhash env = inr bh /\
        env_try_compile env (pubkey payer) ixs bh = inr msg) /\
  (forall sg, In sg (confirmations t) -> exists msg, submitted payer t msg sg).

(** What a return value of [False] can stand for, on the run [t]:
    nothing was handed to [send_transaction]; or the call to
    [send_transaction] itself raised; or the transaction was sent and
    [confirm_txn] answered [False] or raised. *)
Definition false_outcome (payer : Keypair)
           (t : list (Event Estimate Blockhash Message Signature)) : Prop :=
  sent t = []
  \/ (exists msg e,
         sent t = [(msg, payer)] /\
         env_send_transaction env msg payer = inl e /\ exn_is_Exception e = true)
  \/ (exists msg sg,
         submitted payer t msg sg /\
         (env_confirm_txn env sg = inr false \/
          exists e, env_confirm_txn env sg = inl e /\ exn_is_Exception e = true)).

End Submissions.

(* ===================================================================== *)
(** * More concrete worlds                                                 *)
(* ===================================================================== *)

(** Variations of the world of [Demo]: an empty balance, a base token
    account that exists already, a confirmation that fails, estimators
    that raise, amounts that do not fit 64 bits. *)
Module Scenario.

Definition World : Type :=
  Env Demo.float Demo.Balance Demo.Estimate Demo.Blockhash Demo.Message Demo.Signature.

Definition Run : Type := Py Demo.Estimate Demo.Blockhash Demo.Message Demo.Signature bool.

Definition timeout : exn := mk_exn "TimeoutError" true "confirmation timed out".

Definition empty_balance : World :=
  with_ledger Demo.world (fun _ _ => inr (Some 0))
              (env_get_token_accounts_by_owner Demo.world) (env_confirm_txn Demo.world).

Definition huge_balance : World :=
  with_ledger Demo.world (fun _ _ => inr (Some (2 ^ 64)))
              (env_get_token_accounts_by_owner Demo.world) (env_confirm_txn Demo.world).

Definition existing_account : World :=
  with_ledger Demo.world (env_get_token_balance Demo.world)
              (fun _ _ => inr [Demo.key "base-existing"; Demo.key "base-other"])
              (env_confirm_txn Demo.world).

Definition unconfirmed : World :=
  with_ledger Demo.world (env_get_token_balance Demo.world)
              (env_get_token_accounts_by_owner Demo.world) (fun _ => inl timeout).


Definition negative_rent : World := with_rent Demo.world (inr (-1)).

(** A ledger read that fails, on a standard output that is closed. *)
Definition closed_file : exn := mk_exn "ValueError" true "I/O operation on closed file.".

Definition closed_stdout : World :=
  with_stdout (Demo.world_failing_fetch Demo.empty_curve) (fun _ => inl closed_file).

Definition buy_in (w : World) (quote_in : Demo.float) : Run :=
  buy w Demo.payer "pool" quote_in 5 100000 1000000.

Definition sell_in (w : World) (percentage : Z) : Run :=
  sell w Demo.payer "pool" percentage 5 100000 1000000.

Definition buy_io_in (w : World) : Run :=
  buy_io w Demo.payer "pool" (1 # 10) 5 100000 1000000.

Definition sell_io_in (w : World) : Run :=
  sell_io w Demo.payer "pool" 50 5 100000 1000000.

(** Calls with a compute unit limit of 2^32 and with a compute unit
    price of -1. *)
Definition buy_over_budget : Run :=
  buy Demo.world Demo.payer "pool" (1 # 10) 5 (2 ^ 32) 1000000.

Definition sell_underpriced : Run :=
  sell Demo.world Demo.payer "pool" 50 5 100000 (-1).

Definition bought : list Ix :=
  Eval vm_compute in hd [] (compiled (trace (buy_in Demo.world (1 # 10)))).

Definition bought_into_existing : list Ix :=
  Eval vm_compute in hd [] (compiled (trace (buy_in existing_account (1 # 10)))).

Definition bought_account : CreateAccountWithSeedParams :=
  Eval vm_compute in
    hd (mk_create_params (Demo.key "") (Demo.key "") (Demo.key "") "" 0 0 (Demo.key ""))
       (created_with_seed bought).





End Scenario.

(* ===================================================================== *)
(** * Facts about the byte layer                                           *)
(* ===================================================================== *)

Lemma length_le_bytes (n : nat) (x : Z) : List.length (Codec.le_bytes n x) = n.
Proof.
  revert x; induction n as [|n IH]; intros x; simpl; [reflexivity|].
  now rewrite IH.
Qed.

Lemma Z_of_byte_of_Z (z : Z) : Codec.Z_of_byte (Codec.byte_of_Z z) = z mod 256.
Proof.
  unfold Codec.Z_of_byte, Codec.byte_of_Z.
  assert (Hb : 0 <= z mod 256 < 256) by (apply Z.mod_pos_bound; lia).
  destruct (Byte.of_N (Z.to_N (z mod 256))) as [b|] eqn:E.
  - apply Byte.to_of_N in E. rewrite E. rewrite Z2N.id; lia.
  - apply Byte.of_N_None_iff in E. lia.
Qed.

Lemma le_int_le_bytes (n : nat) (x : Z) :
  Codec.le_int (Codec.le_bytes n x) = x mod 2 ^ (8 * Z.of_nat n).
Proof.
  revert x; induction n as [|n IH]; intros x.
  - simpl. now rewrite Z.mod_1_r.
  - cbn [Codec.le_bytes Codec.le_int]. rewrite IH, Z_of_byte_of_Z.
    rewrite Z.mod_mod by lia.
    replace (8 * Z.of_nat (S n)) with (8 + 8 * Z.of_nat n) by lia.
    rewrite Z.pow_add_r by lia. change (2 ^ 8) with 256.
    rewrite Z.rem_mul_r by lia. reflexivity.
Qed.

(** Packing an unsigned 64-bit value and reading it back is the identity. *)
Lemma le_int_le_bytes_8 (x : Z) :
  0 <= x < 2 ^ 64 -> Codec.le_int (Codec.le_bytes 8 x) = x.
Proof.
  intros Hx. rewrite le_int_le_bytes. change (8 * Z.of_nat 8) with 64.
  now apply Z.mod_small.
Qed.

Lemma struct_pack_Q_inr (x : Z) (bs : list byte) :
  Codec.struct_pack_Q x = inr bs -> 0 <= x < 2 ^ 64 /\ bs = Codec.le_bytes 8 x.
Proof.
  unfold Codec.struct_pack_Q.
  destruct (0 <=? x) eqn:E1; destruct (x <? 2 ^ 64) eqn:E2; simpl; try discriminate.
  intros [= <-]. apply Z.leb_le in E1. apply Z.ltb_lt in E2. auto.
Qed.

(** The literal of lines 146 and 298 is the discriminator, most
    significant byte first. *)
Lemma fromhex_discriminator :
  Codec.fromhex "f8c69e91e17587c8" = Some (Contract.be_bytes 8 Contract.SWAP_DISCRIMINATOR).
Proof. vm_compute. reflexivity. Qed.

Lemma length_encode (a m : Z) : List.length (Contract.encode a m) = 24%nat.
Proof.
  unfold Contract.encode, Contract.be_bytes.
  rewrite !length_app, length_rev, !length_le_bytes. reflexivity.
Qed.

Lemma decode_encode (a m : Z) :
  0 <= a < 2 ^ 64 -> 0 <= m < 2 ^ 64 ->
  Contract.decode_amount_in (Contract.encode a m) = a /\
  Contract.decode_minimum_amount_out (Contract.encode a m) = m.
Proof.
  intros Ha Hm.
  unfold Contract.decode_amount_in, Contract.decode_minimum_amount_out, Contract.encode.
  assert (L8 : forall x, List.length (Codec.le_bytes 8 x) = 8%nat)
    by (intros; apply length_le_bytes).
  assert (Ld : List.length (Contract.be_bytes 8 Contract.SWAP_DISCRIMINATOR) = 8%nat)
    by (unfold Contract.be_bytes; now rewrite length_rev, length_le_bytes).
  split.
  - rewrite skipn_app, Ld, Nat.sub_diag, skipn_all2 by lia. cbn [app skipn].
    rewrite firstn_app, L8, Nat.sub_diag, firstn_all2 by (rewrite L8; lia).
    cbn [firstn]. rewrite app_nil_r. now apply le_int_le_bytes_8.
  - rewrite app_assoc, skipn_app, skipn_all2 by (rewrite length_app, Ld, L8; lia).
    rewrite length_app, Ld, L8. cbn [app Nat.add Nat.sub skipn].
    rewrite firstn_all2 by (rewrite L8; lia). now apply le_int_le_bytes_8.
Qed.

Lemma in_u64_iff (x : Z) : in_u64 x = true <-> 0 <= x < 2 ^ 64.
Proof. unfold in_u64. rewrite andb_true_iff, Z.leb_le, Z.ltb_lt. reflexivity. Qed.

Lemma in_u32_iff (x : Z) : in_u32 x = true <-> 0 <= x < 2 ^ 32.
Proof. unfold in_u32. rewrite andb_true_iff, Z.leb_le, Z.ltb_lt. reflexivity. Qed.

Lemma in_u64_ACCOUNT_SPACE : in_u64 ACCOUNT_SPACE = true.
Proof. reflexivity. Qed.

(* ===================================================================== *)
(** * Facts about buy and sell                                             *)
(* ===================================================================== *)

Section OrchestrationFacts.

Context {float Balance Estimate Blockhash Message Signature : Type}.
Variable env : Env float Balance Estimate Blockhash Message Signature.

Local Abbreviation Py := (Py Estimate Blockhash Message Signature).

Ltac unfold_run :=
  unfold buy, sell, buy_body, sell_body, on_exception, try_except, trace, outcome,
    fetch_pool_state, fetch_pool_config, swap_quote_to_base, swap_base_to_quote,
    get_token_balance, confirm_txn, get_token_accounts_by_owner,
    get_associated_token_address, urandom_b64, create_with_seed,
    get_min_balance_rent_for_exempt_for_account, get_latest_blockhash, try_compile,
    send_transaction, bytearray_fromhex, struct_pack_Q,
    build_set_compute_unit_limit, build_set_compute_unit_price,
    build_create_account_with_seed, call, eval, print in *;
  cbn [bind ret Monad_Py Py_bind Py_ret fst snd app lamports space] in *;
  rewrite in_u64_ACCOUNT_SPACE in *.

Ltac run_on := cbn [bind ret Monad_Py Py_bind Py_ret fst snd app] in *.

(** A run that stopped before any transaction was compiled shows none. *)
Ltac dead_end :=
  idtac;
  match goal with
  | H : In _ _ |- _ =>
      cbn in H;
      try match type of H with
          | context [exn_is_Exception ?e] => destruct (exn_is_Exception e); cbn in H
          end;
      contradiction
  end.

(** Case analysis on the answer to the next call of the collaborator
    [f] the run is waiting for; [k] closes the branch where it raised. *)
Ltac answer_with f k :=
  match goal with
  | H : In _ _ |- _ =>
      match type of H with
      | context [match ?r with inl _ => _ | inr _ => _ end] =>
          match r with
          | context [f _ _ _ _ _ _ env] => destruct r eqn:?; run_on; [k|]
          end
      end
  end.

Ltac answer f := answer_with f dead_end.
Ltac answer_live f := answer_with f idtac.

(** Case analysis on the integer checks of the builders, the run having
    read the rent: the lamports of the account to create, then the
    compute unit limit and the compute unit price; [k] closes the branch
    where a builder raised. *)
Ltac funded_with k :=
  match goal with
  | Hr : env_get_min_balance_rent env = inr ?r, H : In _ _ |- _ =>
      match type of H with
      | context [if in_u64 (r + ?a) then _ else _] =>
          destruct (in_u64 (r + a)) eqn:?; run_on; [|k]
      | context [if in_u64 r then _ else _] =>
          destruct (in_u64 r) eqn:?; run_on; [|k]
      end
  end.

Ltac priced_with k :=
  match goal with
  | H : In _ _ |- _ =>
      match type of H with
      | context [if in_u64 ?x then _ else _] => destruct (in_u64 x) eqn:?; run_on; [|k]
      end
  end.

Ltac budgeted_with k :=
  match goal with
  | H : In _ _ |- _ =>
      match type of H with
      | context [if in_u32 ?x then _ else _] =>
          destruct (in_u32 x) eqn:?; run_on; [priced_with k|k]
      end
  end.

Ltac observe H :=
  cbn [swap_instructions compiled raw_instructions quoted_curves flat_map app fst snd In
       exn_is_Exception] in H;
  try match type of H with
      | context [exn_is_Exception ?e] =>
          destruct (exn_is_Exception e);
          cbn [swap_instructions compiled raw_instructions quoted_curves flat_map app fst snd In] in H
      end.

Lemma struct_pack_Q_0 : Codec.struct_pack_Q 0 = inr (Codec.le_bytes 8 0).
Proof. reflexivity. Qed.

(** What [buy] hands to [MessageV0.try_compile], whenever it gets there. *)
Lemma buy_compiled_inv payer pool_str quote_in slippage unit_budget unit_price ixs :
  In ixs (compiled (trace (buy env payer pool_str quote_in slippage unit_budget unit_price))) ->
  exists ps pc amount_in seed quote_acc rent base_acc base_ix,
    reads_pool env pool_str ps pc /\
    env_int_scaled env quote_in (PoolConfig.token_decimal pc) = inr amount_in /\
    0 <= amount_in < 2 ^ 64 /\
    quote_holding_account env payer seed quote_acc /\
    buy_base_holding_account env payer ps base_acc base_ix /\
    env_get_min_balance_rent env = inr rent /\
    ixs = ([ set_compute_unit_limit unit_budget;
             set_compute_unit_price unit_price;
             create_quote_account_ix (pubkey payer) quote_acc seed (rent + amount_in);
             init_quote_account_ix (pubkey payer) quote_acc (PoolConfig.quote_mint pc) ]
             ++ base_ix
             ++ [ swap_ix (Contract.mk_participants Contract.Buy ps pc (pubkey payer)
                                                    quote_acc base_acc)
                          amount_in 0;
                  close_token_account_ix (pubkey payer) quote_acc ])%list.
Proof.
  intros H. unfold_run.
  rewrite fromhex_discriminator, struct_pack_Q_0 in H. unfold Py_ret in H. run_on.
  answer @env_fetch_pool_state.
  answer @env_fetch_pool_config.
  answer @env_int_scaled.
  answer @env_swap_quote_to_base.
  answer @env_get_token_accounts_by_owner.
  match goal with l : list Pubkey |- _ => destruct l as [|first others] end; run_on;
    [answer @env_get_associated_token_address|].
  all: answer @env_urandom_b64.
  all: answer @env_create_with_seed.
  all: answer @env_get_min_balance_rent.
  all: funded_with dead_end.
  all: destruct (Codec.struct_pack_Q _) as [|packed] eqn:Hpack; run_on; [dead_end|].
  all: budgeted_with dead_end.
  all: answer @env_get_latest_blockhash.
  all: apply struct_pack_Q_inr in Hpack; destruct Hpack as [Hrange ->].
  all: answer_live @env_try_compile; [|answer_live @env_send_transaction;
                                        [|answer_live @env_confirm_txn]].
  all: observe H; destruct H as [<-|[]].
  all: do 8 eexists; unfold reads_pool, quote_holding_account, buy_base_holding_account.
  all: repeat match goal with
              | |- _ /\ _ => split
              | |- exists _, _ => eexists
              end; try eassumption; try reflexivity; try lia.
  all: try (cbv beta iota; split; first [eassumption | reflexivity]).
  all: reflexivity.
Qed.

(** What [sell] hands to [MessageV0.try_compile], whenever it gets there. *)
Lemma sell_compiled_inv payer pool_str percentage slippage unit_budget unit_price ixs :
  In ixs (compiled (trace (sell env payer pool_str percentage slippage unit_budget unit_price))) ->
  exists ps pc balance amount_in seed quote_acc rent base_acc,
    1 <= percentage <= 100 /\
    reads_pool env pool_str ps pc /\
    env_get_token_balance env (pubkey payer) (PoolState.base_mint ps) = inr balance /\
    env_truthy env balance = true /\
    env_int_share env balance percentage = inr amount_in /\
    0 <= amount_in < 2 ^ 64 /\
    quote_holding_account env payer seed quote_acc /\
    sell_base_holding_account env payer ps base_acc /\
    env_get_min_balance_rent env = inr rent /\
    ixs = ([ set_compute_unit_limit unit_budget;
             set_compute_unit_price unit_price;
             create_quote_account_ix (pubkey payer) quote_acc seed rent;
             init_quote_account_ix (pubkey payer) quote_acc (PoolConfig.quote_mint pc);
             swap_ix (Contract.mk_participants Contract.Sell ps pc (pubkey payer)
                                               quote_acc base_acc)
                     amount_in 0;
             close_token_account_ix (pubkey payer) quote_acc ]
             ++ (if percentage =? 100
                 then [close_token_account_ix (pubkey payer) base_acc]
                 else []))%list.
Proof.
  intros H. unfold_run.
  rewrite fromhex_discriminator, struct_pack_Q_0 in H. unfold Py_ret in H. run_on.
  destruct ((1 <=? percentage) && (percentage <=? 100)) eqn:Hpct;
    cbn [negb] in H; run_on; [|dead_end].
  apply andb_true_iff in Hpct. destruct Hpct as [Hlo%Z.leb_le Hhi%Z.leb_le].
  answer @env_fetch_pool_state.
  answer @env_fetch_pool_config.
  answer @env_get_token_balance.
  destruct (env_truthy env _) eqn:Htruthy; cbn [negb] in H; run_on; [|dead_end].
  answer @env_int_share.
  answer @env_swap_base_to_quote.
  answer @env_get_associated_token_address.
  answer @env_urandom_b64.
  answer @env_create_with_seed.
  answer @env_get_min_balance_rent.
  funded_with dead_end.
  destruct (Codec.struct_pack_Q _) as [|packed] eqn:Hpack; run_on; [dead_end|].
  budgeted_with dead_end.
  apply struct_pack_Q_inr in Hpack; destruct Hpack as [Hrange ->].
  destruct (percentage =? 100) eqn:Hfull; run_on.
  all: answer @env_get_latest_blockhash.
  all: answer_live @env_try_compile; [|answer_live @env_send_transaction;
                                        [|answer_live @env_confirm_txn]].
  all: observe H; destruct H as [<-|[]].
  all: do 8 eexists; unfold reads_pool, quote_holding_account, sell_base_holding_account.
  all: repeat match goal with
              | |- _ /\ _ => split
              end; try eassumption; try reflexivity; try lia.
Qed.

(** Run every remaining collaborator call of a started transaction to
    its two answers. *)
Ltac run_to_end :=
  try answer_live @env_swap_quote_to_base;
  try answer_live @env_swap_base_to_quote;
  try answer_live @env_get_token_accounts_by_owner;
  try match goal with
      | H : In _ _ |- _ =>
          match type of H with
          | context [match ?l with nil => _ | cons _ _ => _ end] =>
              is_var l; destruct l; run_on
          end
      end;
  try answer_live @env_get_associated_token_address;
  try answer_live @env_urandom_b64;
  try answer_live @env_create_with_seed;
  try answer_live @env_get_min_balance_rent;
  try funded_with idtac;
  try match goal with
      | H : In _ _ |- _ =>
          match type of H with
          | context [Codec.struct_pack_Q ?z] =>
              destruct (Codec.struct_pack_Q z) eqn:?; run_on
          end
      end;
  try budgeted_with idtac;
  try match goal with
      | H : In _ _ |- _ =>
          match type of H with
          | context [if ?p =? 100 then _ else _] => destruct (p =? 100); run_on
          end
      end;
  try answer_live @env_get_latest_blockhash;
  try answer_live @env_try_compile;
  try answer_live @env_send_transaction;
  try answer_live @env_confirm_txn.

Lemma buy_quoted_inv payer pool_str quote_in slippage unit_budget unit_price c :
  In c (quoted_curves
          (trace (buy env payer pool_str quote_in slippage unit_budget unit_price))) ->
  exists ps pc, reads_pool env pool_str ps pc /\ c = map (fun pt => (CurvePoint.sqrt_price pt, CurvePoint.liquidity pt))
            (filter (fun pt => negb (CurvePoint.sqrt_price pt =? 0)) (PoolConfig.curve pc)).
Proof.
  intros H. unfold_run.
  rewrite fromhex_discriminator, struct_pack_Q_0 in H. unfold Py_ret in H. run_on.
  answer @env_fetch_pool_state.
  answer @env_fetch_pool_config.
  answer @env_int_scaled.
  run_to_end.
  all: observe H; destruct H as [<-|[]].
  all: do 2 eexists; split; [split; eassumption | reflexivity].
Qed.

Lemma sell_quoted_inv payer pool_str percentage slippage unit_budget unit_price c :
  In c (quoted_curves
          (trace (sell env payer pool_str percentage slippage unit_budget unit_price))) ->
  exists ps pc, reads_pool env pool_str ps pc /\ c = map (fun pt => (CurvePoint.sqrt_price pt, CurvePoint.liquidity pt))
            (filter (fun pt => negb (CurvePoint.sqrt_price pt =? 0)) (PoolConfig.curve pc)).
Proof.
  intros H. unfold_run.
  rewrite fromhex_discriminator, struct_pack_Q_0 in H. unfold Py_ret in H. run_on.
  destruct ((1 <=? percentage) && (percentage <=? 100)) eqn:Hpct;
    cbn [negb] in H; run_on; [|dead_end].
  answer @env_fetch_pool_state.
  answer @env_fetch_pool_config.
  answer @env_get_token_balance.
  destruct (env_truthy env _) eqn:Htruthy; cbn [negb] in H; run_on; [|dead_end].
  answer @env_int_share.
  run_to_end.
  all: observe H; destruct H as [<-|[]].
  all: do 2 eexists; split; [split; eassumption | reflexivity].
Qed.

Lemma filter_kept_nonzero (pts : list CurvePoint.t) :
  kept_nonzero pts
    (map (fun pt => (CurvePoint.sqrt_price pt, CurvePoint.liquidity pt))
         (filter (fun pt => negb (CurvePoint.sqrt_price pt =? 0)) pts)).
Proof.
  induction pts as [|pt pts IH]; cbn [filter map].
  - constructor.
  - destruct (Z.eqb_spec (CurvePoint.sqrt_price pt) 0) as [E|E]; cbn [negb map].
    + now apply kept_skip.
    + now apply kept_take.
Qed.

(** [kept_nonzero] determines the kept list. *)
Lemma kept_nonzero_unique pts c1 c2 :
  kept_nonzero pts c1 -> kept_nonzero pts c2 -> c1 = c2.
Proof.
  intros H1; revert c2; induction H1; intros c2 H2; inversion H2; subst;
    try contradiction; try reflexivity; auto.
  f_equal; auto.
Qed.

Lemma kept_nonzero_all_nonzero pts c :
  kept_nonzero pts c -> Forall (fun x => fst x <> 0) c.
Proof. induction 1; auto. Qed.

Lemma be_bytes_discriminator :
  Contract.be_bytes 8 Contract.SWAP_DISCRIMINATOR = [xf8; xc6; x9e; x91; xe1; x75; x87; xc8].
Proof. vm_compute. reflexivity. Qed.

Lemma is_swap_payload_encode (a m : Z) :
  0 <= a < 2 ^ 64 -> 0 <= m < 2 ^ 64 -> is_swap_payload (Contract.encode a m) a m.
Proof.
  intros Ha Hm. unfold is_swap_payload.
  destruct (decode_encode a m Ha Hm) as [Da Dm].
  split; [reflexivity|]. split; [apply length_encode|].
  split; [|now split].
  unfold Contract.encode. rewrite be_bytes_discriminator. reflexivity.
Qed.

Lemma try_except_caught {A : Type} (m : Py A) (h : exn -> Py A) (e : exn) :
  outcome m = inl e -> exn_is_Exception e = true ->
  try_except m h = ((trace m ++ trace (h e))%list, outcome (h e)).
Proof.
  unfold try_except, outcome, trace. destruct m as [t [e'|a]]; cbn [fst snd]; intros [= ->] ->.
  now destruct (h e).
Qed.

Lemma try_except_escapes {A : Type} (m : Py A) (h : exn -> Py A) (e : exn) :
  outcome m = inl e -> exn_is_Exception e = false -> try_except m h = m.
Proof.
  unfold try_except, outcome. destruct m as [t [e'|a]]; cbn [snd]; intros [= ->] ->.
  reflexivity.
Qed.

Lemma try_except_returns {A : Type} (m : Py A) (h : exn -> Py A) (a : A) :
  outcome m = inr a -> try_except m h = m.
Proof.
  unfold try_except, outcome. destruct m as [t [e'|a']]; cbn [snd]; intros [= ->].
  reflexivity.
Qed.

Lemma raw_of_buy_ixs a b c d base_ix x amount_in e y :
  (base_ix = [] \/ exists p o m, base_ix = [create_associated_token_account p o m]) ->
  In y (raw_instructions
          ([set_compute_unit_limit a; set_compute_unit_price b;
            create_account_with_seed c; initialize_account d]
             ++ base_ix ++ [swap_ix x amount_in 0; close_account e])%list) ->
  y = (METEORA_DBC_PROGRAM, Contract.encode amount_in 0, Contract.account_metas x).
Proof.
  intros [->|(p & o & m & ->)] H;
    cbn [raw_instructions flat_map app swap_ix In] in H;
    destruct H as [<-|[]]; reflexivity.
Qed.

Lemma buy_base_ix_shape payer ps k ix :
  buy_base_holding_account env payer ps k ix ->
  ix = [] \/ exists p o m, ix = [create_associated_token_account p o m].
Proof.
  intros [found [_ H]]. destruct found; destruct H as [_ ->]; eauto.
Qed.

(** Every swap instruction of a run carries a well-formed payload whose
    [minimum_amount_out] is 0. *)
Lemma swap_payload_layout_aux
      payer pool_str quote_in percentage slippage unit_budget unit_price prog data accounts :
  (In (prog, data, accounts)
      (swap_instructions
         (trace (buy env payer pool_str quote_in slippage unit_budget unit_price))) ->
   exists amount_in, is_swap_payload data amount_in 0)
  /\
  (In (prog, data, accounts)
      (swap_instructions
         (trace (sell env payer pool_str percentage slippage unit_budget unit_price))) ->
   exists amount_in, is_swap_payload data amount_in 0).
Proof.
  split; intros H; unfold swap_instructions in H;
    apply in_flat_map in H; destruct H as [ixs [Hixs Hraw]].
  - apply buy_compiled_inv in Hixs.
    destruct Hixs as (ps & pc & amount_in & seed & quote_acc & rent & base_acc & base_ix
                      & _ & _ & Hrange & _ & Hbase & _ & ->).
    exists amount_in.
    apply raw_of_buy_ixs in Hraw; [|eapply buy_base_ix_shape; eassumption].
    inversion Hraw; subst. apply is_swap_payload_encode; lia.
  - apply sell_compiled_inv in Hixs.
    destruct Hixs as (ps & pc & balance & amount_in & seed & quote_acc & rent & base_acc
                      & _ & _ & _ & _ & _ & Hrange & _ & _ & _ & ->).
    exists amount_in.
    assert (Hd : data = Contract.encode amount_in 0).
    { destruct (percentage =? 100);
        cbn [raw_instructions flat_map app swap_ix In] in Hraw;
        destruct Hraw as [[= _ <- _]|[]]; reflexivity. }
    subst data. apply is_swap_payload_encode; lia.
Qed.

(** C1.  The payload of every swap instruction [buy] or [sell] builds is
    the 8-byte discriminator 0xf8c69e91e17587c8, then [amount_in] and
    then [minimum_amount_out], each as 8 little-endian bytes: 24 bytes.
    [amount_in] is the amount the function computed from its argument;
    [minimum_amount_out] is the local the function sets to 0. *)
Theorem swap_payload_layout
        payer pool_str quote_in percentage slippage unit_budget unit_price prog data accounts :
  (In (prog, data, accounts)
      (swap_instructions
         (trace (buy env payer pool_str quote_in slippage unit_budget unit_price))) ->
   exists ps pc amount_in,
     reads_pool env pool_str ps pc /\
     env_int_scaled env quote_in (PoolConfig.token_decimal pc) = inr amount_in /\
     is_swap_payload data amount_in 0)
  /\
  (In (prog, data, accounts)
      (swap_instructions
         (trace (sell env payer pool_str percentage slippage unit_budget unit_price))) ->
   exists ps pc balance amount_in,
     reads_pool env pool_str ps pc /\
     env_get_token_balance env (pubkey payer) (PoolState.base_mint ps) = inr balance /\
     env_int_share env balance percentage = inr amount_in /\
     is_swap_payload data amount_in 0).
Proof.
  split; intros H; unfold swap_instructions in H;
    apply in_flat_map in H; destruct H as [ixs [Hixs Hraw]].
  - apply buy_compiled_inv in Hixs.
    destruct Hixs as (ps & pc & amount_in & seed & quote_acc & rent & base_acc & base_ix
                      & Hpool & Hamount & Hrange & _ & Hbase & _ & ->).
    exists ps, pc, amount_in. split; [exact Hpool|]. split; [exact Hamount|].
    assert (Hd : data = Contract.encode amount_in 0).
    { destruct Hbase as [found [_ Hfound]].
      destruct found; destruct Hfound as [_ ->];
        cbn [raw_instructions flat_map app swap_ix In] in Hraw;
        destruct Hraw as [[= _ <- _]|[]]; reflexivity. }
    subst data. apply is_swap_payload_encode; lia.
  - apply sell_compiled_inv in Hixs.
    destruct Hixs as (ps & pc & balance & amount_in & seed & quote_acc & rent & base_acc
                      & _ & Hpool & Hbal & _ & Hamount & Hrange & _ & _ & _ & ->).
    exists ps, pc, balance, amount_in.
    split; [exact Hpool|]. split; [exact Hbal|]. split; [exact Hamount|].
    assert (Hd : data = Contract.encode amount_in 0).
    { destruct (percentage =? 100);
        cbn [raw_instructions flat_map app swap_ix In] in Hraw;
        destruct Hraw as [[= _ <- _]|[]]; reflexivity. }
    subst data. apply is_swap_payload_encode; lia.
Qed.

(** C2.  The account list of the swap instruction is the fixed
    15-entry order (pool authority, pool configuration, pool, input
    token account, output token account, base vault, quote vault, base
    mint, quote mint, fee payer, input and output token program,
    referral token account, event authority, program id), the fee payer
    being the only signer.  [buy] puts the quote-holding account at
    position 4 and the base-holding account at position 5, [sell] the
    reverse; every other position is the same in the two directions. *)
Theorem swap_account_order
        payer pool_str quote_in percentage slippage unit_budget unit_price prog data accounts :
  (In (prog, data, accounts)
      (swap_instructions
         (trace (buy env payer pool_str quote_in slippage unit_budget unit_price))) ->
   exists ps pc seed quote_acc base_acc base_ix,
     reads_pool env pool_str ps pc /\
     quote_holding_account env payer seed quote_acc /\
     buy_base_holding_account env payer ps base_acc base_ix /\
     accounts = Contract.account_metas
                  (Contract.mk_participants Contract.Buy ps pc (pubkey payer)
                                            quote_acc base_acc))
  /\
  (In (prog, data, accounts)
      (swap_instructions
         (trace (sell env payer pool_str percentage slippage unit_budget unit_price))) ->
   exists ps pc seed quote_acc base_acc,
     reads_pool env pool_str ps pc /\
     quote_holding_account env payer seed quote_acc /\
     sell_base_holding_account env payer ps base_acc /\
     accounts = Contract.account_metas
                  (Contract.mk_participants Contract.Sell ps pc (pubkey payer)
                                            quote_acc base_acc))
  /\
  (forall ps pc fee_payer quote_acc base_acc,
      let bought := Contract.account_metas
                      (Contract.mk_participants Contract.Buy ps pc fee_payer
                                                quote_acc base_acc) in
      let sold := Contract.account_metas
                    (Contract.mk_participants Contract.Sell ps pc fee_payer
                                              quote_acc base_acc) in
      List.length bought = 15%nat /\ List.length sold = 15%nat /\
      map meta_pubkey bought =
        [ POOL_AUTHORITY; PoolState.config ps; PoolState.pool ps; quote_acc; base_acc;
          PoolState.base_vault ps; PoolState.quote_vault ps; PoolState.base_mint ps;
          PoolConfig.quote_mint pc; fee_payer; TOKEN_PROGRAM_ID; TOKEN_PROGRAM_ID;
          REFERRAL_TOKEN_ACC; EVENT_AUTH; METEORA_DBC_PROGRAM ] /\
      filter is_signer bought = [mk_meta fee_payer true true] /\
      filter is_signer sold = [mk_meta fee_payer true true] /\
      nth_error bought 3 = Some (mk_meta quote_acc false true) /\
      nth_error bought 4 = Some (mk_meta base_acc false true) /\
      nth_error sold 3 = Some (mk_meta base_acc false true) /\
      nth_error sold 4 = Some (mk_meta quote_acc false true) /\
      (forall i, i <> 3%nat -> i <> 4%nat -> nth_error bought i = nth_error sold i)).
Proof.
  split; [|split].
  - intros H. unfold swap_instructions in H.
    apply in_flat_map in H. destruct H as [ixs [Hixs Hraw]].
    apply buy_compiled_inv in Hixs.
    destruct Hixs as (ps & pc & amount_in & seed & quote_acc & rent & base_acc & base_ix
                      & Hpool & _ & _ & Hquote & Hbase & _ & ->).
    exists ps, pc, seed, quote_acc, base_acc, base_ix.
    repeat (split; [assumption|]).
    apply raw_of_buy_ixs in Hraw; [|eapply buy_base_ix_shape; eassumption].
    now inversion Hraw.
  - intros H. unfold swap_instructions in H.
    apply in_flat_map in H. destruct H as [ixs [Hixs Hraw]].
    apply sell_compiled_inv in Hixs.
    destruct Hixs as (ps & pc & balance & amount_in & seed & quote_acc & rent & base_acc
                      & _ & Hpool & _ & _ & _ & _ & Hquote & Hbase & _ & ->).
    exists ps, pc, seed, quote_acc, base_acc.
    repeat (split; [assumption|]).
    destruct (percentage =? 100);
      cbn [raw_instructions flat_map app swap_ix In] in Hraw;
      destruct Hraw as [[= _ _ <-]|[]]; reflexivity.
  - intros ps pc fee_payer quote_acc base_acc bought sold.
    repeat (split; [reflexivity|]).
    intros i H3 H4.
    do 3 (destruct i as [|i]; [reflexivity|]).
    destruct i as [|i]; [contradiction|].
    destruct i as [|i]; [contradiction|].
    reflexivity.
Qed.

(** C3.  Neither function reads its [slippage] argument: two calls that
    differ only in it run identically, and the [minimum_amount_out]
    every swap instruction carries is 0. *)
Theorem slippage_is_ignored
        payer pool_str quote_in percentage slippage1 slippage2 unit_budget unit_price :
  buy env payer pool_str quote_in slippage1 unit_budget unit_price
  = buy env payer pool_str quote_in slippage2 unit_budget unit_price
  /\
  sell env payer pool_str percentage slippage1 unit_budget unit_price
  = sell env payer pool_str percentage slippage2 unit_budget unit_price
  /\
  forall prog data accounts,
    In (prog, data, accounts)
       (swap_instructions
          (trace (buy env payer pool_str quote_in slippage1 unit_budget unit_price))
          ++ swap_instructions
               (trace (sell env payer pool_str percentage slippage1 unit_budget unit_price)))%list ->
    Contract.decode_minimum_amount_out data = 0.
Proof.
  split; [reflexivity|]. split; [reflexivity|].
  intros prog data accounts H. apply in_app_or in H.
  destruct (swap_payload_layout_aux payer pool_str quote_in percentage slippage1
                                    unit_budget unit_price prog data accounts) as [Hb Hs].
  destruct H as [H|H].
  - destruct (Hb H) as (a & Hp). apply Hp.
  - destruct (Hs H) as (a & Hp). apply Hp.
Qed.

Lemma filtered_curve_filter (pts : list CurvePoint.t) :
  filtered_curve pts
    (map (fun pt => (CurvePoint.sqrt_price pt, CurvePoint.liquidity pt))
         (filter (fun pt => negb (CurvePoint.sqrt_price pt =? 0)) pts)).
Proof.
  split; [apply filter_kept_nonzero|].
  split; [eapply kept_nonzero_all_nonzero, filter_kept_nonzero|].
  intros pt Hin. split.
  - intros Hnz. apply in_map_iff. exists pt. split; [reflexivity|].
    apply filter_In. split; [assumption|].
    now destruct (Z.eqb_spec (CurvePoint.sqrt_price pt) 0).
  - intros Hc.
    pose proof (kept_nonzero_all_nonzero _ _ (filter_kept_nonzero pts)) as Hall.
    rewrite Forall_forall in Hall. exact (Hall _ Hc).
Qed.


Lemma try_except_handled (m : Py bool) (e : exn) :
  outcome m = inl e -> exn_is_Exception e = true ->
  outcome (try_except m (on_exception_io env))
  = match env_print_error env e with
    | inr _ => inr false
    | inl raised => inl raised
    end.
Proof.
  intros Hm He. rewrite (try_except_caught _ _ e Hm He). unfold outcome, on_exception_io.
  destruct (env_print_error env e); reflexivity.
Qed.

(** On a standard output that takes the line of the except clause,
    [buy_io] and [sell_io] are [buy] and [sell]. *)
Lemma io_on_open_stdout payer pool_str quote_in percentage slippage unit_budget unit_price :
  (forall e, env_print_error env e = inr tt) ->
  buy_io env payer pool_str quote_in slippage unit_budget unit_price
  = buy env payer pool_str quote_in slippage unit_budget unit_price /\
  sell_io env payer pool_str percentage slippage unit_budget unit_price
  = sell env payer pool_str percentage slippage unit_budget unit_price.
Proof.
  intros Hopen. unfold buy_io, buy, sell_io, sell, try_except.
  split.
  - destruct (buy_body env payer pool_str quote_in slippage unit_budget unit_price)
      as [t [e|b]]; [|reflexivity].
    destruct (exn_is_Exception e); [|reflexivity].
    unfold on_exception_io. now rewrite Hopen.
  - destruct (sell_body env payer pool_str percentage slippage unit_budget unit_price)
      as [t [e|b]]; [|reflexivity].
    destruct (exn_is_Exception e); [|reflexivity].
    unfold on_exception_io. now rewrite Hopen.
Qed.

(** C8, as the code has it.  A normal return of the body is returned as
    it is.  An [Exception] raised in the body becomes the return value
    [False] when the [print] of the except clause completes; when that
    [print] raises, what it raised leaves the function instead.  An
    exception outside [Exception] raised in the body passes through.
    Nothing else reaches the caller. *)
Theorem exceptions_become_false
        payer pool_str quote_in percentage slippage unit_budget unit_price :
  let bought := buy_io env payer pool_str quote_in slippage unit_budget unit_price in
  let buying := buy_body env payer pool_str quote_in slippage unit_budget unit_price in
  let sold := sell_io env payer pool_str percentage slippage unit_budget unit_price in
  let selling := sell_body env payer pool_str percentage slippage unit_budget unit_price in
  (forall b, outcome buying = inr b -> outcome bought = inr b) /\
  (forall b, outcome selling = inr b -> outcome sold = inr b) /\
  (forall e, outcome buying = inl e -> exn_is_Exception e = true ->
             env_print_error env e = inr tt -> outcome bought = inr false) /\
  (forall e, outcome selling = inl e -> exn_is_Exception e = true ->
             env_print_error env e = inr tt -> outcome sold = inr false) /\
  (forall e raised, outcome buying = inl e -> exn_is_Exception e = true ->
                    env_print_error env e = inl raised -> outcome bought = inl raised) /\
  (forall e raised, outcome selling = inl e -> exn_is_Exception e = true ->
                    env_print_error env e = inl raised -> outcome sold = inl raised) /\
  (forall e, outcome buying = inl e -> exn_is_Exception e = false -> outcome bought = inl e) /\
  (forall e, outcome selling = inl e -> exn_is_Exception e = false -> outcome sold = inl e) /\
  (forall raised, outcome bought = inl raised ->
     (exn_is_Exception raised = false /\ outcome buying = inl raised) \/
     (exists e, outcome buying = inl e /\ exn_is_Exception e = true /\
                env_print_error env e = inl raised)) /\
  (forall raised, outcome sold = inl raised ->
     (exn_is_Exception raised = false /\ outcome selling = inl raised) \/
     (exists e, outcome selling = inl e /\ exn_is_Exception e = true /\
                env_print_error env e = inl raised)).
Proof.
  intros bought buying sold selling. subst bought sold. unfold buy_io, sell_io.
  fold buying selling.
  assert (G : forall m : Py bool,
             (forall b, outcome m = inr b ->
                        outcome (try_except m (on_exception_io env)) = inr b) /\
             (forall e, outcome m = inl e -> exn_is_Exception e = true ->
                        env_print_error env e = inr tt ->
                        outcome (try_except m (on_exception_io env)) = inr false) /\
             (forall e raised, outcome m = inl e -> exn_is_Exception e = true ->
                               env_print_error env e = inl raised ->
                               outcome (try_except m (on_exception_io env)) = inl raised) /\
             (forall e, outcome m = inl e -> exn_is_Exception e = false ->
                        outcome (try_except m (on_exception_io env)) = inl e) /\
             (forall raised,
                 outcome (try_except m (on_exception_io env)) = inl raised ->
                 (exn_is_Exception raised = false /\ outcome m = inl raised) \/
                 (exists e, outcome m = inl e /\ exn_is_Exception e = true /\
                            env_print_error env e = inl raised))).
  { intros m. split; [|split; [|split; [|split]]].
    - intros b Hm. now rewrite (try_except_returns _ _ b Hm).
    - intros e Hm He Hp. now rewrite (try_except_handled m e Hm He), Hp.
    - intros e raised Hm He Hp. now rewrite (try_except_handled m e Hm He), Hp.
    - intros e Hm He. now rewrite (try_except_escapes _ _ e Hm He).
    - intros raised Hr. destruct (outcome m) as [e|b] eqn:Hm.
      + destruct (exn_is_Exception e) eqn:He.
        * right. exists e. rewrite (try_except_handled m e Hm He) in Hr.
          destruct (env_print_error env e); [|discriminate].
          injection Hr as ->. split; [reflexivity|]. split; [assumption|reflexivity].
        * left. rewrite (try_except_escapes _ _ e Hm He), Hm in Hr.
          injection Hr as <-. split; [assumption|reflexivity].
      + rewrite (try_except_returns _ _ b Hm), Hm in Hr. discriminate. }
  destruct (G buying) as (B1 & B2 & B3 & B4 & B5).
  destruct (G selling) as (S1 & S2 & S3 & S4 & S5).
  repeat (split; [assumption|]). assumption.
Qed.

(** C9.  For a percentage outside 1..100, [sell] logs its first line and
    the rejection, and returns [False]: nothing is fetched, estimated,
    built or submitted. *)
Theorem sell_rejects_percentage_out_of_range
        payer pool_str percentage slippage unit_budget unit_price :
  ~ (1 <= percentage <= 100) ->
  sell env payer pool_str percentage slippage unit_budget unit_price
  = ([ EPrint [PF "Starting sell transaction for pool: " (PStr pool_str)];
       EPrint [PStr "Percentage must be between 1 and 100."] ],
     inr false).
Proof.
  intros Hout. unfold sell, sell_body.
  assert (E : (1 <=? percentage) && (percentage <=? 100) = false).
  { apply andb_false_iff.
    destruct (Z.leb_spec 1 percentage); [|now left].
    destruct (Z.leb_spec percentage 100); [lia|now right]. }
  rewrite E. reflexivity.
Qed.

(** C10.  The instruction list [sell] compiles is the six instructions
    compute limit, compute price, create quote account, initialize
    quote account, swap, close quote account, followed by the closing of
    the seller's associated base token account exactly when the
    percentage is 100; for 1..99 nothing follows the six. *)
Theorem sell_closes_base_account_iff_full
        payer pool_str percentage slippage unit_budget unit_price ixs :
  In ixs (compiled
            (trace (sell env payer pool_str percentage slippage unit_budget unit_price))) ->
  exists ps pc seed quote_acc rent base_acc amount_in,
    reads_pool env pool_str ps pc /\
    quote_holding_account env payer seed quote_acc /\
    sell_base_holding_account env payer ps base_acc /\
    let six :=
      [ set_compute_unit_limit unit_budget;
        set_compute_unit_price unit_price;
        create_quote_account_ix (pubkey payer) quote_acc seed rent;
        init_quote_account_ix (pubkey payer) quote_acc (PoolConfig.quote_mint pc);
        swap_ix (Contract.mk_participants Contract.Sell ps pc (pubkey payer)
                                          quote_acc base_acc)
                amount_in 0;
        close_token_account_ix (pubkey payer) quote_acc ] in
    let close_base := close_token_account_ix (pubkey payer) base_acc in
    (percentage = 100 /\ ixs = (six ++ [close_base])%list \/
     1 <= percentage <= 99 /\ ixs = six) /\
    (ixs = (six ++ [close_base])%list <-> percentage = 100).
Proof.
  intros H. apply sell_compiled_inv in H.
  destruct H as (ps & pc & balance & amount_in & seed & quote_acc & rent & base_acc
                 & Hpct & Hpool & _ & _ & _ & _ & Hquote & Hbase & _ & ->).
  exists ps, pc, seed, quote_acc, rent, base_acc, amount_in.
  repeat (split; [assumption|]). intros six close_base.
  destruct (Z.eqb_spec percentage 100) as [E|E].
  - split; [left; split; [assumption|reflexivity]|]. split; auto.
  - split; [right; split; [lia|]; now rewrite app_nil_r|].
    split; [|contradiction].
    intros Heq. apply (f_equal (@List.length Ix)) in Heq.
    rewrite !length_app in Heq. cbn in Heq. lia.
Qed.

End OrchestrationFacts.

(* ===================================================================== *)
(** * Facts about the quotation engine                                     *)
(* ===================================================================== *)

Module SwapEstimateFacts.

Import SwapEstimate.

Lemma total_depth_nonneg d rem : forall p, crossable d p rem -> (0 <= total_depth d p rem)%Q.
Proof.
  induction rem as [|s rest IH]; intros p H; cbn [total_depth crossable] in *.
  - apply Qle_refl.
  - destruct H as [Hc Hrest]. specialize (IH _ Hrest).
    setoid_replace 0%Q with (0 + 0)%Q by ring. now apply Qplus_le_compat.
Qed.

Lemma walk_saturates d rem : forall net p,
  crossable d p rem -> (total_depth d p rem <= net)%Q ->
  walk d net p rem = (max_output d p rem, end_price d p rem).
Proof.
  induction rem as [|s rest IH]; intros net p Hc Hnet;
    cbn [walk max_output end_price total_depth crossable] in *.
  - reflexivity.
  - destruct Hc as [Hcost Hrest].
    pose proof (total_depth_nonneg d rest _ Hrest) as Hd.
    destruct (Qlt_le_dec net (cross_cost d s p)) as [Hlt|Hle].
    + exfalso. apply (Qlt_not_le _ _ Hlt).
      eapply Qle_trans; [|exact Hnet].
      setoid_replace (cross_cost d s p) with (cross_cost d s p + 0)%Q at 1 by ring.
      apply Qplus_le_compat; [apply Qle_refl|assumption].
    + rewrite (IH (net - cross_cost d s p)%Q (far_boundary d s) Hrest).
      * reflexivity.
      * apply (Qplus_le_l _ _ (cross_cost d s p)).
        setoid_replace (net - cross_cost d s p + cross_cost d s p)%Q with net by ring.
        setoid_replace (total_depth d (far_boundary d s) rest + cross_cost d s p)%Q
          with (cross_cost d s p + total_depth d (far_boundary d s) rest)%Q by ring.
        assumption.
Qed.

Lemma Qinv_le_contravar_Z (lo p : Z) :
  0 < lo -> lo <= p -> (/ inject_Z p <= / inject_Z lo)%Q.
Proof.
  intros Hlo Hle. destruct (Z.eq_dec lo p) as [->|Hne].
  - apply Qle_refl.
  - apply Qlt_le_weak. apply -> Qinv_lt_contravar.
    + rewrite <- Zlt_Qlt. lia.
    + change 0%Q with (inject_Z 0). rewrite <- Zlt_Qlt. lia.
    + change 0%Q with (inject_Z 0). rewrite <- Zlt_Qlt. lia.
Qed.

Lemma cost_up_nonneg (s : Segment) (p : Z) :
  0 <= seg_liquidity s -> p <= upper_sqrt_price s ->
  (0 <= cross_cost QuoteToBase s (inject_Z p))%Q.
Proof.
  intros HL Hp. cbn [cross_cost]. apply Qmult_le_0_compat.
  - change 0%Q with (inject_Z 0). now rewrite <- Zle_Qle.
  - unfold Qminus. rewrite <- Qle_minus_iff. now rewrite <- Zle_Qle.
Qed.

Lemma cost_down_nonneg (s : Segment) (p : Z) :
  0 <= seg_liquidity s -> 0 < lower_sqrt_price s -> lower_sqrt_price s <= p ->
  (0 <= cross_cost BaseToQuote s (inject_Z p))%Q.
Proof.
  intros HL Hlo Hp. cbn [cross_cost]. apply Qmult_le_0_compat.
  - change 0%Q with (inject_Z 0). now rewrite <- Zle_Qle.
  - unfold Qminus. rewrite <- Qle_minus_iff. now apply Qinv_le_contravar_Z.
Qed.

Lemma crossable_cons d p s rest :
  (0 <= cross_cost d s p)%Q -> crossable d (far_boundary d s) rest ->
  crossable d p (s :: rest).
Proof. intros; split; assumption. Qed.

Lemma crossable_app d l1 : forall p l2,
  crossable d p l1 -> crossable d (end_price d p l1) l2 -> crossable d p (l1 ++ l2).
Proof.
  induction l1 as [|s l1 IH]; intros p l2 H1 H2; cbn [app crossable end_price] in *.
  - assumption.
  - destruct H1 as [Hc H1]. split; [assumption|]. now apply IH.
Qed.

Lemma end_price_app d l1 : forall p l2,
  end_price d p (l1 ++ l2) = end_price d (end_price d p l1) l2.
Proof.
  induction l1 as [|s l1 IH]; intros p l2; cbn [app end_price]; [reflexivity|apply IH].
Qed.

(** Going up from the lower end of a chain crosses every segment. *)
Lemma chained_crossable_up segs : forall lo,
  chained lo segs -> crossable QuoteToBase (inject_Z lo) segs.
Proof.
  induction segs as [|s rest IH]; intros lo H; cbn [chained crossable] in *; [exact I|].
  destruct H as (Hlo & Hle & HL & Hrest). split.
  - now apply cost_up_nonneg.
  - apply IH. exact Hrest.
Qed.

Lemma chained_end_price_up segs : forall lo q,
  chained lo segs -> segs <> [] ->
  end_price QuoteToBase q segs = inject_Z (upper_sqrt_price (last segs (mk_segment 0 0 0))).
Proof.
  induction segs as [|s rest IH]; intros lo q H Hne; [contradiction|].
  cbn [chained end_price] in *. destruct H as (_ & _ & _ & Hrest).
  destruct rest as [|s' rest'].
  - reflexivity.
  - rewrite (IH _ _ Hrest) by discriminate. reflexivity.
Qed.

Lemma chained_last_upper segs : forall lo,
  chained lo segs -> segs <> [] -> lo <= upper_sqrt_price (last segs (mk_segment 0 0 0)).
Proof.
  induction segs as [|s rest IH]; intros lo H Hne; [contradiction|].
  cbn [chained] in H. destruct H as (_ & Hle & _ & Hrest).
  destruct rest as [|s' rest'].
  - exact Hle.
  - specialize (IH _ Hrest ltac:(discriminate)).
    change (last (s :: s' :: rest') (mk_segment 0 0 0))
      with (last (s' :: rest') (mk_segment 0 0 0)). lia.
Qed.

Lemma locate_cons (p : Z) (s s' : Segment) (rest : list Segment) :
  locate p (s :: s' :: rest)
  = if p <=? upper_sqrt_price s then O else S (locate p (s' :: rest)).
Proof. reflexivity. Qed.

Lemma remaining_up segs : forall lo p,
  chained lo segs -> segs <> [] ->
  lo <= p <= upper_sqrt_price (last segs (mk_segment 0 0 0)) ->
  crossable QuoteToBase (inject_Z p) (remaining QuoteToBase p segs) /\
  end_price QuoteToBase (inject_Z p) (remaining QuoteToBase p segs)
  = inject_Z (upper_sqrt_price (last segs (mk_segment 0 0 0))).
Proof.
  unfold remaining.
  induction segs as [|s rest IH]; intros lo p H Hne Hp; [contradiction|].
  pose proof H as Hchain.
  cbn [chained] in H. destruct H as (Hlo & Hle & HL & Hrest).
  destruct rest as [|s' rest'].
  - cbn [locate skipn crossable end_price last] in *. repeat split.
    apply cost_up_nonneg; lia.
  - rewrite locate_cons. destruct (Z.leb_spec p (upper_sqrt_price s)) as [Hin|Hout].
    + cbn [skipn]. split.
      * apply crossable_cons; [now apply cost_up_nonneg|].
        apply chained_crossable_up. exact Hrest.
      * change (end_price QuoteToBase (inject_Z p) (s :: s' :: rest'))
          with (end_price QuoteToBase (far_boundary QuoteToBase s) (s' :: rest')).
        rewrite (chained_end_price_up _ _ _ Hrest) by discriminate. reflexivity.
    + cbn [skipn].
      change (last (s :: s' :: rest') (mk_segment 0 0 0))
        with (last (s' :: rest') (mk_segment 0 0 0)) in *.
      apply (IH (upper_sqrt_price s)); [exact Hrest|discriminate|lia].
Qed.

Lemma remaining_down segs : forall lo p,
  chained lo segs -> segs <> [] -> 0 < lo ->
  lo <= p <= upper_sqrt_price (last segs (mk_segment 0 0 0)) ->
  crossable BaseToQuote (inject_Z p) (remaining BaseToQuote p segs) /\
  end_price BaseToQuote (inject_Z p) (remaining BaseToQuote p segs) = inject_Z lo.
Proof.
  unfold remaining.
  induction segs as [|s rest IH]; intros lo p H Hne Hpos Hp; [contradiction|].
  cbn [chained] in H. destruct H as (Hlo & Hle & HL & Hrest).
  destruct rest as [|s' rest'].
  - cbn [locate firstn rev app crossable end_price far_boundary]. rewrite Hlo.
    repeat split. apply cost_down_nonneg; lia.
  - rewrite locate_cons. destruct (Z.leb_spec p (upper_sqrt_price s)) as [Hin|Hout].
    + cbn [firstn rev app crossable end_price far_boundary]. rewrite Hlo.
      repeat split. apply cost_down_nonneg; lia.
    + change (last (s :: s' :: rest') (mk_segment 0 0 0))
        with (last (s' :: rest') (mk_segment 0 0 0)) in *.
      destruct (IH (upper_sqrt_price s) p Hrest ltac:(discriminate) ltac:(lia) ltac:(lia))
        as [Hc He].
      change (firstn (S (S (locate p (s' :: rest'))))  (s :: s' :: rest'))
        with (s :: firstn (S (locate p (s' :: rest'))) (s' :: rest')).
      set (pre := firstn (S (locate p (s' :: rest'))) (s' :: rest')) in *.
      change (rev (s :: pre)) with (rev pre ++ [s])%list. split.
      * apply (crossable_app BaseToQuote (rev pre) (inject_Z p) [s] Hc). rewrite He.
        apply crossable_cons; [|exact I]. apply cost_down_nonneg; lia.
      * rewrite end_price_app, He. cbn [end_price far_boundary]. now rewrite Hlo.
Qed.

Section Curve.

Variable segment_liquidity : Z -> Z -> Z.
Hypothesis segment_liquidity_nonneg :
  forall lo hi, 0 <= lo -> 0 <= hi -> 0 <= segment_liquidity lo hi.

Lemma segments_chained pts : forall a rest,
  pts = a :: rest ->
  strictly_increasing pts = true ->
  Forall (fun pt => 0 <= snd pt) pts ->
  chained (fst a) (segments segment_liquidity pts).
Proof.
  induction pts as [|x pts IH]; intros a rest E Hinc Hliq; [discriminate|].
  injection E as -> ->.
  destruct rest as [|b rest']; [exact I|].
  cbn [segments strictly_increasing] in *.
  apply andb_true_iff in Hinc. destruct Hinc as [Hlt%Z.ltb_lt Hinc].
  inversion Hliq as [|? ? Ha Hliq']; subst.
  inversion Hliq' as [|? ? Hb _]; subst.
  cbn [chained lower_sqrt_price upper_sqrt_price seg_liquidity].
  repeat split; [lia|now apply segment_liquidity_nonneg|].
  now apply (IH b rest').
Qed.

Lemma segments_last_upper pts : forall a b rest,
  pts = a :: b :: rest ->
  upper_sqrt_price (last (segments segment_liquidity pts) (mk_segment 0 0 0))
  = fst (last pts (0, 0)).
Proof.
  induction pts as [|x pts IH]; intros a b rest E; [discriminate|].
  injection E as -> ->.
  destruct rest as [|c rest'].
  - reflexivity.
  - specialize (IH b c rest' eq_refl).
    change (last (a :: b :: c :: rest') (0, 0)) with (last (b :: c :: rest') (0, 0)).
    rewrite <- IH. reflexivity.
Qed.

End Curve.

Lemma valid_points_spec curve pt :
  In pt (valid_points curve) <-> In pt curve /\ fst pt <> 0.
Proof.
  unfold valid_points. rewrite filter_In.
  destruct (Z.eqb_spec (fst pt) 0); cbn [negb]; intuition congruence.
Qed.

(** C5.  On a valid curve (at least two valid points, strictly
    increasing, non-negative liquidity) and a pool price within it, an
    input whose net amount exceeds the total depth of the remaining
    segments is quoted without failure: [amount_out] is the output of
    crossing every remaining segment fully and [ending_sqrt_price] is
    the outermost boundary in the direction of the trade. *)
Theorem quote_saturates
        (FEE_DENOMINATOR : Z) (segment_liquidity : Z -> Z -> Z) (to_units : Q -> Z)
        (d : Direction) (amount_in cliff_fee_num protocol_fee_pct referral_fee_pct cur_sqrt : Z)
        (curve : list (Z * Z)) (segs : list Segment) :
  (forall lo hi, 0 <= lo -> 0 <= hi -> 0 <= segment_liquidity lo hi) ->
  Forall (fun pt => 0 <= fst pt /\ 0 <= snd pt) curve ->
  build_curve segment_liquidity curve = inr segs ->
  outer_boundary BaseToQuote curve <= cur_sqrt <= outer_boundary QuoteToBase curve ->
  (total_depth d (inject_Z cur_sqrt) (remaining d cur_sqrt segs)
   < inject_Z (net_input FEE_DENOMINATOR amount_in cliff_fee_num))%Q ->
  exists q,
    quote FEE_DENOMINATOR segment_liquidity to_units d amount_in cliff_fee_num
          protocol_fee_pct referral_fee_pct cur_sqrt curve = inr q /\
    SwapQuote.amount_out q
    = to_units (max_output d (inject_Z cur_sqrt) (remaining d cur_sqrt segs)) /\
    SwapQuote.ending_sqrt_price q = inject_Z (outer_boundary d curve).
Proof.
  intros Hliq Hpts Hbuild Hstate Hnet.
  unfold quote. rewrite Hbuild.
  unfold build_curve in Hbuild.
  destruct (Z.ltb_spec (Z.of_nat (List.length (valid_points curve))) 2) as [|Hlen];
    [discriminate|].
  destruct (strictly_increasing (valid_points curve)) eqn:Hinc; [|discriminate].
  injection Hbuild as <-.
  unfold outer_boundary in *.
  assert (Hvalid : Forall (fun pt => 0 < fst pt /\ 0 <= snd pt) (valid_points curve)).
  { apply Forall_forall. intros pt Hin. apply valid_points_spec in Hin.
    destruct Hin as [Hin Hnz]. rewrite Forall_forall in Hpts.
    specialize (Hpts _ Hin). lia. }
  destruct (valid_points curve) as [|a [|b rest]] eqn:Epts;
    [cbn in Hlen; lia | cbn in Hlen; lia |].
  set (pts := a :: b :: rest) in *.
  assert (Hchain : chained (fst a) (segments segment_liquidity pts)).
  { apply (segments_chained _ Hliq pts a (b :: rest) eq_refl Hinc).
    eapply Forall_impl; [|exact Hvalid]. cbn. intros; lia. }
  assert (Hne : segments segment_liquidity pts <> []) by discriminate.
  assert (Hlast : upper_sqrt_price (last (segments segment_liquidity pts) (mk_segment 0 0 0))
                  = fst (last pts (0, 0)))
    by (apply (segments_last_upper _ pts a b rest eq_refl)).
  assert (Hpos : 0 < fst a) by (inversion Hvalid; tauto).
  change (hd (0, 0) pts) with a in Hstate.
  assert (Hwalk : crossable d (inject_Z cur_sqrt)
                    (remaining d cur_sqrt (segments segment_liquidity pts)) /\
                  end_price d (inject_Z cur_sqrt)
                    (remaining d cur_sqrt (segments segment_liquidity pts))
                  = inject_Z (match d with
                              | QuoteToBase => fst (last pts (0, 0))
                              | BaseToQuote => fst (hd (0, 0) pts)
                              end)).
  { destruct d.
    - rewrite <- Hlast. apply (remaining_up _ (fst a)); auto. rewrite Hlast. lia.
    - apply (remaining_down _ (fst a)); auto. rewrite Hlast. lia. }
  destruct Hwalk as [Hcross Hend].
  pose proof (total_depth_nonneg _ _ _ Hcross) as Hdepth.
  assert (Hnetpos : 0 < net_input FEE_DENOMINATOR amount_in cliff_fee_num).
  { rewrite Zlt_Qlt. eapply Qle_lt_trans; [exact Hdepth|exact Hnet]. }
  unfold net_input in Hnetpos.
  destruct (Z.ltb_spec amount_in (fee_total FEE_DENOMINATOR amount_in cliff_fee_num)) as [|_];
    [lia|].
  rewrite (walk_saturates _ _ _ _ Hcross (Qlt_le_weak _ _ Hnet)).
  eexists. split; [reflexivity|]. cbn [SwapQuote.amount_out SwapQuote.ending_sqrt_price].
  split; [reflexivity|exact Hend].
Qed.

Lemma floor_div_bounds (x y : Z) : 0 < y -> y * (x / y) <= x < y * (x / y + 1).
Proof.
  intros Hy. pose proof (Z.mul_div_le x y Hy). pose proof (Z.mul_succ_div_gt x y Hy). lia.
Qed.

(** C4, as the formulas allow.  The fees of a quote are the floors the
    specification gives, and the protocol and referral shares together
    stay within [fee_total] when the two percentages sum to at most 100. *)
Theorem fee_breakdown
        (FEE_DENOMINATOR : Z) (segment_liquidity : Z -> Z -> Z) (to_units : Q -> Z)
        (d : Direction) (amount_in cliff_fee_num protocol_fee_pct referral_fee_pct cur_sqrt : Z)
        (curve : list (Z * Z)) (q : SwapQuote.t) :
  0 < FEE_DENOMINATOR -> 0 <= amount_in -> 0 <= cliff_fee_num ->
  0 <= protocol_fee_pct <= 100 -> 0 <= referral_fee_pct <= 100 ->
  quote FEE_DENOMINATOR segment_liquidity to_units d amount_in cliff_fee_num
        protocol_fee_pct referral_fee_pct cur_sqrt curve = inr q ->
  let ft := SwapQuote.fee_total q in
  let pf := SwapQuote.protocol_fee q in
  let rf := SwapQuote.referral_fee q in
  ft = amount_in * cliff_fee_num / FEE_DENOMINATOR /\
  FEE_DENOMINATOR * ft <= amount_in * cliff_fee_num < FEE_DENOMINATOR * (ft + 1) /\
  pf = ft * protocol_fee_pct / 100 /\
  100 * pf <= ft * protocol_fee_pct < 100 * (pf + 1) /\
  rf = ft * referral_fee_pct / 100 /\
  100 * rf <= ft * referral_fee_pct < 100 * (rf + 1) /\
  (protocol_fee_pct + referral_fee_pct <= 100 -> pf + rf <= ft).
Proof.
  intros HD Ha Hc Hp Hr Hq ft pf rf.
  unfold quote in Hq.
  destruct (build_curve segment_liquidity curve) as [|segs]; [discriminate|].
  destruct (amount_in <? fee_total FEE_DENOMINATOR amount_in cliff_fee_num); [discriminate|].
  destruct (walk d _ _ _) as [out p_end].
  injection Hq as <-. subst ft pf rf.
  cbn [SwapQuote.fee_total SwapQuote.protocol_fee SwapQuote.referral_fee].
  unfold protocol_fee, referral_fee, fee_total.
  set (ft := amount_in * cliff_fee_num / FEE_DENOMINATOR).
  assert (Hft : 0 <= ft) by (apply Z.div_pos; nia).
  pose proof (floor_div_bounds (amount_in * cliff_fee_num) FEE_DENOMINATOR HD).
  pose proof (floor_div_bounds (ft * protocol_fee_pct) 100 ltac:(lia)).
  pose proof (floor_div_bounds (ft * referral_fee_pct) 100 ltac:(lia)).
  fold ft in H.
  repeat split; try reflexivity; try lia.
  intros Hsum. nia.
Qed.

End SwapEstimateFacts.

(* ===================================================================== *)
(** * Runs in the concrete world                                           *)
(* ===================================================================== *)

Lemma swap_payload_layout_witness :
  (exists ps pc amount_in,
      reads_pool Demo.world "pool" ps pc /\
      env_int_scaled Demo.world (1 # 10) (PoolConfig.token_decimal pc) = inr amount_in /\
      is_swap_payload (snd (fst Demo.bought_swap)) amount_in 0)
  /\
  (exists ps pc balance amount_in,
      reads_pool Demo.world "pool" ps pc /\
      env_get_token_balance Demo.world (pubkey Demo.payer) (PoolState.base_mint ps)
      = inr balance /\
      env_int_share Demo.world balance 50 = inr amount_in /\
      is_swap_payload (snd (fst Demo.sold_swap)) amount_in 0).
Proof.
  split.
  - apply (proj1 (swap_payload_layout Demo.world Demo.payer "pool" (1 # 10) 50 5 100000 1000000
                                      (fst (fst Demo.bought_swap))
                                      (snd (fst Demo.bought_swap))
                                      (snd Demo.bought_swap))).
    vm_compute. left. reflexivity.
  - apply (proj2 (swap_payload_layout Demo.world Demo.payer "pool" (1 # 10) 50 5 100000 1000000
                                      (fst (fst Demo.sold_swap))
                                      (snd (fst Demo.sold_swap))
                                      (snd Demo.sold_swap))).
    vm_compute. left. reflexivity.
Defined.

Lemma swap_account_order_witness :
  (exists ps pc seed quote_acc base_acc base_ix,
      reads_pool Demo.world "pool" ps pc /\
      quote_holding_account Demo.world Demo.payer seed quote_acc /\
      buy_base_holding_account Demo.world Demo.payer ps base_acc base_ix /\
      snd Demo.bought_swap
      = Contract.account_metas
          (Contract.mk_participants Contract.Buy ps pc (pubkey Demo.payer) quote_acc base_acc))
  /\
  (exists ps pc seed quote_acc base_acc,
      reads_pool Demo.world "pool" ps pc /\
      quote_holding_account Demo.world Demo.payer seed quote_acc /\
      sell_base_holding_account Demo.world Demo.payer ps base_acc /\
      snd Demo.sold_swap
      = Contract.account_metas
          (Contract.mk_participants Contract.Sell ps pc (pubkey Demo.payer) quote_acc base_acc)).
Proof.
  split.
  - apply (proj1 (swap_account_order Demo.world Demo.payer "pool" (1 # 10) 50 5 100000 1000000
                                     (fst (fst Demo.bought_swap))
                                     (snd (fst Demo.bought_swap))
                                     (snd Demo.bought_swap))).
    vm_compute. left. reflexivity.
  - apply (proj1 (proj2 (swap_account_order Demo.world Demo.payer "pool" (1 # 10) 50 5
                                            100000 1000000
                                            (fst (fst Demo.sold_swap))
                                            (snd (fst Demo.sold_swap))
                                            (snd Demo.sold_swap)))).
    vm_compute. left. reflexivity.
Defined.


Lemma exceptions_become_false_witness :
  (outcome (Scenario.buy_io_in (Demo.world_failing_fetch Demo.empty_curve)) = inr false /\
   outcome (Scenario.sell_io_in (Demo.world_failing_fetch Demo.empty_curve)) = inr false)
  /\
  (outcome (Scenario.buy_io_in Scenario.closed_stdout) = inl Scenario.closed_file /\
   outcome (Scenario.sell_io_in Scenario.closed_stdout) = inl Scenario.closed_file)
  /\
  (outcome (Scenario.buy_io_in (Demo.world_failing_fetch Demo.keyboard_interrupt))
   = inl Demo.keyboard_interrupt /\
   outcome (Scenario.sell_io_in (Demo.world_failing_fetch Demo.keyboard_interrupt))
   = inl Demo.keyboard_interrupt)
  /\
  (outcome (Scenario.buy_io_in Demo.world) = inr true /\
   outcome (Scenario.sell_io_in Demo.world) = inr true).
Proof.
  split; [|split; [|split]].
  - pose proof (exceptions_become_false (Demo.world_failing_fetch Demo.empty_curve)
                                        Demo.payer "pool" (1 # 10) 50 5 100000 1000000)
      as (_ & _ & Hbuy & Hsell & _).
    split.
    + apply (Hbuy Demo.empty_curve); reflexivity.
    + apply (Hsell Demo.empty_curve); reflexivity.
  - pose proof (exceptions_become_false Scenario.closed_stdout
                                        Demo.payer "pool" (1 # 10) 50 5 100000 1000000)
      as (_ & _ & _ & _ & Hbuy & Hsell & _).
    split.
    + apply (Hbuy Demo.empty_curve); reflexivity.
    + apply (Hsell Demo.empty_curve); reflexivity.
  - pose proof (exceptions_become_false (Demo.world_failing_fetch Demo.keyboard_interrupt)
                                        Demo.payer "pool" (1 # 10) 50 5 100000 1000000)
      as (_ & _ & _ & _ & _ & _ & Hbuy & Hsell & _).
    split.
    + apply (Hbuy Demo.keyboard_interrupt); reflexivity.
    + apply (Hsell Demo.keyboard_interrupt); reflexivity.
  - pose proof (exceptions_become_false Demo.world
                                        Demo.payer "pool" (1 # 10) 50 5 100000 1000000)
      as (Hbuy & Hsell & _).
    split.
    + apply (Hbuy true); reflexivity.
    + apply (Hsell true); reflexivity.
Defined.

Lemma sell_rejects_percentage_out_of_range_witness :
  Demo.run_sell 0 5
  = ([ EPrint [PF "Starting sell transaction for pool: " (PStr "pool")];
       EPrint [PStr "Percentage must be between 1 and 100."] ],
     inr false)
  /\
  Demo.run_sell 101 5
  = ([ EPrint [PF "Starting sell transaction for pool: " (PStr "pool")];
       EPrint [PStr "Percentage must be between 1 and 100."] ],
     inr false).
Proof.
  split.
  - apply (sell_rejects_percentage_out_of_range Demo.world Demo.payer "pool" 0 5 100000 1000000).
    lia.
  - apply (sell_rejects_percentage_out_of_range Demo.world Demo.payer "pool" 101 5 100000 1000000).
    lia.
Defined.

Lemma sell_closes_base_account_iff_full_witness :
  (exists ps pc seed quote_acc rent base_acc amount_in,
      reads_pool Demo.world "pool" ps pc /\
      quote_holding_account Demo.world Demo.payer seed quote_acc /\
      sell_base_holding_account Demo.world Demo.payer ps base_acc /\
      let six :=
        [ set_compute_unit_limit 100000;
          set_compute_unit_price 1000000;
          create_quote_account_ix (pubkey Demo.payer) quote_acc seed rent;
          init_quote_account_ix (pubkey Demo.payer) quote_acc (PoolConfig.quote_mint pc);
          swap_ix (Contract.mk_participants Contract.Sell ps pc (pubkey Demo.payer)
                                            quote_acc base_acc)
                  amount_in 0;
          close_token_account_ix (pubkey Demo.payer) quote_acc ] in
      let close_base := close_token_account_ix (pubkey Demo.payer) base_acc in
      (100 = 100 /\ Demo.sold_all = (six ++ [close_base])%list \/
       1 <= 100 <= 99 /\ Demo.sold_all = six) /\
      (Demo.sold_all = (six ++ [close_base])%list <-> 100 = 100))
  /\
  (exists ps pc seed quote_acc rent base_acc amount_in,
      reads_pool Demo.world "pool" ps pc /\
      quote_holding_account Demo.world Demo.payer seed quote_acc /\
      sell_base_holding_account Demo.world Demo.payer ps base_acc /\
      let six :=
        [ set_compute_unit_limit 100000;
          set_compute_unit_price 1000000;
          create_quote_account_ix (pubkey Demo.payer) quote_acc seed rent;
          init_quote_account_ix (pubkey Demo.payer) quote_acc (PoolConfig.quote_mint pc);
          swap_ix (Contract.mk_participants Contract.Sell ps pc (pubkey Demo.payer)
                                            quote_acc base_acc)
                  amount_in 0;
          close_token_account_ix (pubkey Demo.payer) quote_acc ] in
      let close_base := close_token_account_ix (pubkey Demo.payer) base_acc in
      (50 = 100 /\ Demo.sold_half = (six ++ [close_base])%list \/
       1 <= 50 <= 99 /\ Demo.sold_half = six) /\
      (Demo.sold_half = (six ++ [close_base])%list <-> 50 = 100)).
Proof.
  split.
  - apply (sell_closes_base_account_iff_full Demo.world Demo.payer "pool" 100 5 100000 1000000
                                             Demo.sold_all).
    vm_compute. left. reflexivity.
  - apply (sell_closes_base_account_iff_full Demo.world Demo.payer "pool" 50 5 100000 1000000
                                             Demo.sold_half).
    vm_compute. left. reflexivity.
Defined.


(** C8, the claim as stated fails: an exception outside [Exception]
    raised by a collaborator leaves [buy] and [sell] as an exception. *)
Lemma base_exception_propagates :
  outcome (Demo.buy_on (Demo.world_failing_fetch Demo.keyboard_interrupt))
  = inl Demo.keyboard_interrupt /\
  outcome (Demo.sell_on (Demo.world_failing_fetch Demo.keyboard_interrupt))
  = inl Demo.keyboard_interrupt /\
  ~ (exists b : bool,
        outcome (Demo.buy_on (Demo.world_failing_fetch Demo.keyboard_interrupt)) = inr b).
Proof.
  repeat split; try reflexivity. intros [b Hb]. discriminate Hb.
Qed.

(** C4, the claim as stated fails: with both percentages at 100 the two
    shares are each the whole fee and together exceed it. *)
Lemma fee_shares_exceed_total :
  exists q,
    Demo.quote_of SwapEstimate.QuoteToBase 1000 10000000 100 100 100
                  [(100, 1000000); (200, 500000)] = inr q /\
    SwapEstimate.SwapQuote.fee_total q = 10 /\
    SwapEstimate.SwapQuote.protocol_fee q = 10 /\
    SwapEstimate.SwapQuote.referral_fee q = 10 /\
    ~ (SwapEstimate.SwapQuote.protocol_fee q + SwapEstimate.SwapQuote.referral_fee q
       <= SwapEstimate.SwapQuote.fee_total q).
Proof.
  eexists. split; [vm_compute; reflexivity|].
  cbn. repeat split; lia.
Qed.

Lemma fee_breakdown_witness :
  exists q,
    Demo.quote_of SwapEstimate.QuoteToBase 1000000 10000000 20 20 100
                  [(100, 1000000); (200, 500000)] = inr q /\
    SwapEstimate.SwapQuote.fee_total q = 1000000 * 10000000 / Demo.FEE_DENOMINATOR /\
    SwapEstimate.SwapQuote.protocol_fee q + SwapEstimate.SwapQuote.referral_fee q
    <= SwapEstimate.SwapQuote.fee_total q.
Proof.
  eexists. split; [vm_compute; reflexivity|].
  match goal with
  | |- context [SwapEstimate.SwapQuote.fee_total ?q] =>
      pose proof (SwapEstimateFacts.fee_breakdown
                    Demo.FEE_DENOMINATOR (fun _ hi => hi) Qfloor SwapEstimate.QuoteToBase
                    1000000 10000000 20 20 100 [(100, 1000000); (200, 500000)] q
                    ltac:(reflexivity) ltac:(lia) ltac:(lia) ltac:(lia) ltac:(lia)
                    ltac:(vm_compute; reflexivity)) as H
  end.
  cbv zeta in H. destruct H as (H1 & _ & _ & _ & _ & _ & H7).
  split; [exact H1|]. apply H7. lia.
Defined.

Lemma quote_saturates_witness :
  (exists q,
      Demo.quote_of SwapEstimate.QuoteToBase 100000000 10000000 20 20 100
                    [(100, 1000000); (200, 500000)] = inr q /\
      SwapEstimate.SwapQuote.amount_out q = 2500 /\
      SwapEstimate.SwapQuote.ending_sqrt_price q = inject_Z 200)
  /\
  (exists q,
      Demo.quote_of SwapEstimate.BaseToQuote 1000000 10000000 20 20 150
                    [(100, 1000000); (200, 500000)] = inr q /\
      SwapEstimate.SwapQuote.amount_out q = 25000000 /\
      SwapEstimate.SwapQuote.ending_sqrt_price q = inject_Z 100).
Proof.
  split.
  - destruct (SwapEstimateFacts.quote_saturates
                Demo.FEE_DENOMINATOR (fun _ hi => hi) Qfloor SwapEstimate.QuoteToBase
                100000000 10000000 20 20 100 [(100, 1000000); (200, 500000)]
                [SwapEstimate.mk_segment 100 200 500000])
      as (q & Hq & Hout & Hend).
    + intros lo hi _ Hhi. exact Hhi.
    + repeat constructor; cbn; lia.
    + reflexivity.
    + cbn. lia.
    + reflexivity.
    + exists q. split; [exact Hq|]. split; [rewrite Hout; reflexivity|exact Hend].
  - destruct (SwapEstimateFacts.quote_saturates
                Demo.FEE_DENOMINATOR (fun _ hi => hi) Qfloor SwapEstimate.BaseToQuote
                1000000 10000000 20 20 150 [(100, 1000000); (200, 500000)]
                [SwapEstimate.mk_segment 100 200 500000])
      as (q & Hq & Hout & Hend).
    + intros lo hi _ Hhi. exact Hhi.
    + repeat constructor; cbn; lia.
    + reflexivity.
    + cbn. lia.
    + reflexivity.
    + exists q. split; [exact Hq|]. split; [rewrite Hout; reflexivity|exact Hend].
Defined.

(** Two runs of [buy] and of [sell] that differ only in [slippage]: the
    same effects, the same result, and a floor of 0 in the payload. *)
Example slippage_is_ignored_run :
  Demo.run_buy 1 = Demo.run_buy 50 /\
  Demo.run_sell 50 1 = Demo.run_sell 50 50 /\
  Contract.decode_minimum_amount_out (snd (fst Demo.bought_swap)) = 0 /\
  Contract.decode_minimum_amount_out (snd (fst Demo.sold_swap)) = 0.
Proof. repeat split; reflexivity. Qed.

(** A partial crossing in the concrete world: an input below the cost of
    the segment ends below its upper boundary and yields less than the
    full crossing, which yields 2500. *)
Example partial_crossing_run :
  exists q,
    Demo.quote_of SwapEstimate.QuoteToBase 1000000 10000000 20 20 100
                  [(100, 1000000); (200, 500000)] = inr q /\
    (SwapEstimate.SwapQuote.ending_sqrt_price q < inject_Z 200)%Q /\
    SwapEstimate.SwapQuote.amount_out q = 97.
Proof.
  eexists. split; [vm_compute; reflexivity|]. split; reflexivity.
Qed.

(** A quote of nothing is a zero-output, zero-fee quote. *)
Example zero_input_run :
  exists q,
    Demo.quote_of SwapEstimate.BaseToQuote 0 10000000 20 20 150
                  [(100, 1000000); (200, 500000)] = inr q /\
    SwapEstimate.SwapQuote.amount_out q = 0 /\
    SwapEstimate.SwapQuote.fee_total q = 0.
Proof.
  eexists. split; [vm_compute; reflexivity|]. split; reflexivity.
Qed.

(* ===================================================================== *)
(** * Further facts about buy and sell                                     *)
(* ===================================================================== *)

Lemma struct_pack_Q_out_of_range (x : Z) :
  ~ (0 <= x < 2 ^ 64) -> Codec.struct_pack_Q x = inl Codec.struct_error.
Proof.
  intros H. unfold Codec.struct_pack_Q.
  destruct (Z.leb_spec 0 x); destruct (Z.ltb_spec x (2 ^ 64)); cbn [andb]; try reflexivity.
  lia.
Qed.

Section SubmissionFacts.

Context {float Balance Estimate Blockhash Message Signature : Type}.
Variable env : Env float Balance Estimate Blockhash Message Signature.

Ltac simpl_run :=
  cbn [bind ret Monad_Py Py_bind Py_ret fst snd app negb
       env_fetch_pool_state env_fetch_pool_config env_swap_quote_to_base
       env_swap_base_to_quote env_get_token_balance env_confirm_txn
       env_get_token_accounts_by_owner env_get_associated_token_address
       env_urandom_b64 env_create_with_seed env_get_min_balance_rent
       env_get_latest_blockhash env_try_compile env_send_transaction
       env_int_scaled env_truthy env_int_share env_range_error_text env_print_error
       exn_is_Exception].

(** Unfold the runs of the goal down to the collaborator answers. *)
Ltac open_runs :=
  unfold buy, sell, buy_body, sell_body, on_exception, try_except,
    fetch_pool_state, fetch_pool_config, swap_quote_to_base, swap_base_to_quote,
    get_token_balance, confirm_txn, get_token_accounts_by_owner,
    get_associated_token_address, urandom_b64, create_with_seed,
    get_min_balance_rent_for_exempt_for_account, get_latest_blockhash, try_compile,
    send_transaction, bytearray_fromhex, struct_pack_Q,
    build_set_compute_unit_limit, build_set_compute_unit_price,
    build_create_account_with_seed, call, eval, print,
    with_estimates, with_ledger;
  simpl_run; cbn [lamports space];
  rewrite fromhex_discriminator, struct_pack_Q_0, in_u64_ACCOUNT_SPACE; unfold Py_ret;
  simpl_run.

(** Case analysis on the answer of collaborator [f] the runs wait for. *)
Ltac ask f :=
  match goal with
  | |- context [match ?r with inl _ => _ | inr _ => _ end] =>
      match r with
      | context [f _ _ _ _ _ _ env] => destruct r eqn:?; simpl_run
      end
  end.

(** Follow the runs of the goal through every answer of every
    collaborator, in program order. *)
Ltac every_run :=
  try (match goal with
       | |- context [if negb ((1 <=? ?p) && (?p <=? 100)) then _ else _] =>
           destruct ((1 <=? p) && (p <=? 100)) eqn:?; simpl_run
       end);
  try ask @env_fetch_pool_state;
  try ask @env_fetch_pool_config;
  try ask @env_int_scaled;
  try ask @env_get_token_balance;
  try (match goal with
       | |- context [if negb (env_truthy env ?b) then _ else _] =>
           destruct (env_truthy env b) eqn:?; simpl_run
       end);
  try ask @env_int_share;
  try ask @env_swap_quote_to_base;
  try ask @env_swap_base_to_quote;
  try ask @env_get_token_accounts_by_owner;
  try (match goal with
       | |- context [match ?l with nil => _ | cons _ _ => _ end] =>
           is_var l; destruct l; simpl_run
       end);
  try ask @env_get_associated_token_address;
  try ask @env_urandom_b64;
  try ask @env_create_with_seed;
  try ask @env_get_min_balance_rent;
  try (match goal with
       | Hr : env_get_min_balance_rent env = inr ?r
         |- context [if in_u64 (?r + ?a) then _ else _] =>
           destruct (in_u64 (r + a)) eqn:?; simpl_run
       | Hr : env_get_min_balance_rent env = inr ?r
         |- context [if in_u64 ?r then _ else _] =>
           destruct (in_u64 r) eqn:?; simpl_run
       end);
  try (match goal with
       | |- context [Codec.struct_pack_Q ?z] =>
           destruct (Codec.struct_pack_Q z) eqn:?; simpl_run
       end);
  try (match goal with
       | |- context [if in_u32 ?x then _ else _] => destruct (in_u32 x) eqn:?; simpl_run
       end);
  try (match goal with
       | |- context [if in_u64 ?x then _ else _] => destruct (in_u64 x) eqn:?; simpl_run
       end);
  try (match goal with
       | |- context [if ?p =? 100 then _ else _] => destruct (p =? 100) eqn:?; simpl_run
       end);
  try ask @env_get_latest_blockhash;
  try ask @env_try_compile;
  try ask @env_send_transaction;
  try ask @env_confirm_txn;
  try (match goal with
       | |- context [exn_is_Exception ?e] => destruct (exn_is_Exception e) eqn:?; simpl_run
       end).

Ltac observe_run :=
  cbn [trace outcome fst snd calls sent compiled compile_payers confirmations
       quote_to_base_calls base_to_quote_calls quoted_curves swap_instructions
       raw_instructions filter flat_map app is_print negb List.length In] in *.

(** Name a run, unfold it and follow it everywhere; the goal is left
    about the finished run. *)
Ltac for_every_run r :=
  let run := fresh "run" in
  let Hrun := fresh "Hrun" in
  remember r as run eqn:Hrun;
  revert Hrun; open_runs; every_run; intros ->; observe_run.

Ltac show_submitted :=
  unfold submitted; do 2 eexists; repeat split; observe_run;
  first [reflexivity | eassumption].

(** X5.  [buy] and [sell] return [True] only after one transaction was
    compiled for the payer, sent signed by the payer, and [confirm_txn],
    asked about the signature the submission returned, answered [True]. *)
Theorem true_means_confirmed
        payer pool_str quote_in percentage slippage unit_budget unit_price :
  (outcome (buy env payer pool_str quote_in slippage unit_budget unit_price) = inr true ->
   exists msg sg,
     submitted env payer
               (trace (buy env payer pool_str quote_in slippage unit_budget unit_price)) msg sg /\
     confirmations (trace (buy env payer pool_str quote_in slippage unit_budget unit_price))
     = [sg] /\
     env_confirm_txn env sg = inr true)
  /\
  (outcome (sell env payer pool_str percentage slippage unit_budget unit_price) = inr true ->
   exists msg sg,
     submitted env payer
               (trace (sell env payer pool_str percentage slippage unit_budget unit_price)) msg sg /\
     confirmations (trace (sell env payer pool_str percentage slippage unit_budget unit_price))
     = [sg] /\
     env_confirm_txn env sg = inr true).
Proof.
  split.
  - for_every_run (buy env payer pool_str quote_in slippage unit_budget unit_price).
    all: intros Htrue; try discriminate; injection Htrue as ->.
    all: do 2 eexists; split; [show_submitted|].
    all: split; [reflexivity|assumption].
  - for_every_run (sell env payer pool_str percentage slippage unit_budget unit_price).
    all: intros Htrue; try discriminate; injection Htrue as ->.
    all: do 2 eexists; split; [show_submitted|].
    all: split; [reflexivity|assumption].
Qed.

(** Close a statement about a finished run: the observations are lists
    of at most one element, and every equation asked for is an answer
    recorded on the way. *)
Ltac settle :=
  repeat match goal with
         | |- _ /\ _ => split
         | |- (_ <= _)%nat => lia
         | |- forall _, _ => intro
         | H : False |- _ => destruct H
         | H : _ \/ False |- _ => destruct H as [H|[]]
         | H : (_, _) = (_, _) |- _ => injection H as <- <-
         | H : ?a = ?x |- _ => is_var x; subst x
         | |- submitted _ _ _ _ _ => show_submitted
         | |- exists _, _ => eexists
         | |- _ = _ => first [reflexivity | eassumption]
         end.

(** X6.  One call of [buy] or [sell] compiles, sends and asks about at
    most one transaction.  What it sends is the message the compiler
    returned, with the payer as fee payer and as signer; what it asks
    [confirm_txn] about is the signature of what it sent. *)
Theorem at_most_one_submission
        payer pool_str quote_in percentage slippage unit_budget unit_price :
  at_most_one_transaction
    env payer (trace (buy env payer pool_str quote_in slippage unit_budget unit_price)) /\
  at_most_one_transaction
    env payer (trace (sell env payer pool_str percentage slippage unit_budget unit_price)).
Proof.
  split.
  - for_every_run (buy env payer pool_str quote_in slippage unit_budget unit_price).
    all: unfold at_most_one_transaction; observe_run; settle.
  - for_every_run (sell env payer pool_str percentage slippage unit_budget unit_price).
    all: unfold at_most_one_transaction; observe_run; settle.
Qed.

(** X7.  A return value of [False] does not say that nothing was
    submitted.  Either nothing reached [send_transaction], or
    [send_transaction] raised, or the transaction was sent and
    [confirm_txn] answered [False] or raised. *)
Theorem false_is_not_unsent
        payer pool_str quote_in percentage slippage unit_budget unit_price :
  (outcome (buy env payer pool_str quote_in slippage unit_budget unit_price) = inr false ->
   false_outcome
     env payer (trace (buy env payer pool_str quote_in slippage unit_budget unit_price)))
  /\
  (outcome (sell env payer pool_str percentage slippage unit_budget unit_price) = inr false ->
   false_outcome
     env payer (trace (sell env payer pool_str percentage slippage unit_budget unit_price))).
Proof.
  split.
  - for_every_run (buy env payer pool_str quote_in slippage unit_budget unit_price).
    all: intros Hfalse; try discriminate; unfold false_outcome; observe_run.
    all: try (left; reflexivity).
    all: try (right; left; do 2 eexists; settle; fail).
    all: right; right; do 2 eexists; split; [show_submitted|].
    all: first [left; congruence | right; eexists; split; eassumption].
  - for_every_run (sell env payer pool_str percentage slippage unit_budget unit_price).
    all: intros Hfalse; try discriminate; unfold false_outcome; observe_run.
    all: try (left; reflexivity).
    all: try (right; left; do 2 eexists; settle; fail).
    all: right; right; do 2 eexists; split; [show_submitted|].
    all: first [left; congruence | right; eexists; split; eassumption].
Qed.

(** X4.  With a percentage in range and a base token balance that is
    zero or missing, [sell] reads the pool state, the pool
    configuration and the balance, logs that there is nothing to sell and
    returns [False]: no estimate, no seed, no transaction. *)
Theorem sell_nothing_to_sell
        payer pool_str percentage slippage unit_budget unit_price ps pc balance :
  1 <= percentage <= 100 ->
  reads_pool env pool_str ps pc ->
  env_get_token_balance env (pubkey payer) (PoolState.base_mint ps) = inr balance ->
  env_truthy env balance = false ->
  sell env payer pool_str percentage slippage unit_budget unit_price
  = ([ EPrint [PF "Starting sell transaction for pool: " (PStr pool_str)];
       EPrint [PStr "Fetching pool state..."];
       EFetchPoolState pool_str;
       EPrint [PStr "Fetching pool config..."];
       EFetchPoolConfig (PoolState.config ps);
       EPrint [PStr "Retrieving base token balance..."];
       EGetTokenBalance (pubkey payer) (PoolState.base_mint ps);
       EPrint [PStr "Base token balance is zero. Nothing to sell."] ],
     inr false).
Proof.
  intros Hpct [Hstate Hconfig] Hbalance Hzero.
  assert (E : (1 <=? percentage) && (percentage <=? 100) = true).
  { apply andb_true_iff. split; apply Z.leb_le; lia. }
  open_runs. rewrite E. simpl_run.
  rewrite Hstate. simpl_run. rewrite Hconfig. simpl_run.
  rewrite Hbalance. simpl_run. rewrite Hzero. reflexivity.
Qed.

(** X8.  When the amount to swap, or the lamports the transient quote
    account is to be created with, do not fit an unsigned 64-bit integer
    (negative, or 2^64 and more), no transaction is compiled or sent and
    the function does not return [True].  In [buy] the lamports are the
    rent plus the amount, in [sell] the rent. *)
Theorem amount_out_of_range_aborts
        payer pool_str quote_in percentage slippage unit_budget unit_price ps pc :
  reads_pool env pool_str ps pc ->
  (forall amount_in,
      env_int_scaled env quote_in (PoolConfig.token_decimal pc) = inr amount_in ->
      ~ (0 <= amount_in < 2 ^ 64) ->
      let run := buy env payer pool_str quote_in slippage unit_budget unit_price in
      compiled (trace run) = [] /\ sent (trace run) = [] /\ outcome run <> inr true)
  /\
  (forall balance amount_in,
      env_get_token_balance env (pubkey payer) (PoolState.base_mint ps) = inr balance ->
      env_int_share env balance percentage = inr amount_in ->
      ~ (0 <= amount_in < 2 ^ 64) ->
      let run := sell env payer pool_str percentage slippage unit_budget unit_price in
      compiled (trace run) = [] /\ sent (trace run) = [] /\ outcome run <> inr true)
  /\
  (forall amount_in rent,
      env_int_scaled env quote_in (PoolConfig.token_decimal pc) = inr amount_in ->
      env_get_min_balance_rent env = inr rent ->
      ~ (0 <= rent + amount_in < 2 ^ 64) ->
      let run := buy env payer pool_str quote_in slippage unit_budget unit_price in
      compiled (trace run) = [] /\ sent (trace run) = [] /\ outcome run <> inr true)
  /\
  (forall rent,
      env_get_min_balance_rent env = inr rent ->
      ~ (0 <= rent < 2 ^ 64) ->
      let run := sell env payer pool_str percentage slippage unit_budget unit_price in
      compiled (trace run) = [] /\ sent (trace run) = [] /\ outcome run <> inr true).
Proof.
  intros [Hstate Hconfig]. split; [|split; [|split]].
  - intros amount_in Hamount Hrange run. subst run.
    pose proof (struct_pack_Q_out_of_range amount_in Hrange) as Hpack.
    for_every_run (buy env payer pool_str quote_in slippage unit_budget unit_price).
    all: try (split; [reflexivity|split; [reflexivity|discriminate]]).
    all: exfalso; congruence.
  - intros balance amount_in Hbalance Hamount Hrange run. subst run.
    pose proof (struct_pack_Q_out_of_range amount_in Hrange) as Hpack.
    for_every_run (sell env payer pool_str percentage slippage unit_budget unit_price).
    all: try (split; [reflexivity|split; [reflexivity|discriminate]]).
    all: exfalso; congruence.
  - intros amount_in rent Hamount Hrent Hrange run. subst run.
    rewrite <- in_u64_iff in Hrange. apply not_true_is_false in Hrange.
    for_every_run (buy env payer pool_str quote_in slippage unit_budget unit_price).
    all: try (split; [reflexivity|split; [reflexivity|discriminate]]).
    all: exfalso; congruence.
  - intros rent Hrent Hrange run. subst run.
    rewrite <- in_u64_iff in Hrange. apply not_true_is_false in Hrange.
    for_every_run (sell env payer pool_str percentage slippage unit_budget unit_price).
    all: try (split; [reflexivity|split; [reflexivity|discriminate]]).
    all: exfalso; congruence.
Qed.

(** X16.  A compute unit limit that does not fit 32 bits, or a compute
    unit price that does not fit 64 bits, is refused when the two
    compute budget instructions are built: no transaction is compiled
    or sent, and the function does not return [True]. *)
Theorem compute_budget_out_of_range_aborts
        payer pool_str quote_in percentage slippage unit_budget unit_price :
  ~ (0 <= unit_budget < 2 ^ 32) \/ ~ (0 <= unit_price < 2 ^ 64) ->
  (let run := buy env payer pool_str quote_in slippage unit_budget unit_price in
   compiled (trace run) = [] /\ sent (trace run) = [] /\ outcome run <> inr true)
  /\
  (let run := sell env payer pool_str percentage slippage unit_budget unit_price in
   compiled (trace run) = [] /\ sent (trace run) = [] /\ outcome run <> inr true).
Proof.
  intros Hrange.
  assert (Hrefused : in_u32 unit_budget = false \/ in_u64 unit_price = false).
  { destruct Hrange as [H|H]; [left; rewrite <- in_u32_iff in H | right; rewrite <- in_u64_iff in H];
      now apply not_true_is_false. }
  clear Hrange. split; cbv zeta.
  - for_every_run (buy env payer pool_str quote_in slippage unit_budget unit_price).
    all: try (split; [reflexivity|split; [reflexivity|discriminate]]).
    all: exfalso; destruct Hrefused; congruence.
  - for_every_run (sell env payer pool_str percentage slippage unit_budget unit_price).
    all: try (split; [reflexivity|split; [reflexivity|discriminate]]).
    all: exfalso; destruct Hrefused; congruence.
Qed.


(** X10.  The value the estimator returns is only printed: two worlds
    that differ in nothing but the estimates returned give the same
    calls, with the same transaction, and the same result. *)
Theorem estimate_is_display_only
        payer pool_str quote_in percentage slippage unit_budget unit_price
        (f f' g g' : Z -> Z -> Z -> Z -> Z -> list (Z * Z) -> Estimate) :
  let w := with_estimates env (fun a c p r s cv => inr (f a c p r s cv))
                              (fun a c p r s cv => inr (g a c p r s cv)) in
  let w' := with_estimates env (fun a c p r s cv => inr (f' a c p r s cv))
                               (fun a c p r s cv => inr (g' a c p r s cv)) in
  (calls (trace (buy w payer pool_str quote_in slippage unit_budget unit_price))
   = calls (trace (buy w' payer pool_str quote_in slippage unit_budget unit_price)) /\
   outcome (buy w payer pool_str quote_in slippage unit_budget unit_price)
   = outcome (buy w' payer pool_str quote_in slippage unit_budget unit_price))
  /\
  (calls (trace (sell w payer pool_str percentage slippage unit_budget unit_price))
   = calls (trace (sell w' payer pool_str percentage slippage unit_budget unit_price)) /\
   outcome (sell w payer pool_str percentage slippage unit_budget unit_price)
   = outcome (sell w' payer pool_str percentage slippage unit_budget unit_price)).
Proof.
  intros w w'. subst w w'. split.
  - unfold trace, outcome. open_runs. every_run.
    all: observe_run; split; reflexivity.
  - unfold trace, outcome. open_runs. every_run.
    all: observe_run; split; reflexivity.
Qed.

(** Read a packed amount back from the payload it went into. *)
Ltac read_back :=
  repeat match goal with
         | H : Codec.struct_pack_Q _ = inr _ |- _ =>
             apply struct_pack_Q_inr in H; destruct H as [? ->]
         end;
  match goal with
  | |- context [Contract.decode_amount_in
                  (Contract.be_bytes 8 Contract.SWAP_DISCRIMINATOR
                     ++ Codec.le_bytes 8 ?z ++ Codec.le_bytes 8 0)%list] =>
      change (Contract.be_bytes 8 Contract.SWAP_DISCRIMINATOR
                ++ Codec.le_bytes 8 z ++ Codec.le_bytes 8 0)%list
        with (Contract.encode z 0);
      rewrite (proj1 (decode_encode z 0 ltac:(assumption) ltac:(lia)))
  end.

(** X11.  [buy] asks only [swap_quote_to_base] and [sell] only
    [swap_base_to_quote].  Whenever a swap instruction is compiled, the
    estimator was called exactly once, for the [amount_in] the payload
    carries, with the fee parameters of the pool configuration and the
    current price of the pool state. *)
Theorem estimate_matches_swap_amount
        payer pool_str quote_in percentage slippage unit_budget unit_price :
  (let t := trace (buy env payer pool_str quote_in slippage unit_budget unit_price) in
   base_to_quote_calls t = [] /\
   forall prog data accounts,
     In (prog, data, accounts) (swap_instructions t) ->
     exists ps pc,
       reads_pool env pool_str ps pc /\
       quote_to_base_calls t
       = [ (Contract.decode_amount_in data,
            PoolConfig.cliff_fee_numerator (PoolConfig.base_fee (PoolConfig.pool_fees pc)),
            PoolConfig.protocol_fee_percent (PoolConfig.pool_fees pc),
            PoolConfig.referral_fee_percent (PoolConfig.pool_fees pc),
            PoolState.sqrt_price ps) ])
  /\
  (let t := trace (sell env payer pool_str percentage slippage unit_budget unit_price) in
   quote_to_base_calls t = [] /\
   forall prog data accounts,
     In (prog, data, accounts) (swap_instructions t) ->
     exists ps pc,
       reads_pool env pool_str ps pc /\
       base_to_quote_calls t
       = [ (Contract.decode_amount_in data,
            PoolConfig.cliff_fee_numerator (PoolConfig.base_fee (PoolConfig.pool_fees pc)),
            PoolConfig.protocol_fee_percent (PoolConfig.pool_fees pc),
            PoolConfig.referral_fee_percent (PoolConfig.pool_fees pc),
            PoolState.sqrt_price ps) ]).
Proof.
  split; cbv zeta.
  - for_every_run (buy env payer pool_str quote_in slippage unit_budget unit_price).
    all: split; [reflexivity|]; intros prog data accounts Hin; try contradiction.
    all: destruct Hin as [Hin|[]];
      apply (f_equal (fun x => snd (fst x))) in Hin; cbn [fst snd] in Hin; subst data.
    all: do 2 eexists; split; [split; eassumption|].
    all: read_back; reflexivity.
  - for_every_run (sell env payer pool_str percentage slippage unit_budget unit_price).
    all: split; [reflexivity|]; intros prog data accounts Hin; try contradiction.
    all: destruct Hin as [Hin|[]];
      apply (f_equal (fun x => snd (fst x))) in Hin; cbn [fst snd] in Hin; subst data.
    all: do 2 eexists; split; [split; eassumption|].
    all: read_back; reflexivity.
Qed.

(** X12.  A call that returns [True] made exactly ten collaborator
    calls, in this order: pool state, pool configuration, (for [sell]
    the balance,) the estimate, (for [buy] the token account search,)
    the random seed, the rent, the block hash, compile, send, confirm. *)
Theorem successful_call_sequence
        payer pool_str quote_in percentage slippage unit_budget unit_price :
  (outcome (buy env payer pool_str quote_in slippage unit_budget unit_price) = inr true ->
   exists ps pc amount_in ixs bh msg sg,
     reads_pool env pool_str ps pc /\
     calls (trace (buy env payer pool_str quote_in slippage unit_budget unit_price))
     = [ EFetchPoolState pool_str;
         EFetchPoolConfig (PoolState.config ps);
         ESwapQuoteToBase
           amount_in
           (PoolConfig.cliff_fee_numerator (PoolConfig.base_fee (PoolConfig.pool_fees pc)))
           (PoolConfig.protocol_fee_percent (PoolConfig.pool_fees pc))
           (PoolConfig.referral_fee_percent (PoolConfig.pool_fees pc))
           (PoolState.sqrt_price ps)
           (map (fun pt => (CurvePoint.sqrt_price pt, CurvePoint.liquidity pt))
                (filter (fun pt => negb (CurvePoint.sqrt_price pt =? 0))
                        (PoolConfig.curve pc)));
         EGetTokenAccountsByOwner (pubkey payer) (PoolState.base_mint ps);
         EUrandom 24;
         EGetMinBalanceRent;
         EGetLatestBlockhash;
         ETryCompile (pubkey payer) ixs bh;
         ESendTransaction msg payer;
         EConfirmTxn sg ])
  /\
  (outcome (sell env payer pool_str percentage slippage unit_budget unit_price) = inr true ->
   exists ps pc amount_in ixs bh msg sg,
     reads_pool env pool_str ps pc /\
     calls (trace (sell env payer pool_str percentage slippage unit_budget unit_price))
     = [ EFetchPoolState pool_str;
         EFetchPoolConfig (PoolState.config ps);
         EGetTokenBalance (pubkey payer) (PoolState.base_mint ps);
         ESwapBaseToQuote
           amount_in
           (PoolConfig.cliff_fee_numerator (PoolConfig.base_fee (PoolConfig.pool_fees pc)))
           (PoolConfig.protocol_fee_percent (PoolConfig.pool_fees pc))
           (PoolConfig.referral_fee_percent (PoolConfig.pool_fees pc))
           (PoolState.sqrt_price ps)
           (map (fun pt => (CurvePoint.sqrt_price pt, CurvePoint.liquidity pt))
                (filter (fun pt => negb (CurvePoint.sqrt_price pt =? 0))
                        (PoolConfig.curve pc)));
         EUrandom 24;
         EGetMinBalanceRent;
         EGetLatestBlockhash;
         ETryCompile (pubkey payer) ixs bh;
         ESendTransaction msg payer;
         EConfirmTxn sg ]).
Proof.
  split.
  - for_every_run (buy env payer pool_str quote_in slippage unit_budget unit_price).
    all: intros Htrue; try discriminate.
    all: do 7 eexists; split; [split; eassumption|reflexivity].
  - for_every_run (sell env payer pool_str percentage slippage unit_budget unit_price).
    all: intros Htrue; try discriminate.
    all: do 7 eexists; split; [split; eassumption|reflexivity].
Qed.

(** X1.  The transaction [buy] compiles starts with the compute limit
    and the compute price it was given and ends with the closing of the
    transient quote account, its only close.  When the payer owns no
    token account for the base mint it has seven instructions, the fifth
    creating the associated base token account just before the swap;
    otherwise it has six and creates no base account. *)
Theorem buy_creates_base_account_when_missing
        payer pool_str quote_in slippage unit_budget unit_price ixs :
  In ixs (compiled (trace (buy env payer pool_str quote_in slippage unit_budget unit_price))) ->
  exists ps pc found seed quote_acc,
    reads_pool env pool_str ps pc /\
    env_get_token_accounts_by_owner env (pubkey payer) (PoolState.base_mint ps) = inr found /\
    quote_holding_account env payer seed quote_acc /\
    nth_error ixs 0 = Some (set_compute_unit_limit unit_budget) /\
    nth_error ixs 1 = Some (set_compute_unit_price unit_price) /\
    map close_account (closed_accounts ixs) = [close_token_account_ix (pubkey payer) quote_acc] /\
    last ixs (set_compute_unit_limit 0) = close_token_account_ix (pubkey payer) quote_acc /\
    let create_base :=
      create_associated_token_account
        (pubkey payer) (pubkey payer) (PoolState.base_mint ps) in
    (found = [] ->
     List.length ixs = 7%nat /\
     nth_error ixs 4 = Some create_base /\
     exists prog data accounts, nth_error ixs 5 = Some (Instruction prog data accounts)) /\
    (found <> [] ->
     List.length ixs = 6%nat /\
     ~ In create_base ixs /\
     exists prog data accounts, nth_error ixs 4 = Some (Instruction prog data accounts)).
Proof.
  intros H. apply buy_compiled_inv in H.
  destruct H as (ps & pc & amount_in & seed & quote_acc & rent & base_acc & base_ix
                 & Hpool & _ & _ & Hquote & Hbase & _ & ->).
  destruct Hbase as (found & Hfound & Hshape).
  exists ps, pc, found, seed, quote_acc.
  do 3 (split; [assumption|]).
  destruct found as [|first others]; destruct Hshape as [_ ->].
  - repeat (split; [reflexivity|]). split.
    + intros _. split; [reflexivity|]. split; [reflexivity|]. do 3 eexists. reflexivity.
    + intros Hne. contradiction.
  - repeat (split; [reflexivity|]). split.
    + intros Hnil. discriminate.
    + intros _. split; [reflexivity|]. split.
      * cbn [app In swap_ix close_token_account_ix create_quote_account_ix
             init_quote_account_ix].
        intros Hin. repeat (destruct Hin as [Hin|Hin]; [discriminate|]). exact Hin.
      * do 3 eexists. reflexivity.
Qed.

Lemma decode_amount_in_encode (a : Z) :
  0 <= a < 2 ^ 64 -> Contract.decode_amount_in (Contract.encode a 0) = a.
Proof. intros Ha. apply (decode_encode a 0 Ha). lia. Qed.

(** X2.  The transient quote account is created with 165 bytes, owned
    by the token program and paid by the payer.  [buy] funds it with the
    rent plus exactly the [amount_in] of the swap payload; [sell] funds
    it with the rent alone. *)
Theorem quote_account_funding
        payer pool_str quote_in percentage slippage unit_budget unit_price ixs :
  (In ixs (compiled (trace (buy env payer pool_str quote_in slippage unit_budget unit_price))) ->
   exists rent p prog data accounts,
     env_get_min_balance_rent env = inr rent /\
     created_with_seed ixs = [p] /\
     raw_instructions ixs = [(prog, data, accounts)] /\
     lamports p = rent + Contract.decode_amount_in data /\
     space p = 165 /\ owner p = TOKEN_PROGRAM_ID /\ from_pubkey p = pubkey payer)
  /\
  (In ixs (compiled (trace (sell env payer pool_str percentage slippage unit_budget unit_price))) ->
   exists rent p,
     env_get_min_balance_rent env = inr rent /\
     created_with_seed ixs = [p] /\
     lamports p = rent /\
     space p = 165 /\ owner p = TOKEN_PROGRAM_ID /\ from_pubkey p = pubkey payer).
Proof.
  split; intros H.
  - apply buy_compiled_inv in H.
    destruct H as (ps & pc & amount_in & seed & quote_acc & rent & base_acc & base_ix
                   & _ & _ & Hrange & _ & Hbase & Hrent & ->).
    apply buy_base_ix_shape in Hbase.
    exists rent. do 4 eexists. split; [exact Hrent|].
    destruct Hbase as [->|(a & b & c & ->)].
    + split; [reflexivity|]. split; [reflexivity|].
      cbn [lamports space owner from_pubkey]. rewrite decode_amount_in_encode by assumption.
      repeat split.
    + split; [reflexivity|]. split; [reflexivity|].
      cbn [lamports space owner from_pubkey]. rewrite decode_amount_in_encode by assumption.
      repeat split.
  - apply sell_compiled_inv in H.
    destruct H as (ps & pc & balance & amount_in & seed & quote_acc & rent & base_acc
                   & _ & _ & _ & _ & _ & _ & _ & _ & Hrent & ->).
    exists rent. eexists. split; [exact Hrent|].
    destruct (percentage =? 100); repeat split.
Qed.

(** X3.  Every transaction [buy] or [sell] compiles creates one account
    with a seed, lists it as a writable account of the swap instruction
    that follows, and closes it after the swap with the lamports going
    back to the payer who funded it. *)
Theorem seeded_account_is_closed
        payer pool_str quote_in percentage slippage unit_budget unit_price ixs :
  In ixs (compiled (trace (buy env payer pool_str quote_in slippage unit_budget unit_price))) \/
  In ixs (compiled (trace (sell env payer pool_str percentage slippage unit_budget unit_price))) ->
  creations_closed ixs /\ List.length (created_with_seed ixs) = 1%nat.
Proof.
  intros [H|H].
  - apply buy_compiled_inv in H.
    destruct H as (ps & pc & amount_in & seed & quote_acc & rent & base_acc & base_ix
                   & _ & _ & _ & _ & Hbase & _ & ->).
    apply buy_base_ix_shape in Hbase.
    destruct Hbase as [->|(a & b & c & ->)]; (split; [|reflexivity]).
    + cbn [app creations_closed swap_ix close_token_account_ix create_quote_account_ix
           init_quote_account_ix to_pubkey from_pubkey]. repeat split.
      exists [init_quote_account_ix (pubkey payer) quote_acc (PoolConfig.quote_mint pc)].
      do 3 eexists. eexists. split; [reflexivity|].
      split; [cbn; tauto | left; reflexivity].
    + cbn [app creations_closed swap_ix close_token_account_ix create_quote_account_ix
           init_quote_account_ix to_pubkey from_pubkey]. repeat split.
      exists [init_quote_account_ix (pubkey payer) quote_acc (PoolConfig.quote_mint pc);
              create_associated_token_account a b c].
      do 3 eexists. eexists. split; [reflexivity|].
      split; [cbn; tauto | left; reflexivity].
  - apply sell_compiled_inv in H.
    destruct H as (ps & pc & balance & amount_in & seed & quote_acc & rent & base_acc
                   & _ & _ & _ & _ & _ & _ & _ & _ & _ & ->).
    destruct (percentage =? 100); (split; [|reflexivity]).
    + cbn [app creations_closed swap_ix close_token_account_ix create_quote_account_ix
           init_quote_account_ix to_pubkey from_pubkey]. repeat split.
      exists [init_quote_account_ix (pubkey payer) quote_acc (PoolConfig.quote_mint pc)].
      do 3 eexists. eexists. split; [reflexivity|].
      split; [cbn; tauto | left; reflexivity].
    + cbn [app creations_closed swap_ix close_token_account_ix create_quote_account_ix
           init_quote_account_ix to_pubkey from_pubkey]. repeat split.
      exists [init_quote_account_ix (pubkey payer) quote_acc (PoolConfig.quote_mint pc)].
      do 3 eexists. eexists. split; [reflexivity|].
      split; [cbn; tauto | left; reflexivity].
Qed.

(** X13.  The account created with a seed is the address derived from
    the payer, the seed and the token program, which are the base, seed
    and owner its creation names, the seed being the 24 random bytes
    read; the same transaction initialises this account under the token
    program for the quote mint of the pool configuration the run read,
    with the payer as owner. *)
Theorem seeded_address_matches_creation
        payer pool_str quote_in percentage slippage unit_budget unit_price ixs p :
  In ixs (compiled (trace (buy env payer pool_str quote_in slippage unit_budget unit_price))) \/
  In ixs (compiled (trace (sell env payer pool_str percentage slippage unit_budget unit_price))) ->
  In p (created_with_seed ixs) ->
  exists ps pc,
    reads_pool env pool_str ps pc /\
    base p = pubkey payer /\
    owner p = TOKEN_PROGRAM_ID /\
    env_urandom_b64 env 24 = inr (seed p) /\
    env_create_with_seed env (base p) (seed p) (owner p) = inr (to_pubkey p) /\
    In (initialize_account
          {| init_program_id := TOKEN_PROGRAM_ID; init_account := to_pubkey p;
             init_mint := PoolConfig.quote_mint pc; init_owner := pubkey payer |}) ixs.
Proof.
  intros [H|H] Hp.
  - apply buy_compiled_inv in H.
    destruct H as (ps & pc & amount_in & sd & quote_acc & rent & base_acc & base_ix
                   & Hpool & _ & _ & [Hseed Hkey] & Hbase & _ & ->).
    apply buy_base_ix_shape in Hbase. exists ps, pc. split; [exact Hpool|].
    destruct Hbase as [->|(a & b & c & ->)];
      cbn [app created_with_seed flat_map swap_ix close_token_account_ix
           create_quote_account_ix init_quote_account_ix In] in Hp;
      destruct Hp as [<-|[]]; cbn [seed base owner to_pubkey];
      (split; [reflexivity|]); (split; [reflexivity|]);
      (split; [exact Hseed|]); (split; [exact Hkey|]); cbn; tauto.
  - apply sell_compiled_inv in H.
    destruct H as (ps & pc & balance & amount_in & sd & quote_acc & rent & base_acc
                   & _ & Hpool & _ & _ & _ & _ & [Hseed Hkey] & _ & _ & ->).
    exists ps, pc. split; [exact Hpool|].
    destruct (percentage =? 100);
      cbn [app created_with_seed flat_map swap_ix close_token_account_ix
           create_quote_account_ix init_quote_account_ix In] in Hp;
      destruct Hp as [<-|[]]; cbn [seed base owner to_pubkey];
      (split; [reflexivity|]); (split; [reflexivity|]);
      (split; [exact Hseed|]); (split; [exact Hkey|]); cbn; tauto.
Qed.




(** C6.  The curve [buy] and [sell] hand to the quotation engine lists
    exactly the points of the configuration's curve whose [sqrt_price]
    is not zero, in their order and unaltered.  Each function, once it
    has read the pool and computed the amount, calls its estimator once
    and with that curve. *)
Theorem quoted_curve_is_filtered
        payer pool_str quote_in percentage slippage unit_budget unit_price :
  (forall c,
      In c (quoted_curves
              (trace (buy env payer pool_str quote_in slippage unit_budget unit_price))) ->
      exists ps pc,
        reads_pool env pool_str ps pc /\ filtered_curve (PoolConfig.curve pc) c)
  /\
  (forall c,
      In c (quoted_curves
              (trace (sell env payer pool_str percentage slippage unit_budget unit_price))) ->
      exists ps pc,
        reads_pool env pool_str ps pc /\ filtered_curve (PoolConfig.curve pc) c)
  /\
  (forall ps pc amount_in,
      reads_pool env pool_str ps pc ->
      env_int_scaled env quote_in (PoolConfig.token_decimal pc) = inr amount_in ->
      exists c,
        quoted_curves
          (trace (buy env payer pool_str quote_in slippage unit_budget unit_price)) = [c] /\
        filtered_curve (PoolConfig.curve pc) c)
  /\
  (forall ps pc balance amount_in,
      1 <= percentage <= 100 ->
      reads_pool env pool_str ps pc ->
      env_get_token_balance env (pubkey payer) (PoolState.base_mint ps) = inr balance ->
      env_truthy env balance = true ->
      env_int_share env balance percentage = inr amount_in ->
      exists c,
        quoted_curves
          (trace (sell env payer pool_str percentage slippage unit_budget unit_price)) = [c] /\
        filtered_curve (PoolConfig.curve pc) c).
Proof.
  split; [|split; [|split]].
  - intros c H. apply buy_quoted_inv in H. destruct H as (ps & pc & Hpool & ->).
    exists ps, pc. split; [assumption|apply filtered_curve_filter].
  - intros c H. apply sell_quoted_inv in H. destruct H as (ps & pc & Hpool & ->).
    exists ps, pc. split; [assumption|apply filtered_curve_filter].
  - intros ps pc amount_in [Hstate Hconfig] Hamount.
    eexists. split; [|apply filtered_curve_filter].
    unfold trace. open_runs.
    rewrite Hstate. simpl_run. rewrite Hconfig. simpl_run. rewrite Hamount. simpl_run.
    every_run. all: observe_run; reflexivity.
  - intros ps pc balance amount_in Hpct [Hstate Hconfig] Hbalance Htruthy Hamount.
    assert (E : (1 <=? percentage) && (percentage <=? 100) = true).
    { apply andb_true_iff. split; apply Z.leb_le; lia. }
    eexists. split; [|apply filtered_curve_filter].
    unfold trace. open_runs. rewrite E. simpl_run.
    rewrite Hstate. simpl_run. rewrite Hconfig. simpl_run. rewrite Hbalance. simpl_run.
    rewrite Htruthy. simpl_run. rewrite Hamount. simpl_run.
    every_run. all: observe_run; reflexivity.
Qed.

End SubmissionFacts.

(* ===================================================================== *)
(** * Further runs in concrete worlds                                      *)
(* ===================================================================== *)

Lemma quoted_curve_is_filtered_witness :
  (exists ps pc,
      reads_pool Demo.world "pool" ps pc /\
      filtered_curve (PoolConfig.curve pc) Demo.quoted_curve)
  /\
  (exists ps pc,
      reads_pool Demo.world "pool" ps pc /\
      filtered_curve (PoolConfig.curve pc) Demo.sold_curve)
  /\
  (exists c,
      quoted_curves (trace (Demo.run_buy 5)) = [c] /\
      filtered_curve (PoolConfig.curve Demo.the_pool_config) c)
  /\
  (exists c,
      quoted_curves (trace (Demo.run_sell 50 5)) = [c] /\
      filtered_curve (PoolConfig.curve Demo.the_pool_config) c).
Proof.
  pose proof (quoted_curve_is_filtered Demo.world Demo.payer "pool" (1 # 10) 50 5
                                       100000 1000000)
    as (Hbought & Hsold & Hbuys & Hsells).
  split; [|split; [|split]].
  - apply Hbought. vm_compute. left. reflexivity.
  - apply Hsold. vm_compute. left. reflexivity.
  - apply (Hbuys Demo.the_pool_state Demo.the_pool_config 100000000).
    + split; reflexivity.
    + reflexivity.
  - apply (Hsells Demo.the_pool_state Demo.the_pool_config (Some 5000) 2500).
    + lia.
    + split; reflexivity.
    + reflexivity.
    + reflexivity.
    + reflexivity.
Defined.

Lemma true_means_confirmed_witness :
  outcome (Scenario.buy_in Demo.world (1 # 10)) = inr true /\
  exists msg sg,
    submitted Demo.world Demo.payer (trace (Scenario.buy_in Demo.world (1 # 10))) msg sg /\
    confirmations (trace (Scenario.buy_in Demo.world (1 # 10))) = [sg] /\
    env_confirm_txn Demo.world sg = inr true.
Proof.
  split; [reflexivity|].
  apply (proj1 (true_means_confirmed Demo.world Demo.payer "pool" (1 # 10) 50 5
                                     100000 1000000)).
  reflexivity.
Defined.

Lemma false_is_not_unsent_witness :
  outcome (Scenario.buy_in Scenario.unconfirmed (1 # 10)) = inr false /\
  List.length (sent (trace (Scenario.buy_in Scenario.unconfirmed (1 # 10)))) = 1%nat /\
  false_outcome Scenario.unconfirmed Demo.payer
                (trace (Scenario.buy_in Scenario.unconfirmed (1 # 10))).
Proof.
  split; [reflexivity|]. split; [reflexivity|].
  apply (proj1 (false_is_not_unsent Scenario.unconfirmed Demo.payer "pool" (1 # 10) 50 5
                                    100000 1000000)).
  reflexivity.
Defined.

Lemma sell_nothing_to_sell_witness :
  Scenario.sell_in Scenario.empty_balance 50
  = ([ EPrint [PF "Starting sell transaction for pool: " (PStr "pool")];
       EPrint [PStr "Fetching pool state..."];
       EFetchPoolState "pool";
       EPrint [PStr "Fetching pool config..."];
       EFetchPoolConfig (PoolState.config Demo.the_pool_state);
       EPrint [PStr "Retrieving base token balance..."];
       EGetTokenBalance (pubkey Demo.payer) (PoolState.base_mint Demo.the_pool_state);
       EPrint [PStr "Base token balance is zero. Nothing to sell."] ],
     inr false).
Proof.
  apply (sell_nothing_to_sell Scenario.empty_balance Demo.payer "pool" 50 5 100000 1000000
                              Demo.the_pool_state Demo.the_pool_config (Some 0)).
  - lia.
  - split; reflexivity.
  - reflexivity.
  - reflexivity.
Defined.

Lemma amount_out_of_range_aborts_witness :
  (compiled (trace (Scenario.buy_in Demo.world (-1 # 10))) = [] /\
   sent (trace (Scenario.buy_in Demo.world (-1 # 10))) = [] /\
   outcome (Scenario.buy_in Demo.world (-1 # 10)) <> inr true)
  /\
  (compiled (trace (Scenario.sell_in Scenario.huge_balance 100)) = [] /\
   sent (trace (Scenario.sell_in Scenario.huge_balance 100)) = [] /\
   outcome (Scenario.sell_in Scenario.huge_balance 100) <> inr true)
  /\
  (compiled (trace (Scenario.buy_in Demo.world (20000000000 # 1))) = [] /\
   sent (trace (Scenario.buy_in Demo.world (20000000000 # 1))) = [] /\
   outcome (Scenario.buy_in Demo.world (20000000000 # 1)) <> inr true)
  /\
  (compiled (trace (Scenario.sell_in Scenario.negative_rent 50)) = [] /\
   sent (trace (Scenario.sell_in Scenario.negative_rent 50)) = [] /\
   outcome (Scenario.sell_in Scenario.negative_rent 50) <> inr true).
Proof.
  split; [|split; [|split]].
  - apply (proj1 (amount_out_of_range_aborts
                    Demo.world Demo.payer "pool" (-1 # 10) 100 5 100000 1000000
                    Demo.the_pool_state Demo.the_pool_config (conj eq_refl eq_refl))
                 (-100000000)).
    + reflexivity.
    + lia.
  - apply (proj1 (proj2 (amount_out_of_range_aborts
                           Scenario.huge_balance Demo.payer "pool" (1 # 10) 100 5
                           100000 1000000
                           Demo.the_pool_state Demo.the_pool_config (conj eq_refl eq_refl)))
                 (Some (2 ^ 64)) (2 ^ 64)).
    + reflexivity.
    + reflexivity.
    + lia.
  - apply (proj1 (proj2 (proj2 (amount_out_of_range_aborts
                                  Demo.world Demo.payer "pool" (20000000000 # 1) 100 5
                                  100000 1000000
                                  Demo.the_pool_state Demo.the_pool_config
                                  (conj eq_refl eq_refl))))
                 20000000000000000000 2039280).
    + reflexivity.
    + reflexivity.
    + lia.
  - apply (proj2 (proj2 (proj2 (amount_out_of_range_aborts
                                  Scenario.negative_rent Demo.payer "pool" (1 # 10) 50 5
                                  100000 1000000
                                  Demo.the_pool_state Demo.the_pool_config
                                  (conj eq_refl eq_refl))))
                 (-1)).
    + reflexivity.
    + lia.
Defined.

Lemma compute_budget_out_of_range_aborts_witness :
  (compiled (trace Scenario.buy_over_budget) = [] /\
   sent (trace Scenario.buy_over_budget) = [] /\
   outcome Scenario.buy_over_budget <> inr true)
  /\
  (compiled (trace Scenario.sell_underpriced) = [] /\
   sent (trace Scenario.sell_underpriced) = [] /\
   outcome Scenario.sell_underpriced <> inr true).
Proof.
  split.
  - apply (proj1 (compute_budget_out_of_range_aborts
                    Demo.world Demo.payer "pool" (1 # 10) 50 5 (2 ^ 32) 1000000
                    ltac:(left; lia))).
  - apply (proj2 (compute_budget_out_of_range_aborts
                    Demo.world Demo.payer "pool" (1 # 10) 50 5 100000 (-1)
                    ltac:(right; lia))).
Defined.


Lemma estimate_matches_swap_amount_witness :
  exists ps pc,
    reads_pool Demo.world "pool" ps pc /\
    quote_to_base_calls (trace (Scenario.buy_in Demo.world (1 # 10)))
    = [ (Contract.decode_amount_in (snd (fst Demo.bought_swap)),
         PoolConfig.cliff_fee_numerator (PoolConfig.base_fee (PoolConfig.pool_fees pc)),
         PoolConfig.protocol_fee_percent (PoolConfig.pool_fees pc),
         PoolConfig.referral_fee_percent (PoolConfig.pool_fees pc),
         PoolState.sqrt_price ps) ].
Proof.
  apply (proj2 (proj1 (estimate_matches_swap_amount Demo.world Demo.payer "pool" (1 # 10) 50 5
                                                    100000 1000000))
               (fst (fst Demo.bought_swap)) (snd (fst Demo.bought_swap))
               (snd Demo.bought_swap)).
  vm_compute. left. reflexivity.
Defined.

Lemma successful_call_sequence_witness :
  exists ps pc amount_in ixs bh msg sg,
    reads_pool Demo.world "pool" ps pc /\
    calls (trace (Scenario.sell_in Demo.world 50))
    = [ EFetchPoolState "pool";
        EFetchPoolConfig (PoolState.config ps);
        EGetTokenBalance (pubkey Demo.payer) (PoolState.base_mint ps);
        ESwapBaseToQuote
          amount_in
          (PoolConfig.cliff_fee_numerator (PoolConfig.base_fee (PoolConfig.pool_fees pc)))
          (PoolConfig.protocol_fee_percent (PoolConfig.pool_fees pc))
          (PoolConfig.referral_fee_percent (PoolConfig.pool_fees pc))
          (PoolState.sqrt_price ps)
          (map (fun pt => (CurvePoint.sqrt_price pt, CurvePoint.liquidity pt))
               (filter (fun pt => negb (CurvePoint.sqrt_price pt =? 0))
                       (PoolConfig.curve pc)));
        EUrandom 24;
        EGetMinBalanceRent;
        EGetLatestBlockhash;
        ETryCompile (pubkey Demo.payer) ixs bh;
        ESendTransaction msg Demo.payer;
        EConfirmTxn sg ].
Proof.
  apply (proj2 (successful_call_sequence Demo.world Demo.payer "pool" (1 # 10) 50 5
                                         100000 1000000)).
  reflexivity.
Defined.

Lemma buy_creates_base_account_when_missing_witness :
  (List.length Scenario.bought = 7%nat /\
   nth_error Scenario.bought 4
   = Some (create_associated_token_account
             (pubkey Demo.payer) (pubkey Demo.payer)
             (PoolState.base_mint Demo.the_pool_state)))
  /\
  List.length Scenario.bought_into_existing = 6%nat.
Proof.
  split.
  - destruct (buy_creates_base_account_when_missing
                Demo.world Demo.payer "pool" (1 # 10) 5 100000 1000000 Scenario.bought)
      as (ps & pc & found & sd & quote_acc & [Hstate _] & Hfound & _ & _ & _ & _ & _
          & Hmissing & _).
    + vm_compute. left. reflexivity.
    + injection Hstate as <-. injection Hfound as <-.
      destruct (Hmissing eq_refl) as (Hlen & Hfifth & _). split; assumption.
  - destruct (buy_creates_base_account_when_missing
                Scenario.existing_account Demo.payer "pool" (1 # 10) 5 100000 1000000
                Scenario.bought_into_existing)
      as (ps & pc & found & sd & quote_acc & _ & Hfound & _ & _ & _ & _ & _ & _ & Hexisting).
    + vm_compute. left. reflexivity.
    + injection Hfound as <-.
      destruct (Hexisting ltac:(discriminate)) as (Hlen & _). assumption.
Defined.

Lemma quote_account_funding_witness :
  (exists rent p prog data accounts,
      env_get_min_balance_rent Demo.world = inr rent /\
      created_with_seed Scenario.bought = [p] /\
      raw_instructions Scenario.bought = [(prog, data, accounts)] /\
      lamports p = rent + Contract.decode_amount_in data /\
      space p = 165 /\ owner p = TOKEN_PROGRAM_ID /\ from_pubkey p = pubkey Demo.payer)
  /\
  (exists rent p,
      env_get_min_balance_rent Demo.world = inr rent /\
      created_with_seed Demo.sold_half = [p] /\
      lamports p = rent /\
      space p = 165 /\ owner p = TOKEN_PROGRAM_ID /\ from_pubkey p = pubkey Demo.payer).
Proof.
  split.
  - apply (proj1 (quote_account_funding Demo.world Demo.payer "pool" (1 # 10) 50 5
                                        100000 1000000 Scenario.bought)).
    vm_compute. left. reflexivity.
  - apply (proj2 (quote_account_funding Demo.world Demo.payer "pool" (1 # 10) 50 5
                                        100000 1000000 Demo.sold_half)).
    vm_compute. left. reflexivity.
Defined.

Lemma seeded_account_is_closed_witness :
  (creations_closed Scenario.bought /\
   List.length (created_with_seed Scenario.bought) = 1%nat)
  /\
  (creations_closed Demo.sold_all /\
   List.length (created_with_seed Demo.sold_all) = 1%nat).
Proof.
  split.
  - apply (seeded_account_is_closed Demo.world Demo.payer "pool" (1 # 10) 100 5
                                    100000 1000000 Scenario.bought).
    left. vm_compute. left. reflexivity.
  - apply (seeded_account_is_closed Demo.world Demo.payer "pool" (1 # 10) 100 5
                                    100000 1000000 Demo.sold_all).
    right. vm_compute. left. reflexivity.
Defined.

Lemma seeded_address_matches_creation_witness :
  exists ps pc,
    reads_pool Demo.world "pool" ps pc /\
    base Scenario.bought_account = pubkey Demo.payer /\
    owner Scenario.bought_account = TOKEN_PROGRAM_ID /\
    env_urandom_b64 Demo.world 24 = inr (seed Scenario.bought_account) /\
    env_create_with_seed Demo.world (base Scenario.bought_account)
                         (seed Scenario.bought_account) (owner Scenario.bought_account)
    = inr (to_pubkey Scenario.bought_account) /\
    In (initialize_account
          {| init_program_id := TOKEN_PROGRAM_ID;
             init_account := to_pubkey Scenario.bought_account;
             init_mint := PoolConfig.quote_mint pc;
             init_owner := pubkey Demo.payer |}) Scenario.bought.
Proof.
  apply (seeded_address_matches_creation Demo.world Demo.payer "pool" (1 # 10) 50 5
                                         100000 1000000 Scenario.bought
                                         Scenario.bought_account).
  - left. vm_compute. left. reflexivity.
  - vm_compute. left. reflexivity.
Defined.


